(** * Portfolio analyzer: the Python worker's parsing core

    A shallow embedding of [python-worker/src]: the date and number
    normalizers ([utils]), the categorizer, the transformer and the merger
    ([processors]) and the orchestrator, followed by the properties of the
    specification that concern them.

    Conventions of the embedding.
    - A Python [str] is a [string] over an alphabet of 256 characters: the
      code points below 256 (Latin-1), but for the code 128, which stands for
      the euro sign U+20AC of [number_utils] (its place in Windows-1252)
      instead of the control character U+0080.  On that alphabet the
      regular-expression class [\d] is ['0'..'9'], and [str.strip], [\s],
      [str.lower] and [str.isprintable] are the functions of module [pystr].
    - A Python exception that the source catches where it is raised is an
      [option] (or a sum) at that place.  An exception that leaves the
      function that raises it is a value of [pyexcept.result]: the
      [OverflowError] of [float()] on an [int] beyond the floats, caught by
      the row loop of the orchestrator, and the [AttributeError] of
      [col.lower()] on a column label that is not a text, which nothing
      catches.  Functions of the source that cannot raise are total
      functions.
    - Python floats are kept abstract (class [PyFloat]): the properties below
      hold for every conversion [float()]; one instance, built on decimal
      literals, is used to run the examples.
    - The file loader ([parsers/file_loader.py]) reads the disk: it is a
      parameter of the orchestrator, with the contract of its docstring (a
      table, or the text of an error).  Column labels are texts or, as a
      spreadsheet header may hold them, numbers; they are unique within a
      table. *)

From Stdlib Require Import List ZArith String Ascii Bool Lia Permutation.
From Stdlib Require Import Sorted Eqdep_dec DecimalString.
Import ListNotations.

#[local] Open Scope string_scope.
#[local] Open Scope list_scope.
#[local] Open Scope Z_scope.

(* ------------------------------------------------------------------ *)
(** ** Python strings *)

Module pystr.

(** [c.isspace()], which is also the class [\s] of [re] on [str]. *)
Definition is_space (c : ascii) : bool :=
  let n := N_of_ascii c in
  (((9 <=? n) && (n <=? 13)) || ((28 <=? n) && (n <=? 32))
   || (n =? 133) || (n =? 160))%N.

(** The class [\d] of [re]. *)
Definition is_digit (c : ascii) : bool :=
  let n := N_of_ascii c in ((48 <=? n) && (n <=? 57))%N.

Definition in_range (lo hi c : ascii) : bool :=
  ((N_of_ascii lo <=? N_of_ascii c) && (N_of_ascii c <=? N_of_ascii hi))%N.

(** The value of a decimal digit, as [int()] reads it. *)
Definition digit_value (c : ascii) : Z := Z.of_N (N_of_ascii c) - 48.

(** The decimal digit of a value in [0..9]. *)
Definition digit (n : Z) : ascii := ascii_of_N (48 + Z.to_N n).

Fixpoint lstrip (s : string) : string :=
  match s with
  | EmptyString => EmptyString
  | String c s' => if is_space c then lstrip s' else s
  end.

Fixpoint rstrip (s : string) : string :=
  match s with
  | EmptyString => EmptyString
  | String c s' =>
      match rstrip s' with
      | EmptyString => if is_space c then EmptyString else String c EmptyString
      | r => String c r
      end
  end.

(** [s.strip()] *)
Definition strip (s : string) : string := rstrip (lstrip s).

Definition lower_char (c : ascii) : ascii :=
  let n := N_of_ascii c in
  if (((65 <=? n) && (n <=? 90))
      || ((192 <=? n) && (n <=? 222) && negb (n =? 215)))%N
  then ascii_of_N (n + 32) else c.

(** [s.lower()] *)
Fixpoint lower (s : string) : string :=
  match s with
  | EmptyString => EmptyString
  | String c s' => String (lower_char c) (lower s')
  end.

(** [needle in haystack] *)
Fixpoint contains (needle haystack : string) : bool :=
  String.prefix needle haystack ||
  match haystack with
  | EmptyString => false
  | String _ h => contains needle h
  end.

(** [re.sub] of a character class by the empty string. *)
Fixpoint remove_chars (p : ascii -> bool) (s : string) : string :=
  match s with
  | EmptyString => EmptyString
  | String c s' => if p c then remove_chars p s' else String c (remove_chars p s')
  end.

(** [str(n)] for an [int]. *)
Definition str_of_Z (n : Z) : string := NilZero.string_of_int (Z.to_int n).

(** Truth value of a [str]. *)
Definition nonempty (s : string) : bool :=
  match s with EmptyString => false | _ => true end.

(** The euro sign. *)
Definition euro : ascii := ascii_of_N 128.

(** [c.isprintable()] *)
Definition is_printable (c : ascii) : bool :=
  let n := N_of_ascii c in
  (((32 <=? n) && (n <=? 126)) || (n =? 128) || ((161 <=? n) && (n <=? 172))
   || ((174 <=? n) && (n <=? 255)))%N.

Definition hex_digit (n : N) : ascii :=
  if (n <? 10)%N then ascii_of_N (48 + n) else ascii_of_N (87 + n).

Definition double_quote : ascii := ascii_of_N 34.
Definition backslash : ascii := ascii_of_N 92.

Definition repr_char (quote c : ascii) : string :=
  let n := N_of_ascii c in
  if Ascii.eqb c backslash || Ascii.eqb c quote
  then String backslash (String c EmptyString)
  else if (n =? 9)%N then String backslash "t"
  else if (n =? 10)%N then String backslash "n"
  else if (n =? 13)%N then String backslash "r"
  else if is_printable c then String c EmptyString
  else String backslash
         (String "x" (String (hex_digit (n / 16)) (String (hex_digit (n mod 16)) EmptyString))).

Fixpoint repr_chars (quote : ascii) (s : string) : string :=
  match s with
  | EmptyString => EmptyString
  | String c s' => (repr_char quote c ++ repr_chars quote s')%string
  end.

(** [repr(s)] for a [str]: single quotes, unless the text has a single quote
    and no double quote. *)
Definition repr_str (s : string) : string :=
  let quote :=
    if contains "'" s && negb (contains (String double_quote EmptyString) s)
    then double_quote else "'"%char in
  String quote (repr_chars quote s ++ String quote EmptyString)%string.

(** [str(l)] for a list, from the [repr] of its items. *)
Definition str_of_list (reprs : list string) : string :=
  ("[" ++ String.concat ", " reprs ++ "]")%string.

(** A stable sort by a string key: [sorted(l)] and [l.sort(key=...)].
    Python's sort is stable, so its result is the one of this insertion
    sort. *)
Fixpoint insert_by {A : Type} (key : A -> string) (x : A) (l : list A) : list A :=
  match l with
  | [] => [x]
  | y :: l' => if String.leb (key x) (key y) then x :: l else y :: insert_by key x l'
  end.

Definition sort_by {A : Type} (key : A -> string) (l : list A) : list A :=
  fold_right (insert_by key) [] l.

End pystr.

(* ------------------------------------------------------------------ *)
(** ** Exceptions that leave the function that raises them *)

Module pyexcept.

Inductive exception : Type :=
| OverflowError (message : string)
| AttributeError (message : string).

(** [str(e)] *)
Definition message_of (e : exception) : string :=
  match e with
  | OverflowError message | AttributeError message => message
  end.

(** What a call gives: the value it returns, or the exception it raises. *)
Inductive result (A : Type) : Type :=
| Return (a : A)
| Raise (e : exception).

Arguments Return {A} a.
Arguments Raise {A} e.

(** A call followed by the rest of the body: an exception ends the body. *)
Definition bind {A B : Type} (x : result A) (f : A -> result B) : result B :=
  match x with
  | Return a => f a
  | Raise e => Raise e
  end.

Notation "x <- e1 ;; e2" := (bind e1 (fun x => e2))
  (at level 61, e1 at next level, right associativity).

(** The call returns. *)
Definition returns {A : Type} (x : result A) : bool :=
  match x with
  | Return _ => true
  | Raise _ => false
  end.

End pyexcept.

(* ------------------------------------------------------------------ *)
(** ** Python's [datetime]: calendar dates, [strftime], [strptime] *)

Module pydatetime.
Import pystr.

Definition is_leap (y : Z) : bool :=
  (y mod 4 =? 0) && (negb (y mod 100 =? 0) || (y mod 400 =? 0)).

Definition days_in_month (y m : Z) : Z :=
  match m with
  | 2 => if is_leap y then 29 else 28
  | 4 | 6 | 9 | 11 => 30
  | _ => 31
  end.

(** The range check of the [datetime] constructor. *)
Definition valid_ymd (y m d : Z) : bool :=
  (1 <=? y) && (y <=? 9999) && (1 <=? m) && (m <=? 12)
  && (1 <=? d) && (d <=? days_in_month y m).

(** A [datetime] (or pandas [Timestamp]) value; only its calendar date is
    observed by the code. *)
Record datetime : Type := mk_datetime {
  year : Z;
  month : Z;
  day : Z;
  datetime_ok : valid_ymd year month day = true
}.

(** [datetime(y, m, d)]; [None] stands for the [ValueError]. *)
Definition make_datetime (y m d : Z) : option datetime :=
  match bool_dec (valid_ymd y m d) true with
  | left ok => Some (mk_datetime y m d ok)
  | right _ => None
  end.

(** [d1 < d2] on datetimes. *)
Definition datetime_ltb (a b : datetime) : bool :=
  (year a <? year b)
  || ((year a =? year b)
      && ((month a <? month b) || ((month a =? month b) && (day a <? day b)))).

Definition pad2 (n : Z) : string :=
  String (digit (n / 10)) (String (digit (n mod 10)) EmptyString).

Definition pad4 (n : Z) : string :=
  String (digit (n / 1000)) (String (digit ((n / 100) mod 10))
    (String (digit ((n / 10) mod 10)) (String (digit (n mod 10)) EmptyString))).

(** [dt.date().isoformat()]: the year on four digits, the month and the day
    on two.  [str(dt)] starts with it. *)
Definition isoformat (dt : datetime) : string :=
  (pad4 (year dt) ++ "-" ++ pad2 (month dt) ++ "-" ++ pad2 (day dt))%string.

(** [dt.strftime('%Y-%m-%d')], which CPython hands to the [strftime] of the
    C library: with glibc [%Y] is the year in decimal with no padding, so a
    year below 1000 has fewer than four digits; [%m] and [%d] are zero
    padded. *)
Definition strftime (dt : datetime) : string :=
  (str_of_Z (year dt) ++ "-" ++ pad2 (month dt) ++ "-" ++ pad2 (day dt))%string.

(** *** [datetime.strptime]

    A format is read into directives; each directive is the regular
    expression [_strptime] compiles it to, its alternatives tried in order
    and abandoned when the rest of the format fails (backtracking). *)

Inductive directive : Type :=
| DirY | DirM | DirD
| Lit (c : ascii).

Fixpoint directives (fmt : string) : list directive :=
  match fmt with
  | EmptyString => []
  | String "%" (String c rest) =>
      (if Ascii.eqb c "Y" then DirY
       else if Ascii.eqb c "m" then DirM
       else if Ascii.eqb c "d" then DirD
       else Lit c) :: directives rest
  | String c rest => Lit c :: directives rest
  end.

Definition alternative := string -> option (Z * string).

Definition one (p : ascii -> bool) : alternative := fun s =>
  match s with
  | String a r => if p a then Some (digit_value a, r) else None
  | _ => None
  end.

Definition two (p q : ascii -> bool) : alternative := fun s =>
  match s with
  | String a (String b r) =>
      if p a && q b then Some (10 * digit_value a + digit_value b, r) else None
  | _ => None
  end.

Definition space_one (p : ascii -> bool) : alternative := fun s =>
  match s with
  | String " " (String b r) => if p b then Some (digit_value b, r) else None
  | _ => None
  end.

(** [\d\d\d\d] *)
Definition four_digits : alternative := fun s =>
  match s with
  | String a (String b (String c (String d r))) =>
      if is_digit a && is_digit b && is_digit c && is_digit d
      then Some (1000 * digit_value a + 100 * digit_value b
                 + 10 * digit_value c + digit_value d, r)
      else None
  | _ => None
  end.

(** [1[0-2]|0[1-9]|[1-9]] *)
Definition month_alternatives : list alternative :=
  [ two (Ascii.eqb "1") (in_range "0" "2");
    two (Ascii.eqb "0") (in_range "1" "9");
    one (in_range "1" "9") ].

(** [3[0-1]|[1-2]\d|0[1-9]|[1-9]| [1-9]] *)
Definition day_alternatives : list alternative :=
  [ two (Ascii.eqb "3") (in_range "0" "1");
    two (in_range "1" "2") is_digit;
    two (Ascii.eqb "0") (in_range "1" "9");
    one (in_range "1" "9");
    space_one (in_range "1" "9") ].

Fixpoint try_alternatives {B : Type} (alts : list alternative) (s : string)
    (k : Z -> string -> option B) : option B :=
  match alts with
  | [] => None
  | a :: alts' =>
      match a s with
      | Some (v, r) =>
          match k v r with
          | Some b => Some b
          | None => try_alternatives alts' s k
          end
      | None => try_alternatives alts' s k
      end
  end.

(** The match of the compiled format at the start of [s]: the fields found
    and the text left after the match. *)
Fixpoint match_format (ds : list directive) (s : string) (y m d : Z)
    : option (Z * Z * Z * string) :=
  match ds with
  | [] => Some (y, m, d, s)
  | Lit c :: ds' =>
      match s with
      | String c' s' => if Ascii.eqb c c' then match_format ds' s' y m d else None
      | EmptyString => None
      end
  | DirY :: ds' =>
      match four_digits s with
      | Some (v, r) => match_format ds' r v m d
      | None => None
      end
  | DirM :: ds' =>
      try_alternatives month_alternatives s (fun v r => match_format ds' r y v d)
  | DirD :: ds' =>
      try_alternatives day_alternatives s (fun v r => match_format ds' r y m v)
  end.

(** [datetime.strptime(s, fmt)]; [None] stands for the [ValueError] (no
    match, unconverted data left, or no such calendar day). *)
Definition strptime (s fmt : string) : option datetime :=
  match match_format (directives fmt) s 1900 1 1 with
  | Some (y, m, d, EmptyString) => make_datetime y m d
  | _ => None
  end.

End pydatetime.

(* ------------------------------------------------------------------ *)
(** ** Floats and pandas values *)

(** Python's [float], kept abstract: a type of values with the operations
    the code uses. *)
Class PyFloat (float : Type) : Type := {
  (** [float(s)] for a [str]; [None] stands for the [ValueError] *)
  float_of_str : string -> option float;
  (** [float(n)] for an [int] within the range of the floats *)
  float_of_int : Z -> float;
  (** [math.isnan(x)] *)
  float_isnan : float -> bool;
  (** [bool(x)] *)
  float_truth : float -> bool;
  (** [str(x)] *)
  str_of_float : float -> string
}.

Module pandas.
Import pystr pydatetime.

(** A column label: a text, or a number, as [read_excel] keeps the numbers
    of a header row. *)
Inductive label : Type :=
| LText (s : string)
| LInt (n : Z).

(** [a == b] on labels. *)
Definition label_eqb (a b : label) : bool :=
  match a, b with
  | LText s, LText t => String.eqb s t
  | LInt n, LInt m => n =? m
  | _, _ => false
  end.

(** [repr(l)] *)
Definition repr_label (l : label) : string :=
  match l with
  | LText s => repr_str s
  | LInt n => str_of_Z n
  end.

Section with_float.
Context {float : Type} `{PyFloat float}.

(** The value of a cell of a table. *)
Inductive cell : Type :=
| CNone
| CNaT
| CStr (s : string)
| CInt (n : Z)
| CBool (b : bool)
| CFloat (x : float)
| CTime (t : datetime).

(** [pd.isna(v)] *)
Definition isna (v : cell) : bool :=
  match v with
  | CNone | CNaT => true
  | CFloat x => float_isnan x
  | _ => false
  end.

(** [str(v)] *)
Definition str (v : cell) : string :=
  match v with
  | CNone => "None"
  | CNaT => "NaT"
  | CStr s => s
  | CInt n => str_of_Z n
  | CBool b => if b then "True" else "False"
  | CFloat x => str_of_float x
  | CTime t => (isoformat t ++ " 00:00:00")%string
  end.

(** [bool(v)] *)
Definition truth (v : cell) : bool :=
  match v with
  | CNone => false
  | CNaT => true
  | CStr s => nonempty s
  | CInt n => negb (n =? 0)
  | CBool b => b
  | CFloat x => float_truth x
  | CTime _ => true
  end.

(** A [Series]: the row of a table, values under their column labels. *)
Definition Series : Type := list (label * cell).

(** [row.index] *)
Definition index (row : Series) : list label := map fst row.

(** [name in row.index] *)
Definition has_label (name : label) (row : Series) : bool :=
  existsb (label_eqb name) (index row).

(** [row[name]], for a label of the index. *)
Fixpoint get (row : Series) (name : label) : option cell :=
  match row with
  | [] => None
  | (l, v) :: row' => if label_eqb l name then Some v else get row' name
  end.

(** A [DataFrame] with the default integer index. *)
Record DataFrame : Type := mk_DataFrame {
  columns : list label;
  values : list (list cell)
}.

(** [df.empty] *)
Definition empty (df : DataFrame) : bool :=
  match values df, columns df with
  | [], _ | _, [] => true
  | _, _ => false
  end.

Fixpoint enumerate {A : Type} (start : Z) (l : list A) : list (Z * A) :=
  match l with
  | [] => []
  | x :: l' => (start, x) :: enumerate (start + 1) l'
  end.

(** [df.iterrows()] *)
Definition iterrows (df : DataFrame) : list (Z * Series) :=
  enumerate 0 (map (combine (columns df)) (values df)).

End with_float.

Arguments cell : clear implicits.
Arguments Series : clear implicits.
Arguments DataFrame : clear implicits.

End pandas.

(* ------------------------------------------------------------------ *)
(** ** utils/number_utils.py *)

Module number_utils.
Import pystr pyexcept pandas.

Section with_float.
Context {float : Type} `{PyFloat float}.

(** The class removed by [re.sub]: dollar, euro, pound, comma and [\s]. *)
Definition currency_or_space (c : ascii) : bool :=
  Ascii.eqb c "$" || Ascii.eqb c euro || Ascii.eqb c (ascii_of_N 163)
  || Ascii.eqb c "," || is_space c.

(** [float(n)] raises for an [int] that rounds to no finite float: in
    absolute value, from [2**1024 - 2**970] on. *)
Definition float_overflows (n : Z) : bool := 2 ^ 1024 - 2 ^ 970 <=? Z.abs n.

Definition int_too_large : exception :=
  OverflowError "int too large to convert to float".

(** [parse_float].  The conversion of a number is outside the [try] of the
    function: its [OverflowError] leaves it. *)
Definition parse_float (value : cell float) : result (option float) :=
  match value with
  | CNone => Return None
  | CInt n =>
      if float_overflows n then Raise int_too_large
      else Return (Some (float_of_int n))
  | CBool b => Return (Some (float_of_int (if b then 1 else 0)))
  | CFloat x => Return (Some x)
  | CStr s =>
      let cleaned := strip s in
      if negb (nonempty cleaned) then Return None
      else Return (float_of_str (remove_chars currency_or_space cleaned))
  | CNaT | CTime _ => Return None
  end.

End with_float.
End number_utils.

(* ------------------------------------------------------------------ *)
(** ** utils/date_utils.py *)

Module date_utils.
Import pystr pydatetime pandas.

(** [re.match(r'^\d{4}-\d{2}-\d{2}$', s)]: [$] matches at the end of the
    text and also just before a newline that ends it. *)
Definition re_match_iso (s : string) : bool :=
  match s with
  | String y1 (String y2 (String y3 (String y4 (String h1
      (String m1 (String m2 (String h2 (String d1 (String d2 rest))))))))) =>
      is_digit y1 && is_digit y2 && is_digit y3 && is_digit y4
      && Ascii.eqb h1 "-" && is_digit m1 && is_digit m2
      && Ascii.eqb h2 "-" && is_digit d1 && is_digit d2
      && (String.eqb rest EmptyString
          || String.eqb rest (String (ascii_of_N 10) EmptyString))
  | _ => false
  end.

Definition formats : list string :=
  [ "%Y-%m-%d"; "%m/%d/%Y"; "%d/%m/%Y"; "%Y/%m/%d"; "%d-%m-%Y"; "%m-%d-%Y" ].

(** The loop over [formats]: the first format that parses wins. *)
Fixpoint try_formats (fmts : list string) (s : string) : option string :=
  match fmts with
  | [] => None
  | fmt :: fmts' =>
      match strptime s fmt with
      | Some dt => Some (strftime dt)
      | None => try_formats fmts' s
      end
  end.

(** [compare_dates] *)
Definition compare_dates (date1 date2 : string) : Z :=
  match strptime date1 "%Y-%m-%d", strptime date2 "%Y-%m-%d" with
  | Some d1, Some d2 =>
      if datetime_ltb d1 d2 then -1
      else if datetime_ltb d2 d1 then 1
      else 0
  | _, _ => 0
  end.

Section with_float.
Context {float : Type} `{PyFloat float}.

(** [parse_date].  A text of the right shape is returned as it is; another
    text goes through the formats, and has no [strftime] when they all fail;
    a datetime or Timestamp is formatted; [NaT.strftime] raises the
    [ValueError] that the code catches; numbers have no [strftime]. *)
Definition parse_date (date_value : cell float) : option string :=
  match date_value with
  | CNone => None
  | CStr s =>
      if re_match_iso s then Some s
      else try_formats formats (strip s)
  | CTime t => Some (strftime t)
  | CNaT | CInt _ | CBool _ | CFloat _ => None
  end.

End with_float.

Fixpoint somes {A : Type} (l : list (option A)) : list A :=
  match l with
  | [] => []
  | Some x :: l' => x :: somes l'
  | None :: l' => somes l'
  end.

(** [get_date_boundaries]: the dates that are not [None], sorted as texts;
    the first and the last of them. *)
Definition get_date_boundaries (dates : list (option string))
    : option string * option string :=
  match dates with
  | [] => (None, None)
  | _ =>
      let valid_dates := somes dates in
      match valid_dates with
      | [] => (None, None)
      | _ =>
          let sorted_dates := sort_by (fun d => d) valid_dates in
          (hd_error sorted_dates, hd_error (rev sorted_dates))
      end
  end.

End date_utils.

(* ------------------------------------------------------------------ *)
(** ** schemas/models.py *)

Module models.

(** What the merger asks of a transaction: its [date] attribute. *)
Class Transaction (T : Type) : Type := {
  get_transaction_date : T -> string
}.

Section with_float.
Context {float : Type} `{PyFloat float}.

Record Purchase : Type := mk_Purchase {
  purchase_date : string;
  purchase_company_symbol : string;
  purchase_quantity : float;
  purchase_unit_price : float;
  purchase_currency : string;
  purchase_transaction_fee : option float;
  purchase_proceeds_foreign : option float;
  purchase_proceeds_ils : option float
}.

Record Sale : Type := mk_Sale {
  sale_date : string;
  sale_company_symbol : string;
  sale_quantity : float;
  sale_unit_price : float;
  sale_currency : string;
  sale_transaction_fee : option float;
  sale_proceeds_foreign : option float;
  sale_proceeds_ils : option float
}.

Record Dividend : Type := mk_Dividend {
  dividend_date : string;
  dividend_company_symbol : string;
  dividend_amount : float;
  dividend_currency : string
}.

Record Tax : Type := mk_Tax {
  tax_date : string;
  tax_company_symbol : option string;
  tax_amount : float;
  tax_currency : string
}.

Record Transfer : Type := mk_Transfer {
  transfer_date : string;
  transfer_type : string;
  transfer_amount : float;
  transfer_currency : string
}.

#[export] Instance Purchase_transaction : Transaction Purchase :=
  {| get_transaction_date := purchase_date |}.
#[export] Instance Sale_transaction : Transaction Sale :=
  {| get_transaction_date := sale_date |}.
#[export] Instance Dividend_transaction : Transaction Dividend :=
  {| get_transaction_date := dividend_date |}.
#[export] Instance Tax_transaction : Transaction Tax :=
  {| get_transaction_date := tax_date |}.
#[export] Instance Transfer_transaction : Transaction Transfer :=
  {| get_transaction_date := transfer_date |}.

Record ParsedJobResult : Type := mk_ParsedJobResult {
  jobId : string;
  purchases : list Purchase;
  sales : list Sale;
  dividends : list Dividend;
  taxes : list Tax;
  transfers : list Transfer;
  errors : list string
}.

End with_float.

Arguments Purchase : clear implicits.
Arguments Sale : clear implicits.
Arguments Dividend : clear implicits.
Arguments Tax : clear implicits.
Arguments Transfer : clear implicits.
Arguments ParsedJobResult : clear implicits.

End models.

(* ------------------------------------------------------------------ *)
(** ** processors/categorizer.py *)

Module categorizer.
Import pystr pyexcept pandas.

Definition PURCHASE_KEYWORDS : list string := ["Buy"; "Purchase"; "ExecutedBuy"].
Definition SALE_KEYWORDS : list string := ["Sell"; "Sale"; "ExecutedSell"].
Definition DIVIDEND_KEYWORDS : list string := ["Dividend"].
Definition TAX_KEYWORDS : list string := ["Withholding"; "Tax"; "Foreign Tax"].
Definition DEPOSIT_KEYWORDS : list string := ["Deposit"; "Cash Transfer"].
Definition FEE_KEYWORDS : list string := ["Cash Handling Fee"; "Fee"; "Handling"].

(** The categories [categorize_transaction] returns. *)
Inductive category : Type :=
| purchase | sale | dividend | tax | deposit | fee.

(** [for keyword in keywords: if keyword.lower() in text: ...] *)
Definition any_keyword (keywords : list string) (text : string) : bool :=
  existsb (fun keyword => contains (lower keyword) text) keywords.

Section with_float.
Context {float : Type} `{PyFloat float}.

Definition possible_names : list string :=
  [ "Transaction Type"; "Type"; "Transaction"; "Action";
    "TransactionType"; "transaction_type"; "type" ].

(** [l[l.index(x)]] in a list paired with its originals. *)
Fixpoint original_of (x : string) (lowered originals : list string) : option string :=
  match lowered, originals with
  | l :: lowered', o :: originals' =>
      if String.eqb l x then Some o else original_of x lowered' originals'
  | _, _ => None
  end.

Definition no_lower : exception :=
  AttributeError "'int' object has no attribute 'lower'".

(** The labels as the comprehension [[col.lower() for col in df.columns]]
    goes through them: texts, or the [AttributeError] of the first label
    that is a number. *)
Fixpoint text_labels (cols : list label) : result (list string) :=
  match cols with
  | [] => Return []
  | LText s :: cols' => texts <- text_labels cols' ;; Return (s :: texts)
  | LInt _ :: _ => Raise no_lower
  end.

(** [find_transaction_type_column].  The exact spellings are looked up
    first; the comprehension is only reached when none is a label. *)
Definition find_transaction_type_column (df : DataFrame float) : result (option string) :=
  match find (fun name => existsb (label_eqb (LText name)) (columns df)) possible_names with
  | Some name => Return (Some name)
  | None =>
      texts <- text_labels (columns df) ;;
      let df_columns_lower := map lower texts in
      match find (fun name => existsb (String.eqb (lower name)) df_columns_lower)
                 possible_names with
      | Some name => Return (original_of (lower name) df_columns_lower texts)
      | None => Return None
      end
  end.

Definition categorize_transaction (row : Series float) (transaction_type_col : option string)
    : option category :=
  match transaction_type_col with
  | None => None
  | Some col =>
      match get row (LText col) with
      | None => None
      | Some v =>
          let transaction_type := strip (str v) in
          let transaction_type_lower := lower transaction_type in
          if any_keyword PURCHASE_KEYWORDS transaction_type_lower then Some purchase
          else if any_keyword SALE_KEYWORDS transaction_type_lower then Some sale
          else if any_keyword DIVIDEND_KEYWORDS transaction_type_lower then Some dividend
          else if any_keyword TAX_KEYWORDS transaction_type_lower then Some tax
          else if any_keyword DEPOSIT_KEYWORDS transaction_type_lower then Some deposit
          else if any_keyword FEE_KEYWORDS transaction_type_lower then Some fee
          else None
      end
  end.

Definition possible_symbol_cols : list string :=
  [ "Company Symbol"; "Symbol"; "Company"; "Ticker"; "company_symbol"; "symbol" ].

(** The label that follows [name] in the index, if any. *)
Fixpoint next_label (cols : list label) (name : label) : option label :=
  match cols with
  | [] => None
  | c :: cols' =>
      if label_eqb c name then hd_error cols' else next_label cols' name
  end.

Fixpoint first_symbol (row : Series float) (cols : list string) : option string :=
  match cols with
  | [] => None
  | col :: cols' =>
      match get row (LText col) with
      | Some v => if negb (isna v) then Some (strip (str v)) else first_symbol row cols'
      | None => first_symbol row cols'
      end
  end.

Definition get_company_symbol_for_dividend (row : Series float) (transaction_type_col : string)
    : option string :=
  if negb (has_label (LText transaction_type_col) row) then None
  else
    let next :=
      match next_label (index row) (LText transaction_type_col) with
      | Some next_col =>
          match get row next_col with
          | Some symbol => if negb (isna symbol) then Some (strip (str symbol)) else None
          | None => None
          end
      | None => None
      end in
    match next with
    | Some symbol => Some symbol
    | None => first_symbol row possible_symbol_cols
    end.

End with_float.
End categorizer.

(* ------------------------------------------------------------------ *)
(** ** processors/transformer.py *)

Module transformer.
Import pystr pyexcept pandas number_utils date_utils models.

Section with_float.
Context {float : Type} `{PyFloat float}.

Definition len_columns (df : DataFrame float) : Z := Z.of_nat (List.length (columns df)).

Definition get_column_by_index (df : DataFrame float) (column_index : Z) : option label :=
  if (column_index <? 0) || (column_index >=? len_columns df) then None
  else nth_error (columns df) (Z.to_nat column_index).

Definition get_cell_value (row : Series float) (df : DataFrame float) (column_index : Z)
    (default : cell float) : cell float :=
  if (column_index <? 0) || (column_index >=? len_columns df) then default
  else
    match nth_error (columns df) (Z.to_nat column_index) with
    | None => default
    | Some col_name =>
        match get row col_name with
        | None => default
        | Some value => if isna value then default else value
        end
    end.

(** [str(get_cell_value(row, df, 6, '')).strip()], with its default. *)
Definition currency_of (row : Series float) (df : DataFrame float) : string :=
  let currency := strip (str (get_cell_value row df 6 (CStr EmptyString))) in
  if negb (nonempty currency) then "USD" else currency.

(** The amount of a dividend, a tax or a transfer: columns J, K, F. *)
Definition amount_of (row : Series float) (df : DataFrame float) : result (option float) :=
  amount <- parse_float (get_cell_value row df 9 CNone) ;;
  match amount with
  | Some amount => Return (Some amount)
  | None =>
      amount <- parse_float (get_cell_value row df 10 CNone) ;;
      match amount with
      | Some amount => Return (Some amount)
      | None => parse_float (get_cell_value row df 5 CNone)
      end
  end.

Definition transform_to_purchase (row : Series float) (df : DataFrame float)
    : result (option (Purchase float)) :=
  match parse_date (get_cell_value row df 0 CNone) with
  | None => Return None
  | Some date_str =>
      let company_symbol := get_cell_value row df 3 (CStr EmptyString) in
      let company_symbol :=
        if negb (truth company_symbol) then CStr EmptyString else company_symbol in
      quantity <- parse_float (get_cell_value row df 4 CNone) ;;
      match quantity with
      | None => Return None
      | Some quantity =>
          unit_price <- parse_float (get_cell_value row df 5 CNone) ;;
          match unit_price with
          | None => Return None
          | Some unit_price =>
              let currency := currency_of row df in
              transaction_fee <- parse_float (get_cell_value row df 7 CNone) ;;
              proceeds_foreign <- parse_float (get_cell_value row df 9 CNone) ;;
              proceeds_ils <- parse_float (get_cell_value row df 10 CNone) ;;
              Return (Some (mk_Purchase date_str (str company_symbol) quantity unit_price
                              currency transaction_fee proceeds_foreign proceeds_ils))
          end
      end
  end.

Definition transform_to_sale (row : Series float) (df : DataFrame float)
    : result (option (Sale float)) :=
  purchase <- transform_to_purchase row df ;;
  match purchase with
  | None => Return None
  | Some purchase =>
      Return (Some (mk_Sale (purchase_date purchase) (purchase_company_symbol purchase)
                      (purchase_quantity purchase) (purchase_unit_price purchase)
                      (purchase_currency purchase) (purchase_transaction_fee purchase)
                      (purchase_proceeds_foreign purchase) (purchase_proceeds_ils purchase)))
  end.

Definition transform_to_dividend (row : Series float) (df : DataFrame float)
    (company_symbol : option string) : result (option (Dividend float)) :=
  match parse_date (get_cell_value row df 0 CNone) with
  | None => Return None
  | Some date_str =>
      let company_symbol :=
        match company_symbol with
        | None => strip (str (get_cell_value row df 3 (CStr EmptyString)))
        | Some symbol => symbol
        end in
      let company_symbol :=
        if negb (nonempty company_symbol) then EmptyString else company_symbol in
      amount <- amount_of row df ;;
      match amount with
      | None => Return None
      | Some amount =>
          Return (Some (mk_Dividend date_str company_symbol amount (currency_of row df)))
      end
  end.

Definition transform_to_tax (row : Series float) (df : DataFrame float)
    (company_symbol : option string) : result (option (Tax float)) :=
  match parse_date (get_cell_value row df 0 CNone) with
  | None => Return None
  | Some date_str =>
      let company_symbol :=
        match company_symbol with
        | None =>
            let symbol := strip (str (get_cell_value row df 3 (CStr EmptyString))) in
            if negb (nonempty symbol) then None else Some symbol
        | Some symbol => Some symbol
        end in
      amount <- amount_of row df ;;
      match amount with
      | None => Return None
      | Some amount =>
          Return (Some (mk_Tax date_str company_symbol amount (currency_of row df)))
      end
  end.

Definition transform_to_transfer (row : Series float) (df : DataFrame float)
    (transfer_type : string) : result (option (Transfer float)) :=
  match parse_date (get_cell_value row df 0 CNone) with
  | None => Return None
  | Some date_str =>
      amount <- amount_of row df ;;
      match amount with
      | None => Return None
      | Some amount =>
          Return (Some (mk_Transfer date_str transfer_type amount (currency_of row df)))
      end
  end.

End with_float.
End transformer.

(* ------------------------------------------------------------------ *)
(** ** processors/merger.py *)

Module merger.
Import pystr date_utils models.

Section with_transaction.
Context {T : Type} `{Transaction T}.

(** The fallback: concatenate, then [combined.sort(key=get_transaction_date)]. *)
Definition _simple_merge (existing new : list T) : list T :=
  let combined := existing ++ new in
  sort_by get_transaction_date combined.

(** The two-pointer loop: [existing] is consumed by the outer recursion
    (pointer [i]), [new] by the inner one (pointer [j]); when either is
    exhausted the rest of the other is appended. *)
Fixpoint _sorted_merge (existing new : list T) : list T :=
  let fix advance_new (new : list T) : list T :=
    match existing, new with
    | [], _ => new
    | _, [] => existing
    | e :: existing', n :: new' =>
        let existing_date := get_transaction_date e in
        let new_date := get_transaction_date n in
        if compare_dates existing_date new_date <=? 0
        then e :: _sorted_merge existing' new
        else n :: advance_new new'
    end in
  advance_new new.

(** [merge_transactions]; the category name only feeds the log. *)
Definition merge_transactions (existing new : list T) : list T :=
  match new, existing with
  | [], _ => existing
  | _, [] => new
  | _, _ =>
      let existing_dates := map (fun t => Some (get_transaction_date t)) existing in
      let new_dates := map (fun t => Some (get_transaction_date t)) new in
      match get_date_boundaries existing_dates, get_date_boundaries new_dates with
      | (Some existing_min, Some existing_max), (Some new_min, Some new_max) =>
          if compare_dates new_max existing_min <? 0 then new ++ existing
          else if compare_dates new_min existing_max >? 0 then existing ++ new
          else _sorted_merge existing new
      | _, _ => _simple_merge existing new
      end
  end.

End with_transaction.
End merger.

(* ------------------------------------------------------------------ *)
(** ** orchestrator.py

    The file loader is the orchestrator's external collaborator: it is a
    parameter, returning the table or the text of the error.  Column labels
    are unique within a table, as the loaders produce them. *)

Module orchestrator.
Import pystr pyexcept pandas date_utils models categorizer transformer merger.

Section with_loader.
Context {float : Type} `{PyFloat float}.
Variable load_file : string -> string -> DataFrame float + string.

(** The parser object: the job's accumulated state. *)
Record PortfolioParser : Type := mk_PortfolioParser {
  job_id : string;
  self_purchases : list (Purchase float);
  self_sales : list (Sale float);
  self_dividends : list (Dividend float);
  self_taxes : list (Tax float);
  self_transfers : list (Transfer float);
  self_errors : list string
}.

(** [PortfolioParser(job_id)] *)
Definition new_parser (job_id : string) : PortfolioParser :=
  mk_PortfolioParser job_id [] [] [] [] [] [].

(** [validate_dataframe] of the loader module, on a loaded table. *)
Definition validate_dataframe (df : DataFrame float) (filename : string)
    : bool * option string :=
  if empty df then (false, Some (filename ++ ": File is empty (no rows)")%string)
  else if (List.length (columns df) =? 0)%nat
  then (false, Some (filename ++ ": File has no columns")%string)
  else (true, None).

(** The five lists of one file and the diagnostics, as the row loop
    updates them. *)
Record file_state : Type := mk_file_state {
  file_purchases : list (Purchase float);
  file_sales : list (Sale float);
  file_dividends : list (Dividend float);
  file_taxes : list (Tax float);
  file_transfers : list (Transfer float);
  row_errors : list string
}.

Definition row_failure (filename : string) (idx : Z) (what : string) : string :=
  ("File " ++ filename ++ ", row " ++ str_of_Z (idx + 1)
   ++ ": Failed to transform " ++ what)%string.

Definition row_error (filename : string) (idx : Z) (e : exception) : string :=
  ("File " ++ filename ++ ", row " ++ str_of_Z (idx + 1)
   ++ ": Error processing row: " ++ message_of e)%string.

(** The body of the loop over [df.iterrows()]: the [try] with its [except]
    branch, which turns an exception of a transform into a diagnostic of the
    row. *)
Definition process_row (filename : string) (df : DataFrame float)
    (transaction_type_col : option string) (st : file_state) (item : Z * Series float)
    : file_state :=
  let (idx, row) := item in
  let fail what :=
    mk_file_state (file_purchases st) (file_sales st) (file_dividends st)
      (file_taxes st) (file_transfers st)
      (row_errors st ++ [row_failure filename idx what]) in
  let except e :=
    mk_file_state (file_purchases st) (file_sales st) (file_dividends st)
      (file_taxes st) (file_transfers st)
      (row_errors st ++ [row_error filename idx e]) in
  match categorize_transaction row transaction_type_col with
  | Some purchase =>
      match transform_to_purchase row df with
      | Return (Some p) =>
          mk_file_state (file_purchases st ++ [p]) (file_sales st) (file_dividends st)
            (file_taxes st) (file_transfers st) (row_errors st)
      | Return None => fail "purchase"
      | Raise e => except e
      end
  | Some sale =>
      match transform_to_sale row df with
      | Return (Some s) =>
          mk_file_state (file_purchases st) (file_sales st ++ [s]) (file_dividends st)
            (file_taxes st) (file_transfers st) (row_errors st)
      | Return None => fail "sale"
      | Raise e => except e
      end
  | Some dividend =>
      let company_symbol :=
        get_company_symbol_for_dividend row
          (match transaction_type_col with Some c => c | None => EmptyString end) in
      match transform_to_dividend row df company_symbol with
      | Return (Some d) =>
          mk_file_state (file_purchases st) (file_sales st) (file_dividends st ++ [d])
            (file_taxes st) (file_transfers st) (row_errors st)
      | Return None => fail "dividend"
      | Raise e => except e
      end
  | Some tax =>
      match transform_to_tax row df None with
      | Return (Some t) =>
          mk_file_state (file_purchases st) (file_sales st) (file_dividends st)
            (file_taxes st ++ [t]) (file_transfers st) (row_errors st)
      | Return None => fail "tax"
      | Raise e => except e
      end
  | Some deposit =>
      match transform_to_transfer row df "deposit" with
      | Return (Some t) =>
          mk_file_state (file_purchases st) (file_sales st) (file_dividends st)
            (file_taxes st) (file_transfers st ++ [t]) (row_errors st)
      | Return None => fail "deposit"
      | Raise e => except e
      end
  | Some fee =>
      match transform_to_transfer row df "cash_handling_fee" with
      | Return (Some t) =>
          mk_file_state (file_purchases st) (file_sales st) (file_dividends st)
            (file_taxes st) (file_transfers st ++ [t]) (row_errors st)
      | Return None => fail "fee"
      | Raise e => except e
      end
  | None => st
  end.

(** The rest of [_process_file] once the type column is looked up: the
    diagnostic of a table without one, the row loop, then the sort of each
    list by date. *)
Definition process_rows_of (filename : string) (df : DataFrame float)
    (transaction_type_col : option string) (errors : list string) : file_state :=
  let errors :=
    match transaction_type_col with
    | None =>
        errors ++ [("File " ++ filename ++ ": Could not find transaction type column. "
                    ++ "Available columns: "
                    ++ str_of_list (map repr_label (columns df)))%string]
    | Some _ => errors
    end in
  let st :=
    fold_left (process_row filename df transaction_type_col) (iterrows df)
      (mk_file_state [] [] [] [] [] errors) in
  mk_file_state
    (sort_by purchase_date (file_purchases st))
    (sort_by sale_date (file_sales st))
    (sort_by dividend_date (file_dividends st))
    (sort_by tax_date (file_taxes st))
    (sort_by transfer_date (file_transfers st))
    (row_errors st).

(** Steps 2 and 3 of [_process_file] on a loaded, validated table.  The
    lookup of the type column is outside any [try]: its exception leaves
    [_process_file]. *)
Definition process_rows (filename : string) (df : DataFrame float) (errors : list string)
    : result file_state :=
  transaction_type_col <- find_transaction_type_column df ;;
  Return (process_rows_of filename df transaction_type_col errors).

Definition with_error (self : PortfolioParser) (message : string) : PortfolioParser :=
  mk_PortfolioParser (job_id self) (self_purchases self) (self_sales self)
    (self_dividends self) (self_taxes self) (self_transfers self)
    (self_errors self ++ [message]).

Definition _process_file (self : PortfolioParser) (directory filename : string)
    : result PortfolioParser :=
  match load_file directory filename with
  | inr error =>
      Return (with_error self ("File " ++ filename ++ " failed to load: " ++ error)%string)
  | inl df =>
      match validate_dataframe df filename with
      | (false, validation_error) =>
          Return (with_error self
                    ("File " ++ filename ++ " validation failed: "
                     ++ match validation_error with Some e => e | None => "None" end)%string)
      | (true, _) =>
          st <- process_rows filename df (self_errors self) ;;
          Return (mk_PortfolioParser (job_id self)
                    (merge_transactions (self_purchases self) (file_purchases st))
                    (merge_transactions (self_sales self) (file_sales st))
                    (merge_transactions (self_dividends self) (file_dividends st))
                    (merge_transactions (self_taxes self) (file_taxes st))
                    (merge_transactions (self_transfers self) (file_transfers st))
                    (row_errors st))
      end
  end.

(** The loop over the files: the state after it, or the exception that
    ends it. *)
Fixpoint process_files (self : PortfolioParser) (directory : string)
    (files : list string) : result PortfolioParser :=
  match files with
  | [] => Return self
  | filename :: files' =>
      self <- _process_file self directory filename ;;
      process_files self directory files'
  end.

Definition parse_job (self : PortfolioParser) (directory : string)
    (files : list string) : result (ParsedJobResult float) :=
  self <- process_files self directory files ;;
  Return (mk_ParsedJobResult (job_id self) (self_purchases self) (self_sales self)
            (self_dividends self) (self_taxes self) (self_transfers self)
            (self_errors self)).

End with_loader.

Arguments PortfolioParser : clear implicits.
Arguments file_state : clear implicits.

End orchestrator.

(* ------------------------------------------------------------------ *)
(** ** A float instance to run examples

    Floats as the decimal numbers their literals denote (no rounding to
    binary64): enough to evaluate the code on concrete tables.  [of_str]
    follows the grammar of [float()]; [to_str] writes positional notation,
    Python's for the magnitudes the examples use. *)

Module decimal_float.
Import pystr.

Inductive decimal : Type :=
| Finite (negative : bool) (mantissa : N) (exponent : Z)
| Infinity (negative : bool)
| NaN.

(** Trailing zeros of the mantissa move to the exponent. *)
Fixpoint normalize (fuel : nat) (m : N) (e : Z) : N * Z :=
  match fuel with
  | O => (m, e)
  | S fuel' =>
      if (m =? 0)%N then (0%N, 0)
      else if (m mod 10 =? 0)%N then normalize fuel' (m / 10)%N (e + 1)
      else (m, e)
  end.

Definition finite (negative : bool) (m : N) (e : Z) : decimal :=
  let (m', e') := normalize (S (N.to_nat (N.log2 m))) m e in
  Finite negative m' e'.

(** A run of digits, single underscores allowed between two digits: the
    value accumulated, the number of digits read, the text left. *)
Fixpoint read_digitpart (s : string) (acc : N) (count : Z) : N * Z * string :=
  match s with
  | String c r =>
      if is_digit c
      then read_digitpart r (acc * 10 + (N_of_ascii c - 48))%N (count + 1)
      else if Ascii.eqb c "_" && (0 <? count)
      then match r with
           | String c' r' =>
               if is_digit c'
               then read_digitpart r' (acc * 10 + (N_of_ascii c' - 48))%N (count + 1)
               else (acc, count, s)
           | EmptyString => (acc, count, s)
           end
      else (acc, count, s)
  | EmptyString => (acc, count, s)
  end.

Definition read_sign (s : string) : bool * string :=
  match s with
  | String "-" r => (true, r)
  | String "+" r => (false, r)
  | _ => (false, s)
  end.

Definition read_number (negative : bool) (s : string) : option decimal :=
  let '(int_part, int_digits, r1) := read_digitpart s 0%N 0 in
  let '(mantissa, frac_digits, r2) :=
    match r1 with
    | String "." r => read_digitpart r int_part 0
    | _ => (int_part, 0, r1)
    end in
  if int_digits + frac_digits =? 0 then None
  else
    match r2 with
    | EmptyString => Some (finite negative mantissa (- frac_digits))
    | String c r =>
        if Ascii.eqb c "e" || Ascii.eqb c "E" then
          let (exp_negative, r3) := read_sign r in
          let '(e, exp_digits, r4) := read_digitpart r3 0%N 0 in
          if (exp_digits =? 0) || nonempty r4 then None
          else Some (finite negative mantissa
                       ((if exp_negative then - Z.of_N e else Z.of_N e) - frac_digits))
        else None
    end.

Definition of_str (s : string) : option decimal :=
  let (negative, body) := read_sign (strip s) in
  let word := lower body in
  if String.eqb word "inf" || String.eqb word "infinity" then Some (Infinity negative)
  else if String.eqb word "nan" then Some NaN
  else read_number negative body.

Definition of_int (n : Z) : decimal := finite (n <? 0) (Z.abs_N n) 0.

Definition isnan (x : decimal) : bool :=
  match x with NaN => true | _ => false end.

Definition truth (x : decimal) : bool :=
  match x with Finite _ 0%N _ => false | _ => true end.

Fixpoint zeros (n : nat) : string :=
  match n with O => EmptyString | S n' => String "0" (zeros n') end.

Definition to_str (x : decimal) : string :=
  match x with
  | NaN => "nan"
  | Infinity negative => if negative then "-inf" else "inf"
  | Finite negative m e =>
      let sign := if negative then "-" else EmptyString in
      let digits := NilZero.string_of_uint (N.to_uint m) in
      let len := String.length digits in
      if 0 <=? e then (sign ++ digits ++ zeros (Z.to_nat e) ++ ".0")%string
      else
        let k := Z.to_nat (- e) in
        if (k <? len)%nat
        then (sign ++ substring 0 (len - k) digits ++ "."
              ++ substring (len - k) k digits)%string
        else (sign ++ "0." ++ zeros (k - len) ++ digits)%string
  end.

Definition decimal_PyFloat : PyFloat decimal :=
  {| float_of_str := of_str;
     float_of_int := of_int;
     float_isnan := isnan;
     float_truth := truth;
     str_of_float := to_str |}.

End decimal_float.

(* ------------------------------------------------------------------ *)
(** ** Vocabulary of the properties *)

(** Dates as text. *)
Module calendar.
Import pystr pydatetime date_utils.

(** Four digits, hyphen, two digits, hyphen, two digits, and nothing else. *)
Definition iso_shape (s : string) : bool :=
  match s with
  | String y1 (String y2 (String y3 (String y4 (String h1
      (String m1 (String m2 (String h2 (String d1 (String d2 EmptyString))))))))) =>
      is_digit y1 && is_digit y2 && is_digit y3 && is_digit y4
      && Ascii.eqb h1 "-" && is_digit m1 && is_digit m2
      && Ascii.eqb h2 "-" && is_digit d1 && is_digit d2
  | _ => false
  end.

(** A canonical date: the text of a calendar day, zero padded. *)
Definition canonical_date (s : string) : bool :=
  match strptime s "%Y-%m-%d" with
  | Some dt => String.eqb (isoformat dt) s
  | None => false
  end.

(** A number that orders calendar days. *)
Definition ordinal (dt : datetime) : Z := (year dt * 100 + month dt) * 100 + day dt.

Definition date_key (s : string) : Z :=
  match strptime s "%Y-%m-%d" with
  | Some dt => ordinal dt
  | None => 0
  end.

(** A text that ends with a newline. *)
Fixpoint ends_with_newline (s : string) : bool :=
  match s with
  | EmptyString => false
  | String c EmptyString => Ascii.eqb c (ascii_of_N 10)
  | String _ s' => ends_with_newline s'
  end.

Definition zrange (lo : Z) (n : nat) : list Z :=
  map (fun i => lo + Z.of_nat i) (seq 0 n).

End calendar.

(** Merging by an integer key: the reference the merger is compared with. *)
Module keyed.
Section with_key.
Context {A : Type} (key : A -> Z).

Fixpoint zmerge (l1 l2 : list A) : list A :=
  let fix aux (l2 : list A) : list A :=
    match l1, l2 with
    | [], _ => l2
    | _, [] => l1
    | a :: l1', b :: l2' =>
        if key a <=? key b then a :: zmerge l1' l2 else b :: aux l2'
    end in
  aux l2.

Definition key_sorted : list A -> Prop :=
  StronglySorted (fun a b => key a <= key b).

End with_key.

(** Sorted by a text key. *)
Definition text_sorted {A : Type} (key : A -> string) : list A -> Prop :=
  StronglySorted (fun a b => String.leb (key a) (key b) = true).

End keyed.

Module merge_notions.
Import date_utils models merger calendar.

Section with_transaction.
Context {T : Type} `{Transaction T}.

Definition canonical_dates (l : list T) : Prop :=
  Forall (fun t => canonical_date (get_transaction_date t) = true) l.

(** Non-decreasing by date, as [compare_dates] orders dates. *)
Definition sorted_by_date : list T -> Prop :=
  StronglySorted
    (fun a b => compare_dates (get_transaction_date a) (get_transaction_date b) <= 0).

(** Non-decreasing by the text of the date, the order of
    [l.sort(key=lambda x: x.date)]. *)
Definition sorted_by_text : list T -> Prop :=
  StronglySorted
    (fun a b => String.leb (get_transaction_date a) (get_transaction_date b) = true).

(** [stable_interleave existing new result]: [result] interleaves the two
    lists, each in its own order, and an element of [new] is only placed
    when no element of [existing] with the same date is still to come. *)
Inductive stable_interleave : list T -> list T -> list T -> Prop :=
| interleave_nil : stable_interleave [] [] []
| interleave_existing e existing new result :
    stable_interleave existing new result ->
    stable_interleave (e :: existing) new (e :: result)
| interleave_new n existing new result :
    Forall (fun e => get_transaction_date e <> get_transaction_date n) existing ->
    stable_interleave existing new result ->
    stable_interleave existing (n :: new) (n :: result).

(** The key of a transaction: the number of its date. *)
Definition dkey (t : T) : Z := date_key (get_transaction_date t).

(** No element of [a] has the date of an element of [b]. *)
Definition disjoint_dates (a b : list T) : Prop :=
  forall x y, In x a -> In y b -> get_transaction_date x <> get_transaction_date y.

(** A way of grouping a sequence of batches for chained merges. *)
Inductive grouping : Type :=
| Batch (batch : list T)
| Merge (left right : grouping).

Fixpoint batches (g : grouping) : list (list T) :=
  match g with
  | Batch batch => [batch]
  | Merge l r => batches l ++ batches r
  end.

Fixpoint merged (g : grouping) : list T :=
  match g with
  | Batch batch => batch
  | Merge l r => merge_transactions (merged l) (merged r)
  end.

End with_transaction.
End merge_notions.

(** Records and rows. *)
Module transform_notions.
Import pystr pyexcept pandas number_utils date_utils models transformer.

Section with_float.
Context {float : Type} `{PyFloat float}.

(** A record of any of the five kinds. *)
Inductive TransactionRecord : Type :=
| PurchaseRecord (p : Purchase float)
| SaleRecord (s : Sale float)
| DividendRecord (d : Dividend float)
| TaxRecord (t : Tax float)
| TransferRecord (t : Transfer float).

Definition record_date (r : TransactionRecord) : string :=
  match r with
  | PurchaseRecord p => purchase_date p
  | SaleRecord s => sale_date s
  | DividendRecord d => dividend_date d
  | TaxRecord t => tax_date t
  | TransferRecord t => transfer_date t
  end.

(** [constructed row df r]: one of the five transforms returns [r] on the
    row, whatever symbol or transfer type its caller passes. *)
Inductive constructed (row : Series float) (df : DataFrame float) : TransactionRecord -> Prop :=
| by_purchase p :
    transform_to_purchase row df = Return (Some p) -> constructed row df (PurchaseRecord p)
| by_sale s :
    transform_to_sale row df = Return (Some s) -> constructed row df (SaleRecord s)
| by_dividend symbol d :
    transform_to_dividend row df symbol = Return (Some d) ->
    constructed row df (DividendRecord d)
| by_tax symbol t :
    transform_to_tax row df symbol = Return (Some t) -> constructed row df (TaxRecord t)
| by_transfer transfer_type t :
    transform_to_transfer row df transfer_type = Return (Some t) ->
    constructed row df (TransferRecord t).

(** The float a cell parses as: none when [parse_float] returns none, and
    none when it does not return. *)
Definition parsed (c : cell float) : option float :=
  match parse_float c with
  | Return x => x
  | Raise _ => None
  end.

(** The first of the cells that parses as a float. *)
Fixpoint first_float (cells : list (cell float)) : option float :=
  match cells with
  | [] => None
  | c :: cells' =>
      match parsed c with
      | Some x => Some x
      | None => first_float cells'
      end
  end.

(** The cell is an [int] beyond the floats. *)
Definition overflows (c : cell float) : bool :=
  match c with
  | CInt n => float_overflows n
  | _ => false
  end.

(** The cell at a position, absent cells read as [None]. *)
Definition cell_at (row : Series float) (df : DataFrame float) (position : Z) : cell float :=
  get_cell_value row df position CNone.

(** The cell at a position is absent or holds blank text. *)
Definition blank_or_absent (row : Series float) (df : DataFrame float) (position : Z) : bool :=
  match get_cell_value row df position (CStr EmptyString) with
  | CStr s => negb (nonempty (strip s))
  | _ => false
  end.

(** The cell at a position is absent. *)
Definition absent (row : Series float) (df : DataFrame float) (position : Z) : bool :=
  match get_cell_value row df position CNone with
  | CNone => true
  | _ => false
  end.

(** The cell is a text that ends with a newline. *)
Definition newline_terminated (v : cell float) : bool :=
  match v with
  | CStr s => calendar.ends_with_newline s
  | _ => false
  end.

End with_float.

Arguments TransactionRecord : clear implicits.

End transform_notions.

Module categorizer_notions.
Import pystr pandas categorizer.


(** Containment without regard to case. *)
Definition contains_ignoring_case (keyword text : string) : bool :=
  contains (lower keyword) (lower text).

Definition has_keyword (keywords : list string) (text : string) : bool :=
  existsb (fun keyword => contains_ignoring_case keyword text) keywords.


End categorizer_notions.

Module orchestrator_notions.
Import pystr pyexcept pandas models categorizer merger orchestrator.

Section with_loader.
Context {float : Type} `{PyFloat float}.
Variable load_file : string -> string -> DataFrame float + string.


(** A contribution of no record and one diagnostic. *)
Definition diagnostic_only (message : string) : file_state float :=
  mk_file_state [] [] [] [] [] [message].

(** What a file contributes to the job: its five sorted lists and its
    diagnostics; or the exception its table raises. *)
Definition file_contribution (directory filename : string) : result (file_state float) :=
  match load_file directory filename with
  | inr error =>
      Return (diagnostic_only ("File " ++ filename ++ " failed to load: " ++ error)%string)
  | inl df =>
      match validate_dataframe df filename with
      | (false, validation_error) =>
          Return (diagnostic_only
                    ("File " ++ filename ++ " validation failed: "
                     ++ match validation_error with Some e => e | None => "None" end)%string)
      | (true, _) => process_rows filename df []
      end
  end.

(** The contributions of the files of a job, in order; or the exception of
    the first file that raises one. *)
Fixpoint contributions (directory : string) (files : list string)
    : result (list (file_state float)) :=
  match files with
  | [] => Return []
  | filename :: files' =>
      st <- file_contribution directory filename ;;
      sts <- contributions directory files' ;;
      Return (st :: sts)
  end.

(** Every label of the table is a text. *)
Definition labels_are_texts (df : DataFrame float) : bool :=
  forallb (fun l => match l with LText _ => true | LInt _ => false end) (columns df).


(** The parser after a contribution is merged into it. *)
Definition absorb (self : PortfolioParser float) (st : file_state float)
    : PortfolioParser float :=
  mk_PortfolioParser (job_id self)
    (merge_transactions (self_purchases self) (file_purchases st))
    (merge_transactions (self_sales self) (file_sales st))
    (merge_transactions (self_dividends self) (file_dividends st))
    (merge_transactions (self_taxes self) (file_taxes st))
    (merge_transactions (self_transfers self) (file_transfers st))
    (self_errors self ++ row_errors st).

(** The diagnostics of a contribution put after earlier ones. *)
Definition after_errors (errors : list string) (st : file_state float)
    : file_state float :=
  mk_file_state (file_purchases st) (file_sales st) (file_dividends st)
    (file_taxes st) (file_transfers st) (errors ++ row_errors st).

(** The kind and the date of each record of a file. *)
Definition stamps (st : file_state float) : list (string * string) :=
  map (fun p => ("purchase", purchase_date p)) (file_purchases st)
  ++ map (fun s => ("sale", sale_date s)) (file_sales st)
  ++ map (fun d => ("dividend", dividend_date d)) (file_dividends st)
  ++ map (fun t => ("tax", tax_date t)) (file_taxes st)
  ++ map (fun t => ("transfer", transfer_date t)) (file_transfers st).

(** The stamps of what a call contributes: none when it raises. *)
Definition stamps_of (contribution : result (file_state float)) : list (string * string) :=
  match contribution with
  | Return st => stamps st
  | Raise _ => []
  end.

(** Two files with no two records of one kind on the same date. *)
Definition no_shared_date (directory f g : string) : Prop :=
  forall stamp,
    In stamp (stamps_of (file_contribution directory f)) ->
    In stamp (stamps_of (file_contribution directory g)) -> False.

(** Every record of the file has a canonical date. *)
Definition canonical_file (directory f : string) : Prop :=
  Forall (fun stamp => calendar.canonical_date (snd stamp) = true)
         (stamps_of (file_contribution directory f)).

End with_loader.

Section with_float.
Context {float : Type} `{PyFloat float}.

(** The five sequences of a result. *)
Definition sequences (r : ParsedJobResult float)
    : list (Purchase float) * list (Sale float) * list (Dividend float)
      * list (Tax float) * list (Transfer float) :=
  (purchases r, sales r, dividends r, taxes r, transfers r).


End with_float.
End orchestrator_notions.

(* ------------------------------------------------------------------ *)
(** ** Concrete data for the examples *)

Module examples.
Import pystr pydatetime pandas models decimal_float.

#[local] Existing Instance decimal_PyFloat.

(** A purchase of ten shares on a given date. *)
Definition purchase_on (date : string) : Purchase decimal :=
  mk_Purchase date "AAPL" (of_int 10) (of_int 150) "USD" None None None.

(** The layout the transformer expects: columns A to K. *)
Definition header : list label :=
  map LText
    [ "Date"; "Transaction Type"; "Company"; "Symbol"; "Quantity"; "Price";
      "Currency"; "Fee"; "Notes"; "Proceeds Foreign"; "Proceeds ILS" ].

(** A row of that layout: ten units at 150.5, no fee and no proceeds. *)
Definition values_of (date kind symbol : string) : list (cell decimal) :=
  [ CStr date; CStr kind; CStr symbol; CStr symbol; CInt 10;
    CFloat (Finite false 1505 (-1)); CStr "USD"; CFloat NaN; CFloat NaN;
    CFloat NaN; CFloat NaN ].

(** A row with a payout in column J. *)
Definition payout_of (date kind symbol : string) : list (cell decimal) :=
  [ CStr date; CStr kind; CStr symbol; CStr symbol; CFloat NaN;
    CFloat NaN; CStr EmptyString; CFloat NaN; CFloat NaN;
    CStr "$1,234.56"; CFloat NaN ].

(** An [int] beyond the floats, which a column of objects holds as it is. *)
Definition huge : Z := 10 ^ 400.

(** A purchase whose fee is the huge number: the date, the quantity and the
    unit price are as in [values_of]. *)
Definition huge_fee_of (date kind symbol : string) : list (cell decimal) :=
  [ CStr date; CStr kind; CStr symbol; CStr symbol; CInt 10;
    CFloat (Finite false 1505 (-1)); CStr "USD"; CInt huge; CFloat NaN;
    CFloat NaN; CFloat NaN ].

(** A payout whose column J is the huge number and whose column K is 5. *)
Definition huge_payout_of (date kind symbol : string) : list (cell decimal) :=
  [ CStr date; CStr kind; CStr symbol; CStr symbol; CFloat NaN;
    CFloat NaN; CStr EmptyString; CFloat NaN; CFloat NaN;
    CInt huge; CInt 5 ].

Definition table (rows : list (list (cell decimal))) : DataFrame decimal := mk_DataFrame header rows.

(** A table of a spreadsheet whose header row holds a year, and no column
    of a transaction type. *)
Definition yearly : DataFrame decimal :=
  mk_DataFrame [LText "Date"; LText "Kind"; LInt 2023]
    [[CStr "2023-01-15"; CStr "Buy"; CInt 5]].

Definition row_of (cells : list (cell decimal)) : Series decimal := combine header cells.

(** The files of the example directory. *)
Definition disk : list (string * DataFrame decimal) :=
  [ ("aapl.csv", table [values_of "2023-01-15" "Buy" "AAPL"]);
    ("msft.csv", table [values_of "2023-01-15" "Buy" "MSFT"]);
    ("later.csv", table [values_of "2023-02-01" "Buy" "GOOG"]);
    ("interest.csv", table [values_of "2023-01-15" "Interest" "AAPL"]);
    ("empty.csv", table []);
    ("yearly.xlsx", yearly);
    ("huge.xlsx", table [huge_fee_of "2023-01-15" "Buy" "AAPL";
                         values_of "2023-01-16" "Buy" "AAPL"]) ].

Fixpoint lookup (files : list (string * DataFrame decimal)) (filename : string)
    : option (DataFrame decimal) :=
  match files with
  | [] => None
  | (name, df) :: files' =>
      if String.eqb name filename then Some df else lookup files' filename
  end.

(** A loader over [disk]; a missing file is the loader's error. *)
Definition load_file (directory filename : string) : DataFrame decimal + string :=
  match lookup disk filename with
  | Some df => inl df
  | None => inr ("File not found: " ++ filename)%string
  end.

End examples.


(* ------------------------------------------------------------------ *)
(** ** schemas/models.py: [to_dict]

    The dictionaries handed to the JSON encoder: a dictionary is the list
    of its items in insertion order. *)

Module models_dict.
Import models.

Section with_float.
Context {float : Type} `{PyFloat float}.

(** The values a dictionary of [to_dict] holds. *)
#[warnings="-register-all"] Inductive pyobject : Type :=
| PNone
| PStr (s : string)
| PFloat (x : float)
| PList (l : list pyobject)
| PDict (items : list (string * pyobject)).

(** An [Optional[float]] attribute. *)
Definition optional_float (x : option float) : pyobject :=
  match x with
  | Some x => PFloat x
  | None => PNone
  end.

(** An [Optional[str]] attribute. *)
Definition optional_str (s : option string) : pyobject :=
  match s with
  | Some s => PStr s
  | None => PNone
  end.

(** [Purchase.to_dict] *)
Definition Purchase_to_dict (self : Purchase float) : pyobject :=
  PDict [ ("date", PStr (purchase_date self));
          ("company_symbol", PStr (purchase_company_symbol self));
          ("quantity", PFloat (purchase_quantity self));
          ("unit_price", PFloat (purchase_unit_price self));
          ("currency", PStr (purchase_currency self));
          ("transaction_fee", optional_float (purchase_transaction_fee self));
          ("proceeds_foreign", optional_float (purchase_proceeds_foreign self));
          ("proceeds_ils", optional_float (purchase_proceeds_ils self)) ].

(** [Sale.to_dict] *)
Definition Sale_to_dict (self : Sale float) : pyobject :=
  PDict [ ("date", PStr (sale_date self));
          ("company_symbol", PStr (sale_company_symbol self));
          ("quantity", PFloat (sale_quantity self));
          ("unit_price", PFloat (sale_unit_price self));
          ("currency", PStr (sale_currency self));
          ("transaction_fee", optional_float (sale_transaction_fee self));
          ("proceeds_foreign", optional_float (sale_proceeds_foreign self));
          ("proceeds_ils", optional_float (sale_proceeds_ils self)) ].

(** [Dividend.to_dict] *)
Definition Dividend_to_dict (self : Dividend float) : pyobject :=
  PDict [ ("date", PStr (dividend_date self));
          ("company_symbol", PStr (dividend_company_symbol self));
          ("amount", PFloat (dividend_amount self));
          ("currency", PStr (dividend_currency self)) ].

(** [Tax.to_dict] *)
Definition Tax_to_dict (self : Tax float) : pyobject :=
  PDict [ ("date", PStr (tax_date self));
          ("company_symbol", optional_str (tax_company_symbol self));
          ("amount", PFloat (tax_amount self));
          ("currency", PStr (tax_currency self)) ].

(** [Transfer.to_dict] *)
Definition Transfer_to_dict (self : Transfer float) : pyobject :=
  PDict [ ("date", PStr (transfer_date self));
          ("type", PStr (transfer_type self));
          ("amount", PFloat (transfer_amount self));
          ("currency", PStr (transfer_currency self)) ].

(** [ParsedJobResult.to_dict] *)
Definition ParsedJobResult_to_dict (self : ParsedJobResult float) : pyobject :=
  PDict [ ("jobId", PStr (jobId self));
          ("purchases", PList (map Purchase_to_dict (purchases self)));
          ("sales", PList (map Sale_to_dict (sales self)));
          ("dividends", PList (map Dividend_to_dict (dividends self)));
          ("taxes", PList (map Tax_to_dict (taxes self)));
          ("transfers", PList (map Transfer_to_dict (transfers self)));
          ("errors", PList (map PStr (errors self))) ].

(** [d[key]]; [None] stands for the [KeyError]. *)
Definition item (d : pyobject) (key : string) : option pyobject :=
  match d with
  | PDict items =>
      option_map snd (find (fun entry => String.eqb (fst entry) key) items)
  | _ => None
  end.

(** [len(v)] for a list. *)
Definition len (v : option pyobject) : option nat :=
  match v with
  | Some (PList l) => Some (List.length l)
  | _ => None
  end.

End with_float.

Arguments pyobject : clear implicits.

End models_dict.

(* ------------------------------------------------------------------ *)
(** ** More vocabulary *)

(** Dates written in the other formats. *)
Module format_notions.
Import pystr pydatetime.

(** A calendar day written in a format of [%Y], [%m], [%d] and literal
    characters: the year on four digits, the month and the day on two. *)
Fixpoint render (ds : list directive) (dt : datetime) : string :=
  match ds with
  | [] => EmptyString
  | DirY :: ds' => (pad4 (year dt) ++ render ds' dt)%string
  | DirM :: ds' => (pad2 (month dt) ++ render ds' dt)%string
  | DirD :: ds' => (pad2 (day dt) ++ render ds' dt)%string
  | Lit c :: ds' => String c (render ds' dt)
  end.

Definition written_as (fmt : string) (dt : datetime) : string :=
  render (directives fmt) dt.

(** The fields a format sets, the others keeping their defaults. *)
Fixpoint fields (ds : list directive) (dt : datetime) (y m d : Z) : Z * Z * Z :=
  match ds with
  | [] => (y, m, d)
  | DirY :: ds' => fields ds' dt (year dt) m d
  | DirM :: ds' => fields ds' dt y (month dt) d
  | DirD :: ds' => fields ds' dt y m (day dt)
  | Lit _ :: ds' => fields ds' dt y m d
  end.

(** The day and the month of [b] are the month and the day of [a]. *)
Definition exchanged (a b : datetime) : Prop :=
  year b = year a /\ month b = day a /\ day b = month a.

(** Two days of 2023: the first and the thirteenth of February. *)
Definition february_first : datetime := mk_datetime 2023 2 1 eq_refl.
Definition february_thirteenth : datetime := mk_datetime 2023 2 13 eq_refl.

End format_notions.

(** Texts without surrounding white space. *)
Module text_notions.
Import pystr.

(** A text with no white space at its start. *)
Definition starts_clean (s : string) : bool :=
  match s with
  | EmptyString => true
  | String c _ => negb (is_space c)
  end.

(** A text with no white space at its end. *)
Fixpoint ends_clean (s : string) : bool :=
  match s with
  | EmptyString => true
  | String c EmptyString => negb (is_space c)
  | String _ s' => ends_clean s'
  end.

(** A text that [strip] leaves as it is. *)
Definition trimmed (s : string) : Prop := strip s = s.

End text_notions.

Module record_notions.
Import models transform_notions.

Section with_float.
Context {float : Type} `{PyFloat float}.

Definition record_currency (r : TransactionRecord float) : string :=
  match r with
  | PurchaseRecord p => purchase_currency p
  | SaleRecord s => sale_currency s
  | DividendRecord d => dividend_currency d
  | TaxRecord t => tax_currency t
  | TransferRecord t => transfer_currency t
  end.

End with_float.
End record_notions.

(** Counting what the row loop does. *)
Module accounting_notions.
Import pystr pandas models categorizer orchestrator orchestrator_notions.

Section with_float.
Context {float : Type} `{PyFloat float}.

(** The number of records of the five lists of a file. *)
Definition record_count (st : file_state float) : nat :=
  (List.length (file_purchases st) + List.length (file_sales st)
   + List.length (file_dividends st) + List.length (file_taxes st)
   + List.length (file_transfers st))%nat.

(** The records and the diagnostics of a file. *)
Definition count (st : file_state float) : nat :=
  (record_count st + List.length (row_errors st))%nat.


(** The diagnostic of a table without a transaction type column. *)
Definition no_type_column (filename : string) (df : DataFrame float) : string :=
  ("File " ++ filename ++ ": Could not find transaction type column. "
   ++ "Available columns: " ++ str_of_list (map repr_label (columns df)))%string.

(** The one message [validate_dataframe] gives for a loaded table. *)
Definition empty_file (filename : string) : string :=
  (filename ++ ": File is empty (no rows)")%string.

End with_float.

(** A table with no column of a transaction type. *)
Definition untyped_table : DataFrame decimal_float.decimal :=
  mk_DataFrame [LText "Date"; LText "Amount"] [[CStr "2023-01-15"; CInt 5]].


End accounting_notions.

(** What each row of a table gives. *)
Module row_notions.
Import pystr pyexcept pandas models categorizer transformer orchestrator.

(** The values [f] gives on a list, in order, where it gives one. *)
Fixpoint picks {A B : Type} (f : A -> option B) (l : list A) : list B :=
  match l with
  | [] => []
  | x :: l' =>
      match f x with
      | Some y => y :: picks f l'
      | None => picks f l'
      end
  end.

(** An optional value is given. *)
Definition given {A : Type} (x : option A) : bool :=
  match x with
  | Some _ => true
  | None => false
  end.

(** The record a transform gives: none when it returns none, and none when
    it raises. *)
Definition record_of {A : Type} (x : result (option A)) : option A :=
  match x with
  | Return r => r
  | Raise _ => None
  end.

(** The diagnostic the row loop writes for a transform of the row at [idx]:
    none when the transform returns a record. *)
Definition diagnostic_of {A : Type} (filename : string) (idx : Z) (what : string)
    (x : result (option A)) : option string :=
  match x with
  | Return (Some _) => None
  | Return None => Some (row_failure filename idx what)
  | Raise e => Some (row_error filename idx e)
  end.

Section with_float.
Context {float : Type} `{PyFloat float}.

(** The symbol the row loop passes to the dividend transform. *)
Definition symbol_of_row (col : option string) (row : Series float) : option string :=
  get_company_symbol_for_dividend row
    (match col with Some c => c | None => EmptyString end).

(** The purchase of a row: the row is categorized as a purchase and
    transforms. *)
Definition purchase_of_row (df : DataFrame float) (col : option string)
    (row : Series float) : option (Purchase float) :=
  match categorize_transaction row col with
  | Some purchase => record_of (transform_to_purchase row df)
  | _ => None
  end.

Definition sale_of_row (df : DataFrame float) (col : option string)
    (row : Series float) : option (Sale float) :=
  match categorize_transaction row col with
  | Some sale => record_of (transform_to_sale row df)
  | _ => None
  end.

(** The dividend of a row, its symbol looked up from the type column. *)
Definition dividend_of_row (df : DataFrame float) (col : option string)
    (row : Series float) : option (Dividend float) :=
  match categorize_transaction row col with
  | Some dividend => record_of (transform_to_dividend row df (symbol_of_row col row))
  | _ => None
  end.

Definition tax_of_row (df : DataFrame float) (col : option string)
    (row : Series float) : option (Tax float) :=
  match categorize_transaction row col with
  | Some tax => record_of (transform_to_tax row df None)
  | _ => None
  end.

(** The transfer of a row: a deposit or a cash handling fee. *)
Definition transfer_of_row (df : DataFrame float) (col : option string)
    (row : Series float) : option (Transfer float) :=
  match categorize_transaction row col with
  | Some deposit => record_of (transform_to_transfer row df "deposit")
  | Some fee => record_of (transform_to_transfer row df "cash_handling_fee")
  | _ => None
  end.

(** The name of a category in the diagnostics. *)
Definition category_name (c : category) : string :=
  match c with
  | purchase => "purchase"
  | sale => "sale"
  | dividend => "dividend"
  | tax => "tax"
  | deposit => "deposit"
  | fee => "fee"
  end.

(** The diagnostic of a row: the row has a category and its transform
    returns none, or raises. *)
Definition failure_of_row (filename : string) (df : DataFrame float)
    (col : option string) (item : Z * Series float) : option string :=
  let (idx, row) := item in
  match categorize_transaction row col with
  | Some c =>
      let what := category_name c in
      match c with
      | purchase => diagnostic_of filename idx what (transform_to_purchase row df)
      | sale => diagnostic_of filename idx what (transform_to_sale row df)
      | dividend =>
          diagnostic_of filename idx what
            (transform_to_dividend row df (symbol_of_row col row))
      | tax => diagnostic_of filename idx what (transform_to_tax row df None)
      | deposit => diagnostic_of filename idx what (transform_to_transfer row df "deposit")
      | fee =>
          diagnostic_of filename idx what (transform_to_transfer row df "cash_handling_fee")
      end
  | None => None
  end.

(** The lists of a file before they are sorted, as the rows give them. *)
Definition collected (filename : string) (df : DataFrame float) (col : option string)
    (st : file_state float) (items : list (Z * Series float)) : file_state float :=
  mk_file_state
    (file_purchases st ++ picks (fun item => purchase_of_row df col (snd item)) items)
    (file_sales st ++ picks (fun item => sale_of_row df col (snd item)) items)
    (file_dividends st ++ picks (fun item => dividend_of_row df col (snd item)) items)
    (file_taxes st ++ picks (fun item => tax_of_row df col (snd item)) items)
    (file_transfers st ++ picks (fun item => transfer_of_row df col (snd item)) items)
    (row_errors st ++ picks (failure_of_row filename df col) items).

(** [x] is what [of_row] gives on a row of a file of the job that loads
    and is valid. *)
Definition from_row_of_job {X : Type}
    (load_file : string -> string -> DataFrame float + string)
    (directory : string) (files : list string)
    (of_row : DataFrame float -> option string -> Series float -> option X) (x : X)
    : Prop :=
  exists f df col idx row,
    In f files /\ load_file directory f = inl df
    /\ fst (validate_dataframe df f) = true
    /\ find_transaction_type_column df = Return col
    /\ In (idx, row) (iterrows df)
    /\ of_row df col row = Some x.

End with_float.
End row_notions.

(** Months and days written with or without a leading zero. *)
Module padding_notions.
Import pystr pydatetime.

(** The fifth of January 2023. *)
Definition january_fifth : datetime := mk_datetime 2023 1 5 eq_refl.

(** [s] writes the month or the day [n]: two digits, or one digit when
    [n] is below ten. *)
Definition writes (n : Z) (s : string) : Prop :=
  s = pad2 n \/ (n < 10 /\ s = String (digit n) EmptyString).

End padding_notions.

Module order_notions.
Import models.

(** The records of a date, in the order of the list. *)
Definition on_date {T : Type} `{Transaction T} (date : string) (l : list T) : list T :=
  filter (fun t => String.eqb (get_transaction_date t) date) l.

End order_notions.

(* ------------------------------------------------------------------ *)
(** ** Facts about dates as text *)

Module calendar_facts.
Import pystr pydatetime date_utils calendar.

Lemma in_zrange lo n x : lo <= x < lo + Z.of_nat n -> In x (zrange lo n).
Proof.
  intros Hx. unfold zrange. apply in_map_iff.
  exists (Z.to_nat (x - lo)). split; [lia|]. apply in_seq. lia.
Qed.

Ltac enum x lo n :=
  let Hin := fresh "Hin" in
  assert (Hin : In x (zrange lo n)) by (apply in_zrange; lia);
  cbv in Hin;
  repeat (destruct Hin as [Hin | Hin]; [subst x | ]); [ .. | contradiction ].

Lemma is_digit_digit k : 0 <= k <= 9 -> is_digit (digit k) = true.
Proof. intros Hk. enum k 0 10%nat; reflexivity. Qed.

Lemma digit_value_digit k : 0 <= k <= 9 -> digit_value (digit k) = k.
Proof. intros Hk. enum k 0 10%nat; reflexivity. Qed.

Lemma compare_digit a b :
  0 <= a <= 9 -> 0 <= b <= 9 -> Ascii.compare (digit a) (digit b) = (a ?= b).
Proof. intros Ha Hb. enum a 0 10%nat; enum b 0 10%nat; reflexivity. Qed.

Lemma valid_ymd_bounds y m d :
  valid_ymd y m d = true -> 1 <= y <= 9999 /\ 1 <= m <= 12 /\ 1 <= d <= 31.
Proof.
  unfold valid_ymd. rewrite !andb_true_iff, !Z.leb_le.
  intros [[[[[? ?] ?] ?] ?] Hd].
  assert (days_in_month y m <= 31).
  { unfold days_in_month.
    repeat match goal with
           | |- context [match ?x with _ => _ end] => destruct x
           end; lia. }
  lia.
Qed.

Lemma datetime_bounds dt :
  1 <= year dt <= 9999 /\ 1 <= month dt <= 12 /\ 1 <= day dt <= 31.
Proof. apply valid_ymd_bounds, datetime_ok. Qed.

Lemma four_digits_pad4 y r :
  0 <= y <= 9999 -> four_digits (pad4 y ++ r)%string = Some (y, r).
Proof.
  intros Hy. unfold pad4, four_digits. cbn [String.append].
  assert (0 <= y / 1000 <= 9) by (Z.to_euclidean_division_equations; lia).
  assert (0 <= (y / 100) mod 10 <= 9) by (Z.to_euclidean_division_equations; lia).
  assert (0 <= (y / 10) mod 10 <= 9) by (Z.to_euclidean_division_equations; lia).
  assert (0 <= y mod 10 <= 9) by (Z.to_euclidean_division_equations; lia).
  rewrite !is_digit_digit, !digit_value_digit by assumption. cbn [andb].
  do 2 f_equal. Z.to_euclidean_division_equations; lia.
Qed.

Lemma match_month_day y m d :
  1 <= m <= 12 -> 1 <= d <= 31 ->
  match_format [Lit "-"; DirM; Lit "-"; DirD] ("-" ++ pad2 m ++ "-" ++ pad2 d)%string y 1 1
  = Some (y, m, d, EmptyString).
Proof.
  intros Hm Hd. enum m 1 12%nat; enum d 1 31%nat; reflexivity.
Qed.

Lemma make_datetime_fields dt :
  make_datetime (year dt) (month dt) (day dt) = Some dt.
Proof.
  destruct dt as [y m d ok]. unfold make_datetime. cbn.
  destruct (bool_dec (valid_ymd y m d) true) as [ok'|no]; [|contradiction].
  do 2 f_equal. apply UIP_dec, bool_dec.
Qed.

Lemma match_format_DirY ds s y m d :
  match_format (DirY :: ds) s y m d
  = match four_digits s with
    | Some (v, r) => match_format ds r v m d
    | None => None
    end.
Proof. reflexivity. Qed.

Lemma strptime_isoformat dt : strptime (isoformat dt) "%Y-%m-%d" = Some dt.
Proof.
  pose proof (datetime_bounds dt) as (Hy & Hm & Hd).
  unfold strptime, isoformat.
  change (directives "%Y-%m-%d") with [DirY; Lit "-"; DirM; Lit "-"; DirD].
  rewrite match_format_DirY, four_digits_pad4 by lia.
  rewrite match_month_day by assumption. apply make_datetime_fields.
Qed.

Lemma datetime_ltb_ordinal a b :
  datetime_ltb a b = (ordinal a <? ordinal b).
Proof.
  pose proof (datetime_bounds a). pose proof (datetime_bounds b).
  unfold datetime_ltb, ordinal.
  destruct (Z.ltb_spec (year a) (year b)); destruct (Z.eqb_spec (year a) (year b));
  destruct (Z.ltb_spec (month a) (month b)); destruct (Z.eqb_spec (month a) (month b));
  destruct (Z.ltb_spec (day a) (day b)); cbn; symmetry;
  try (apply Z.ltb_lt; lia); try (apply Z.ltb_ge; lia).
Qed.

Lemma pad2_digits n :
  0 <= n <= 99 -> 0 <= n / 10 <= 9 /\ 0 <= n mod 10 <= 9 /\ n = 10 * (n / 10) + n mod 10.
Proof. intros. Z.to_euclidean_division_equations; lia. Qed.

Lemma pad4_digits n :
  0 <= n <= 9999 ->
  0 <= n / 1000 <= 9 /\ 0 <= (n / 100) mod 10 <= 9 /\ 0 <= (n / 10) mod 10 <= 9
  /\ 0 <= n mod 10 <= 9
  /\ n = 1000 * (n / 1000) + 100 * ((n / 100) mod 10) + 10 * ((n / 10) mod 10) + n mod 10.
Proof. intros. Z.to_euclidean_division_equations; lia. Qed.

Lemma string_compare_cons c1 s1 c2 s2 :
  String.compare (String c1 s1) (String c2 s2)
  = match Ascii.compare c1 c2 with
    | Eq => String.compare s1 s2
    | o => o
    end.
Proof. cbn. destruct (Ascii.compare c1 c2); reflexivity. Qed.

Lemma compare_isoformat a b :
  String.compare (isoformat a) (isoformat b) = (ordinal a ?= ordinal b).
Proof.
  pose proof (datetime_bounds a) as (Hya & Hma & Hda).
  pose proof (datetime_bounds b) as (Hyb & Hmb & Hdb).
  unfold isoformat, ordinal, pad4, pad2. cbn [String.append].
  destruct (pad4_digits (year a)) as (? & ? & ? & ? & Ea); [lia|].
  destruct (pad4_digits (year b)) as (? & ? & ? & ? & Eb); [lia|].
  destruct (pad2_digits (month a)) as (? & ? & Ema); [lia|].
  destruct (pad2_digits (month b)) as (? & ? & Emb); [lia|].
  destruct (pad2_digits (day a)) as (? & ? & Eda); [lia|].
  destruct (pad2_digits (day b)) as (? & ? & Edb); [lia|].
  rewrite Ea at 5. rewrite Eb at 5. rewrite Ema at 3. rewrite Emb at 3.
  rewrite Eda at 3. rewrite Edb at 3.
  repeat (rewrite string_compare_cons;
          first [ rewrite compare_digit by assumption | change (Ascii.compare "-" "-") with Eq ];
          cbv iota).
  repeat match goal with
         | |- context [?x ?= ?y] =>
             lazymatch x with
             | context [Z.add] => fail
             | _ => destruct (Z.compare_spec x y)
             end
         end;
  cbn [String.compare]; symmetry;
  first [ apply Z.compare_eq_iff; lia | apply Z.compare_lt_iff; lia | apply Z.compare_gt_iff; lia ].
Qed.

Lemma canonical_inv s :
  canonical_date s = true ->
  exists dt, strptime s "%Y-%m-%d" = Some dt /\ isoformat dt = s.
Proof.
  unfold canonical_date. destruct (strptime s "%Y-%m-%d") as [dt|]; [|discriminate].
  intros E. apply String.eqb_eq in E. eauto.
Qed.

Lemma canonical_isoformat dt : canonical_date (isoformat dt) = true.
Proof.
  unfold canonical_date. rewrite strptime_isoformat. apply String.eqb_refl.
Qed.

Lemma date_key_isoformat dt : date_key (isoformat dt) = ordinal dt.
Proof. unfold date_key. now rewrite strptime_isoformat. Qed.

Lemma compare_dates_canonical a b :
  canonical_date a = true -> canonical_date b = true ->
  compare_dates a b
  = match date_key a ?= date_key b with Lt => -1 | Eq => 0 | Gt => 1 end.
Proof.
  intros Ha Hb.
  destruct (canonical_inv a Ha) as (da & Ea & <-).
  destruct (canonical_inv b Hb) as (db & Eb & <-).
  unfold compare_dates. rewrite !strptime_isoformat, !date_key_isoformat.
  rewrite !datetime_ltb_ordinal.
  destruct (Z.compare_spec (ordinal da) (ordinal db));
    destruct (Z.ltb_spec (ordinal da) (ordinal db));
    destruct (Z.ltb_spec (ordinal db) (ordinal da)); lia.
Qed.

Lemma leb_canonical a b :
  canonical_date a = true -> canonical_date b = true ->
  String.leb a b = (date_key a <=? date_key b).
Proof.
  intros Ha Hb.
  destruct (canonical_inv a Ha) as (da & Ea & <-).
  destruct (canonical_inv b Hb) as (db & Eb & <-).
  unfold String.leb. rewrite compare_isoformat, !date_key_isoformat.
  unfold Z.leb. now destruct (ordinal da ?= ordinal db).
Qed.

Lemma date_key_inj a b :
  canonical_date a = true -> canonical_date b = true ->
  date_key a = date_key b -> a = b.
Proof.
  intros Ha Hb.
  destruct (canonical_inv a Ha) as (da & Ea & <-).
  destruct (canonical_inv b Hb) as (db & Eb & <-).
  rewrite !date_key_isoformat. intros E.
  apply String.compare_eq_iff. rewrite compare_isoformat. now apply Z.compare_eq_iff.
Qed.

Lemma iso_shape_isoformat dt : iso_shape (isoformat dt) = true.
Proof.
  pose proof (datetime_bounds dt) as (Hy & Hm & Hd).
  unfold isoformat, pad4, pad2, iso_shape. cbn [String.append].
  destruct (pad4_digits (year dt)) as (? & ? & ? & ? & _); [lia|].
  destruct (pad2_digits (month dt)) as (? & ? & _); [lia|].
  destruct (pad2_digits (day dt)) as (? & ? & _); [lia|].
  rewrite !is_digit_digit by assumption. reflexivity.
Qed.

(** [strftime] from the year 1000 on: the year has its four digits. *)

Lemma str_of_Z_pad4 y : 1000 <= y <= 9999 -> str_of_Z y = pad4 y.
Proof.
  intros Hy.
  assert (Hall : forallb (fun y => String.eqb (str_of_Z y) (pad4 y))
                         (zrange 1000 (Z.to_nat 9000)) = true)
    by (vm_compute; reflexivity).
  rewrite forallb_forall in Hall. apply String.eqb_eq, Hall, in_zrange. lia.
Qed.

Lemma strftime_isoformat dt : 1000 <= year dt -> strftime dt = isoformat dt.
Proof.
  intros Hy. pose proof (datetime_bounds dt) as (Hb & _).
  unfold strftime, isoformat. rewrite str_of_Z_pad4 by lia. reflexivity.
Qed.

Lemma canonical_strftime dt : 1000 <= year dt -> canonical_date (strftime dt) = true.
Proof. intros Hy. rewrite strftime_isoformat by assumption. apply canonical_isoformat. Qed.

Lemma iso_shape_strftime dt : 1000 <= year dt -> iso_shape (strftime dt) = true.
Proof. intros Hy. rewrite strftime_isoformat by assumption. apply iso_shape_isoformat. Qed.

Lemma iso_shape_re_match s : iso_shape s = true -> re_match_iso s = true.
Proof.
  unfold iso_shape, re_match_iso.
  repeat (destruct s as [|? s]; try discriminate).
  intros ->. reflexivity.
Qed.

Lemma re_match_iso_shape s :
  re_match_iso s = true -> ends_with_newline s = false -> iso_shape s = true.
Proof.
  unfold iso_shape, re_match_iso.
  do 10 (destruct s as [|? s]; try discriminate).
  rewrite andb_true_iff, orb_true_iff, !String.eqb_eq.
  intros [-> [-> | ->]]; [reflexivity | discriminate].
Qed.

Lemma canonical_iso_shape s : canonical_date s = true -> iso_shape s = true.
Proof.
  intros Hs. destruct (canonical_inv s Hs) as (dt & _ & <-). apply iso_shape_isoformat.
Qed.

(** The order of texts. *)

Lemma ascii_compare_refl c : Ascii.compare c c = Eq.
Proof. apply N.compare_refl. Qed.

Lemma string_compare_refl s : String.compare s s = Eq.
Proof.
  induction s as [|c s IH]; [reflexivity|]. cbn. now rewrite ascii_compare_refl.
Qed.

Lemma string_leb_refl s : String.leb s s = true.
Proof. unfold String.leb. now rewrite string_compare_refl. Qed.

Lemma string_compare_lt_trans a b c :
  String.compare a b = Lt -> String.compare b c = Lt -> String.compare a c = Lt.
Proof.
  revert b c. induction a as [|x a IH]; intros [|y b] [|z c]; cbn; try congruence.
  unfold Ascii.compare.
  destruct (N.compare_spec (N_of_ascii x) (N_of_ascii y)) as [Exy|Lxy|Gxy]; try discriminate;
  destruct (N.compare_spec (N_of_ascii y) (N_of_ascii z)) as [Eyz|Lyz|Gyz]; try discriminate;
  intros H1 H2.
  - rewrite Exy, Eyz, N.compare_refl. eauto.
  - rewrite Exy. now apply N.compare_lt_iff in Lyz as ->.
  - rewrite <- Eyz. now apply N.compare_lt_iff in Lxy as ->.
  - assert (L : (N_of_ascii x < N_of_ascii z)%N) by lia.
    now apply N.compare_lt_iff in L as ->.
Qed.

Lemma string_leb_trans a b c :
  String.leb a b = true -> String.leb b c = true -> String.leb a c = true.
Proof.
  unfold String.leb.
  destruct (String.compare a b) eqn:Eab; try discriminate;
  destruct (String.compare b c) eqn:Ebc; try discriminate; intros _ _.
  - apply String.compare_eq_iff in Eab, Ebc. subst. now rewrite string_compare_refl.
  - apply String.compare_eq_iff in Eab. subst. now rewrite Ebc.
  - apply String.compare_eq_iff in Ebc. subst. now rewrite Eab.
  - now rewrite (string_compare_lt_trans a b c).
Qed.

Lemma string_leb_false a b : String.leb a b = false -> String.leb b a = true.
Proof.
  intros E. destruct (String.leb_total a b) as [E'|E']; congruence.
Qed.

End calendar_facts.

(* ------------------------------------------------------------------ *)
(** ** Merging by an integer key *)

Module keyed_facts.
Import keyed.

Section with_key.
Context {A : Type} (key : A -> Z).

Lemma zmerge_nil_l l : zmerge key [] l = l.
Proof. now destruct l. Qed.

Lemma zmerge_nil_r l : zmerge key l [] = l.
Proof. now destruct l. Qed.

Lemma zmerge_cons a l1 b l2 :
  zmerge key (a :: l1) (b :: l2)
  = if key a <=? key b then a :: zmerge key l1 (b :: l2)
    else b :: zmerge key (a :: l1) l2.
Proof. reflexivity. Qed.

(** Induction along the two pointers of the merge. *)
Lemma zmerge_ind (P : list A -> list A -> Prop) :
  (forall l2, P [] l2) ->
  (forall l1, P l1 []) ->
  (forall a l1 b l2,
      (key a <= key b -> P l1 (b :: l2)) ->
      (key b < key a -> P (a :: l1) l2) ->
      P (a :: l1) (b :: l2)) ->
  forall l1 l2, P l1 l2.
Proof.
  intros Hl Hr Hstep. induction l1 as [|a l1 IH1]; [assumption|].
  induction l2 as [|b l2 IH2]; [apply Hr|].
  apply Hstep; intros; [apply IH1 | apply IH2].
Qed.

Lemma zmerge_perm l1 l2 : Permutation (zmerge key l1 l2) (l1 ++ l2).
Proof.
  revert l1 l2.
  apply (zmerge_ind (fun l1 l2 => Permutation (zmerge key l1 l2) (l1 ++ l2))).
  - intros l2. now rewrite zmerge_nil_l.
  - intros l1. now rewrite zmerge_nil_r, app_nil_r.
  - intros a l1 b l2 IH1 IH2. rewrite zmerge_cons.
    destruct (Z.leb_spec (key a) (key b)).
    + cbn. constructor. now apply IH1.
    + rewrite IH2 by assumption. apply (Permutation_middle (a :: l1) l2 b).
Qed.

Lemma zmerge_sorted l1 l2 :
  key_sorted key l1 -> key_sorted key l2 -> key_sorted key (zmerge key l1 l2).
Proof.
  revert l1 l2.
  apply (zmerge_ind (fun l1 l2 =>
    key_sorted key l1 -> key_sorted key l2 -> key_sorted key (zmerge key l1 l2)));
    unfold key_sorted.
  - intros l2 H1 H2. now rewrite zmerge_nil_l.
  - intros l1 H1 H2. now rewrite zmerge_nil_r.
  - intros a l1 b l2 IH1 IH2 H1 H2. rewrite zmerge_cons.
    pose proof H1 as H1'. pose proof H2 as H2'.
    apply StronglySorted_inv in H1' as [S1 F1].
    apply StronglySorted_inv in H2' as [S2 F2].
    destruct (Z.leb_spec (key a) (key b)) as [Hab|Hab].
    + constructor; [now apply IH1|].
      eapply Permutation_Forall; [symmetry; apply zmerge_perm|].
      apply Forall_app. split; [assumption|].
      constructor; [assumption|]. eapply Forall_impl; [|exact F2].
      cbn. intros; lia.
    + constructor; [now apply IH2|].
      eapply Permutation_Forall; [symmetry; apply zmerge_perm|].
      apply Forall_app. split; [|assumption].
      constructor; [lia|]. eapply Forall_impl; [|exact F1].
      cbn. intros; lia.
Qed.

Lemma zmerge_assoc l1 l2 l3 :
  zmerge key (zmerge key l1 l2) l3 = zmerge key l1 (zmerge key l2 l3).
Proof.
  revert l3. revert l1 l2.
  apply (zmerge_ind (fun l1 l2 => forall l3,
    zmerge key (zmerge key l1 l2) l3 = zmerge key l1 (zmerge key l2 l3))).
  - intros l2 l3. now rewrite !zmerge_nil_l.
  - intros l1 l3. now rewrite zmerge_nil_r, zmerge_nil_l.
  - intros a l1 b l2 IH1 IH2.
    induction l3 as [|c l3 IH3].
    + now rewrite !zmerge_nil_r.
    + rewrite (zmerge_cons a l1 b l2).
      destruct (Z.leb_spec (key a) (key b)) as [Hab|Hab].
      * rewrite (zmerge_cons a _ c l3), (zmerge_cons b l2 c l3).
        destruct (Z.leb_spec (key a) (key c)) as [Hac|Hac];
        destruct (Z.leb_spec (key b) (key c)) as [Hbc|Hbc]; try lia.
        -- rewrite IH1 by assumption. rewrite (zmerge_cons b l2 c l3).
           destruct (Z.leb_spec (key b) (key c)); [|lia].
           rewrite zmerge_cons. now destruct (Z.leb_spec (key a) (key b)); [|lia].
        -- rewrite IH1 by assumption. rewrite (zmerge_cons b l2 c l3).
           destruct (Z.leb_spec (key b) (key c)); [lia|].
           rewrite zmerge_cons. now destruct (Z.leb_spec (key a) (key c)); [|lia].
        -- rewrite (zmerge_cons a l1 c _).
           destruct (Z.leb_spec (key a) (key c)); [lia|].
           f_equal. rewrite <- IH3. rewrite (zmerge_cons a l1 b l2).
           now destruct (Z.leb_spec (key a) (key b)); [|lia].
      * rewrite (zmerge_cons b _ c l3), (zmerge_cons b l2 c l3).
        destruct (Z.leb_spec (key b) (key c)) as [Hbc|Hbc].
        -- rewrite IH2 by assumption.
           rewrite (zmerge_cons a l1 b _).
           now destruct (Z.leb_spec (key a) (key b)); [lia|].
        -- rewrite (zmerge_cons a l1 c _).
           destruct (Z.leb_spec (key a) (key c)); [lia|].
           f_equal. rewrite <- IH3. rewrite (zmerge_cons a l1 b l2).
           now destruct (Z.leb_spec (key a) (key b)); [lia|].
Qed.

Lemma zmerge_comm l1 l2 :
  (forall a b, In a l1 -> In b l2 -> key a <> key b) ->
  zmerge key l1 l2 = zmerge key l2 l1.
Proof.
  revert l1 l2.
  apply (zmerge_ind (fun l1 l2 =>
    (forall a b, In a l1 -> In b l2 -> key a <> key b) ->
    zmerge key l1 l2 = zmerge key l2 l1)).
  - intros l2 _. now rewrite zmerge_nil_l, zmerge_nil_r.
  - intros l1 _. now rewrite zmerge_nil_l, zmerge_nil_r.
  - intros a l1 b l2 IH1 IH2 Hne.
    pose proof (Hne a b (or_introl eq_refl) (or_introl eq_refl)).
    rewrite (zmerge_cons a l1 b l2), (zmerge_cons b l2 a l1).
    destruct (Z.leb_spec (key a) (key b)); destruct (Z.leb_spec (key b) (key a)); try lia.
    + f_equal. apply IH1; [lia|]. intros; apply Hne; cbn; auto.
    + f_equal. apply IH2; [lia|]. intros; apply Hne; cbn; auto.
Qed.

Lemma zmerge_append l1 l2 :
  (forall a b, In a l1 -> In b l2 -> key a <= key b) ->
  zmerge key l1 l2 = l1 ++ l2.
Proof.
  revert l2. induction l1 as [|a l1 IH]; intros l2 Hle.
  - apply zmerge_nil_l.
  - destruct l2 as [|b l2]; [now rewrite zmerge_nil_r, app_nil_r|].
    rewrite zmerge_cons.
    pose proof (Hle a b (or_introl eq_refl) (or_introl eq_refl)).
    destruct (Z.leb_spec (key a) (key b)); [|lia].
    cbn. f_equal. apply IH. intros; apply Hle; cbn; auto.
Qed.

Lemma zmerge_prepend l1 l2 :
  (forall a b, In a l1 -> In b l2 -> key b < key a) ->
  zmerge key l1 l2 = l2 ++ l1.
Proof.
  intros Hlt. induction l2 as [|b l2 IH].
  - apply zmerge_nil_r.
  - destruct l1 as [|a l1]; [now rewrite zmerge_nil_l, app_nil_r|].
    rewrite zmerge_cons.
    pose proof (Hlt a b (or_introl eq_refl) (or_introl eq_refl)).
    destruct (Z.leb_spec (key a) (key b)); [lia|].
    cbn. f_equal. apply IH. intros; apply Hlt; cbn; auto.
Qed.

End with_key.
End keyed_facts.

(* ------------------------------------------------------------------ *)
(** ** The stable sort and the date boundaries *)

Module sorting_facts.
Import pystr date_utils keyed calendar_facts.

Section with_key.
Context {A : Type} (key : A -> string).

Lemma insert_by_perm x l : Permutation (insert_by key x l) (x :: l).
Proof.
  induction l as [|y l IH]; cbn; [reflexivity|].
  destruct (String.leb (key x) (key y)); [reflexivity|].
  rewrite IH. apply perm_swap.
Qed.

Lemma sort_by_perm l : Permutation (sort_by key l) l.
Proof.
  induction l as [|x l IH]; cbn; [reflexivity|].
  rewrite insert_by_perm. now constructor.
Qed.

Lemma insert_by_sorted x l : text_sorted key l -> text_sorted key (insert_by key x l).
Proof.
  unfold text_sorted. induction l as [|y l IH]; cbn; intros Hs.
  - repeat constructor.
  - apply StronglySorted_inv in Hs as [Hs Hy].
    destruct (String.leb (key x) (key y)) eqn:Exy.
    + constructor; [now constructor|]. constructor; [assumption|].
      eapply Forall_impl; [|exact Hy]. cbn. intros z Hz.
      now apply string_leb_trans with (key y).
    + constructor; [now apply IH|].
      eapply Permutation_Forall; [symmetry; apply insert_by_perm|].
      constructor; [now apply string_leb_false | assumption].
Qed.

Lemma sort_by_sorted l : text_sorted key (sort_by key l).
Proof.
  induction l as [|x l IH]; cbn; [constructor|]. now apply insert_by_sorted.
Qed.

Lemma insert_by_sorted_head x l :
  Forall (fun y => String.leb (key x) (key y) = true) l ->
  insert_by key x l = x :: l.
Proof. destruct l as [|y l]; cbn; [reflexivity|]. intros F. inversion F as [|? ? E]. now rewrite E. Qed.

(** A sorted list is left as it is. *)
Lemma sort_by_of_sorted l : text_sorted key l -> sort_by key l = l.
Proof.
  induction 1 as [|x l Hs IH Hx]; [reflexivity|].
  change (sort_by key (x :: l)) with (insert_by key x (sort_by key l)).
  rewrite IH. now apply insert_by_sorted_head.
Qed.

End with_key.

Lemma sorted_last {A : Type} (R : A -> A -> Prop) l x :
  StronglySorted R (l ++ [x]) -> Forall (fun y => R y x) l.
Proof.
  induction l as [|y l IH]; cbn; intros Hs; [constructor|].
  apply StronglySorted_inv in Hs as [Hs Hy]. constructor; [|now apply IH].
  apply Forall_app in Hy as [_ Hy]. now inversion Hy.
Qed.

Lemma somes_map_Some {A : Type} (l : list A) : somes (map Some l) = l.
Proof. induction l; cbn; congruence. Qed.

Lemma get_date_boundaries_nonempty ds :
  ds <> [] ->
  get_date_boundaries (map Some ds)
  = (hd_error (sort_by (fun d => d) ds), hd_error (rev (sort_by (fun d => d) ds))).
Proof.
  destruct ds as [|d ds]; [contradiction|]. intros _.
  unfold get_date_boundaries. cbn [map somes]. now rewrite somes_map_Some.
Qed.

Lemma get_date_boundaries_spec ds :
  ds <> [] ->
  exists lo hi,
    get_date_boundaries (map Some ds) = (Some lo, Some hi)
    /\ In lo ds /\ In hi ds
    /\ forall d, In d ds -> String.leb lo d = true /\ String.leb d hi = true.
Proof.
  intros Hne. rewrite get_date_boundaries_nonempty by assumption.
  pose proof (sort_by_perm (fun d => d) ds) as Hp.
  pose proof (sort_by_sorted (fun d => d) ds) as Hs.
  destruct (rev (sort_by (fun d => d) ds)) as [|hi front] eqn:Erev.
  { apply (f_equal (@rev _)) in Erev. rewrite rev_involutive in Erev. cbn in Erev.
    rewrite Erev in Hp. apply Permutation_nil in Hp. congruence. }
  apply (f_equal (@rev _)) in Erev. rewrite rev_involutive in Erev. cbn in Erev.
  destruct (sort_by (fun d => d) ds) as [|lo rest] eqn:Esort.
  { destruct (rev front); discriminate. }
  exists lo, hi. cbn [hd_error]. split; [reflexivity|].
  assert (Hlo : forall d, In d (lo :: rest) -> String.leb lo d = true).
  { apply StronglySorted_inv in Hs as [_ Hlo]. intros d [<-|Hd].
    - apply string_leb_refl.
    - now apply (proj1 (Forall_forall _ _) Hlo). }
  assert (Hhi : forall d, In d (lo :: rest) -> String.leb d hi = true).
  { rewrite Erev in Hs |- *. apply sorted_last in Hs. intros d Hd.
    apply in_app_or in Hd as [Hd|[<-|[]]].
    - now apply (proj1 (Forall_forall _ _) Hs).
    - apply string_leb_refl. }
  assert (Hin : forall d, In d ds <-> In d (lo :: rest)).
  { intros d. split; apply Permutation_in; [now symmetry | assumption]. }
  repeat split.
  - apply Hin. now left.
  - apply Hin. rewrite Erev. apply in_or_app. right. now left.
  - apply Hlo, Hin, H.
  - apply Hhi, Hin, H.
Qed.

End sorting_facts.

(* ------------------------------------------------------------------ *)
(** ** The merger on canonical dates *)

Module merger_facts.
Import pystr date_utils models merger calendar keyed merge_notions.
Import calendar_facts keyed_facts sorting_facts.

Lemma compare_le_canonical a b :
  canonical_date a = true -> canonical_date b = true ->
  (compare_dates a b <=? 0) = (date_key a <=? date_key b).
Proof.
  intros Ha Hb. rewrite compare_dates_canonical by assumption.
  destruct (Z.compare_spec (date_key a) (date_key b));
    destruct (Z.leb_spec (date_key a) (date_key b)); try lia; reflexivity.
Qed.

Lemma compare_lt_canonical a b :
  canonical_date a = true -> canonical_date b = true ->
  compare_dates a b < 0 <-> date_key a < date_key b.
Proof.
  intros Ha Hb. rewrite compare_dates_canonical by assumption.
  destruct (Z.compare_spec (date_key a) (date_key b)); lia.
Qed.

Lemma compare_gt_canonical a b :
  canonical_date a = true -> canonical_date b = true ->
  compare_dates a b > 0 <-> date_key a > date_key b.
Proof.
  intros Ha Hb. rewrite compare_dates_canonical by assumption.
  destruct (Z.compare_spec (date_key a) (date_key b)); lia.
Qed.

Lemma StronglySorted_ext_in {A : Type} (R R' : A -> A -> Prop) l :
  (forall a b, In a l -> In b l -> R a b -> R' a b) ->
  StronglySorted R l -> StronglySorted R' l.
Proof.
  intros Himp Hs. induction Hs as [|x l Hs IH Hx]; [constructor|].
  constructor.
  - apply IH. intros; apply Himp; cbn; auto.
  - apply Forall_forall. intros y Hy. apply Himp; cbn; auto.
    now apply (proj1 (Forall_forall _ _) Hx).
Qed.

Section with_transaction.
Context {T : Type} `{Transaction T}.

Lemma _sorted_merge_nil_l (l : list T) : _sorted_merge [] l = l.
Proof. now destruct l. Qed.

Lemma _sorted_merge_nil_r (l : list T) : _sorted_merge l [] = l.
Proof. now destruct l. Qed.

Lemma _sorted_merge_cons (e : T) es n ns :
  _sorted_merge (e :: es) (n :: ns)
  = if compare_dates (get_transaction_date e) (get_transaction_date n) <=? 0
    then e :: _sorted_merge es (n :: ns)
    else n :: _sorted_merge (e :: es) ns.
Proof. reflexivity. Qed.

Lemma _sorted_merge_zmerge (l1 l2 : list T) :
  canonical_dates l1 -> canonical_dates l2 ->
  _sorted_merge l1 l2 = zmerge dkey l1 l2.
Proof.
  unfold canonical_dates. revert l2.
  induction l1 as [|a l1 IH1]; intros l2 H1 H2.
  - now rewrite _sorted_merge_nil_l, zmerge_nil_l.
  - induction l2 as [|b l2 IH2].
    + now rewrite _sorted_merge_nil_r, zmerge_nil_r.
    + rewrite _sorted_merge_cons, zmerge_cons.
      inversion H1 as [|? ? Ha H1']; inversion H2 as [|? ? Hb H2']; subst.
      rewrite compare_le_canonical by assumption. fold (dkey a) (dkey b).
      destruct (dkey a <=? dkey b); f_equal; auto.
Qed.

Lemma merge_transactions_cons (e : T) es n ns :
  merge_transactions (e :: es) (n :: ns)
  = match get_date_boundaries (map Some (map get_transaction_date (e :: es))),
          get_date_boundaries (map Some (map get_transaction_date (n :: ns))) with
    | (Some existing_min, Some existing_max), (Some new_min, Some new_max) =>
        if compare_dates new_max existing_min <? 0 then (n :: ns) ++ (e :: es)
        else if compare_dates new_min existing_max >? 0 then (e :: es) ++ (n :: ns)
        else _sorted_merge (e :: es) (n :: ns)
    | _, _ => _simple_merge (e :: es) (n :: ns)
    end.
Proof. unfold merge_transactions. now rewrite !map_map. Qed.

Lemma merge_transactions_nil_r (l : list T) : merge_transactions l [] = l.
Proof. reflexivity. Qed.

Lemma merge_transactions_nil_l (l : list T) : merge_transactions [] l = l.
Proof. now destruct l. Qed.

Lemma canonical_in (l : list T) t :
  canonical_dates l -> In t l -> canonical_date (get_transaction_date t) = true.
Proof. intros Hl Ht. now apply (proj1 (Forall_forall _ _) Hl). Qed.

Lemma merge_transactions_zmerge (existing new : list T) :
  canonical_dates existing -> canonical_dates new ->
  merge_transactions existing new = zmerge dkey existing new.
Proof.
  intros He Hn.
  destruct new as [|n ns]; [now rewrite zmerge_nil_r|].
  destruct existing as [|e es]; [now rewrite zmerge_nil_l|].
  rewrite merge_transactions_cons.
  set (existing := e :: es) in *. set (new := n :: ns) in *.
  destruct (get_date_boundaries_spec (map get_transaction_date existing))
    as (emin & emax & -> & Hemin & Hemax & Hebound); [discriminate|].
  destruct (get_date_boundaries_spec (map get_transaction_date new))
    as (nmin & nmax & -> & Hnmin & Hnmax & Hnbound); [discriminate|].
  assert (Hcan : forall l d, canonical_dates l -> In d (map get_transaction_date l) ->
                             canonical_date d = true).
  { intros l d Hl Hd. apply in_map_iff in Hd as (t & <- & Ht). now apply canonical_in with l. }
  assert (Hkey : forall a b, canonical_date a = true -> canonical_date b = true ->
                             String.leb a b = true -> date_key a <= date_key b).
  { intros a b Ha Hb Hab. rewrite leb_canonical in Hab by assumption. lia. }
  pose proof (Hcan _ _ He Hemin) as Cemin. pose proof (Hcan _ _ He Hemax) as Cemax.
  pose proof (Hcan _ _ Hn Hnmin) as Cnmin. pose proof (Hcan _ _ Hn Hnmax) as Cnmax.
  destruct (Z.ltb_spec (compare_dates nmax emin) 0) as [Hpre|Hpre].
  - apply compare_lt_canonical in Hpre; [|assumption..].
    symmetry. apply zmerge_prepend. intros a b Ha Hb. unfold dkey.
    pose proof (in_map get_transaction_date _ _ Ha) as Da.
    pose proof (in_map get_transaction_date _ _ Hb) as Db.
    pose proof (Hkey _ _ (Hcan _ _ Hn Db) Cnmax (proj2 (Hnbound _ Db))).
    pose proof (Hkey _ _ Cemin (Hcan _ _ He Da) (proj1 (Hebound _ Da))).
    lia.
  - destruct (Z.gtb_spec (compare_dates nmin emax) 0) as [Happ|Happ].
    + apply Z.lt_gt, compare_gt_canonical in Happ; [|assumption..].
      symmetry. apply zmerge_append. intros a b Ha Hb. unfold dkey.
      pose proof (in_map get_transaction_date _ _ Ha) as Da.
      pose proof (in_map get_transaction_date _ _ Hb) as Db.
      pose proof (Hkey _ _ Cnmin (Hcan _ _ Hn Db) (proj1 (Hnbound _ Db))).
      pose proof (Hkey _ _ (Hcan _ _ He Da) Cemax (proj2 (Hebound _ Da))).
      lia.
    + now apply _sorted_merge_zmerge.
Qed.

Lemma sorted_by_date_key (l : list T) :
  canonical_dates l -> sorted_by_date l <-> key_sorted dkey l.
Proof.
  intros Hl. unfold sorted_by_date, key_sorted.
  split; apply StronglySorted_ext_in; intros a b Ha Hb;
    pose proof (canonical_in _ _ Hl Ha); pose proof (canonical_in _ _ Hl Hb);
    unfold dkey; rewrite compare_dates_canonical by assumption;
    destruct (Z.compare_spec (date_key (get_transaction_date a))
                             (date_key (get_transaction_date b))); lia.
Qed.

Lemma sorted_by_text_key (l : list T) :
  canonical_dates l -> sorted_by_text l <-> key_sorted dkey l.
Proof.
  intros Hl. unfold sorted_by_text, key_sorted.
  split; apply StronglySorted_ext_in; intros a b Ha Hb;
    pose proof (canonical_in _ _ Hl Ha); pose proof (canonical_in _ _ Hl Hb);
    unfold dkey; rewrite leb_canonical by assumption; lia.
Qed.

Lemma canonical_zmerge (l1 l2 : list T) :
  canonical_dates l1 -> canonical_dates l2 -> canonical_dates (zmerge dkey l1 l2).
Proof.
  intros H1 H2. unfold canonical_dates.
  eapply Permutation_Forall; [symmetry; apply zmerge_perm|]. now apply Forall_app.
Qed.

Lemma canonical_merge (l1 l2 : list T) :
  canonical_dates l1 -> canonical_dates l2 ->
  canonical_dates (merge_transactions l1 l2).
Proof.
  intros H1 H2. rewrite merge_transactions_zmerge by assumption.
  now apply canonical_zmerge.
Qed.

Lemma stable_interleave_existing (l : list T) : stable_interleave l [] l.
Proof. induction l; constructor; assumption. Qed.

Lemma stable_interleave_new (l : list T) : stable_interleave [] l l.
Proof. induction l; constructor; auto. Qed.

Lemma zmerge_stable (l1 l2 : list T) :
  key_sorted dkey l1 -> stable_interleave l1 l2 (zmerge dkey l1 l2).
Proof.
  revert l1 l2.
  apply (zmerge_ind dkey (fun l1 l2 =>
    key_sorted dkey l1 -> stable_interleave l1 l2 (zmerge dkey l1 l2))).
  - intros l2 _. rewrite zmerge_nil_l. apply stable_interleave_new.
  - intros l1 _. rewrite zmerge_nil_r. apply stable_interleave_existing.
  - intros a l1 b l2 IH1 IH2 Hs. rewrite zmerge_cons.
    destruct (Z.leb_spec (dkey a) (dkey b)) as [Hab|Hab].
    + constructor. apply IH1; [assumption|]. now apply StronglySorted_inv in Hs.
    + constructor; [|now apply IH2].
      apply StronglySorted_inv in Hs as [_ Ha].
      constructor.
      * intros E. unfold dkey in Hab. rewrite E in Hab. lia.
      * eapply Forall_impl; [|exact Ha]. cbn. intros e Hae E.
        unfold dkey in *. rewrite E in Hae. lia.
Qed.

Lemma _sorted_merge_perm (existing new : list T) :
  Permutation (_sorted_merge existing new) (existing ++ new).
Proof.
  revert new. induction existing as [|e es IH1]; intros new.
  - now rewrite _sorted_merge_nil_l.
  - induction new as [|n ns IH2].
    + now rewrite _sorted_merge_nil_r, app_nil_r.
    + rewrite _sorted_merge_cons.
      destruct (compare_dates (get_transaction_date e) (get_transaction_date n) <=? 0).
      * cbn. constructor. apply IH1.
      * rewrite IH2. apply (Permutation_middle (e :: es) ns n).
Qed.

Lemma _simple_merge_perm (existing new : list T) :
  Permutation (_simple_merge existing new) (existing ++ new).
Proof. apply sort_by_perm. Qed.

Lemma merge_transactions_perm (existing new : list T) :
  Permutation (merge_transactions existing new) (existing ++ new).
Proof.
  destruct new as [|n ns]; [now rewrite merge_transactions_nil_r, app_nil_r|].
  destruct existing as [|e es]; [reflexivity|].
  rewrite merge_transactions_cons.
  repeat match goal with
         | |- context [get_date_boundaries ?ds] =>
             destruct (get_date_boundaries ds) as [[?|] [?|]]
         end;
    try apply _simple_merge_perm.
  repeat match goal with
         | |- context [if ?c then _ else _] => destruct c
         end.
  - apply Permutation_app_comm.
  - reflexivity.
  - apply _sorted_merge_perm.
Qed.

End with_transaction.
End merger_facts.

(* ------------------------------------------------------------------ *)
(** ** Properties of the merger *)

Module merger_properties.
Import pystr date_utils models merger calendar keyed merge_notions.
Import calendar_facts keyed_facts sorting_facts merger_facts examples.

#[local] Existing Instance decimal_float.decimal_PyFloat.

Section with_transaction.
Context {T : Type} `{Transaction T}.

(** C1, as amended.  For lists whose dates are canonical (the zero-padded
    text of a calendar day), each sorted non-decreasing by date,
    [merge_transactions existing new] is sorted non-decreasing by date, is a
    permutation of [existing ++ new], and interleaves the two lists keeping
    the order of each, an element of [new] never being placed before an
    element of [existing] with the same date. *)
Theorem merge_transactions_sorted_stable (existing new : list T) :
  canonical_dates existing -> canonical_dates new ->
  sorted_by_date existing -> sorted_by_date new ->
  sorted_by_date (merge_transactions existing new)
  /\ Permutation (merge_transactions existing new) (existing ++ new)
  /\ stable_interleave existing new (merge_transactions existing new).
Proof.
  intros He Hn Se Sn.
  rewrite merge_transactions_zmerge by assumption.
  apply sorted_by_date_key in Se; [|assumption].
  apply sorted_by_date_key in Sn; [|assumption].
  split; [|split].
  - apply sorted_by_date_key; [now apply canonical_zmerge|].
    now apply zmerge_sorted.
  - apply zmerge_perm.
  - now apply zmerge_stable.
Qed.

Lemma merged_canonical (g : grouping) :
  Forall canonical_dates (batches g) ->
  canonical_dates (merged g)
  /\ merged g = fold_right (zmerge dkey) [] (batches g).
Proof.
  induction g as [b|l IHl r IHr]; cbn [batches merged fold_right]; intros Hc.
  - inversion Hc; subst. split; [assumption|]. now rewrite zmerge_nil_r.
  - apply Forall_app in Hc as [Hl Hr].
    destruct (IHl Hl) as [Cl El]. destruct (IHr Hr) as [Cr Er].
    split; [now apply canonical_merge|].
    rewrite merge_transactions_zmerge by assumption.
    rewrite El, Er, fold_right_app.
    generalize (fold_right (zmerge dkey) [] (batches r)) as acc.
    generalize (batches l) as bs. clear.
    induction bs as [|b bs IH]; intros acc; cbn.
    + apply (zmerge_nil_l dkey).
    + now rewrite (zmerge_assoc dkey), IH.
Qed.

(** C7, as amended.  For batches whose dates are canonical, each sorted by
    date: chained merges of a sequence of batches give the same list under
    every grouping; the merge is associative; and merging with an empty
    batch on either side returns the other operand. *)
Theorem merge_transactions_grouping :
  (forall g1 g2 : grouping,
      batches g1 = batches g2 ->
      Forall canonical_dates (batches g1) ->
      Forall sorted_by_date (batches g1) ->
      merged g1 = merged g2)
  /\ (forall a b c : list T,
         canonical_dates a -> canonical_dates b -> canonical_dates c ->
         sorted_by_date a -> sorted_by_date b -> sorted_by_date c ->
         merge_transactions (merge_transactions a b) c
         = merge_transactions a (merge_transactions b c))
  /\ (forall a : list T, merge_transactions a [] = a)
  /\ (forall b : list T, merge_transactions [] b = b).
Proof.
  split; [|split; [|split]].
  - intros g1 g2 E Hc _.
    rewrite (proj2 (merged_canonical g1 Hc)).
    rewrite E in Hc. rewrite (proj2 (merged_canonical g2 Hc)). now rewrite E.
  - intros a b c Ca Cb Cc _ _ _.
    rewrite (merge_transactions_zmerge a b), (merge_transactions_zmerge b c) by assumption.
    rewrite !merge_transactions_zmerge by auto using canonical_zmerge.
    apply zmerge_assoc.
  - apply merge_transactions_nil_r.
  - apply merge_transactions_nil_l.
Qed.

(** C10, as amended.  [compare_dates] returns -1, 0 or 1 on every pair of
    texts, and 0 as soon as one of them does not parse as [%Y-%m-%d]; in the
    two-pointer merge a record whose date does not parse is ordered as if
    tied (the head of [existing] goes first) and none is rejected; the
    fallback sort rejects none either and orders all records by the text of
    their dates. *)
Theorem compare_dates_total :
  (forall d1 d2, compare_dates d1 d2 = -1 \/ compare_dates d1 d2 = 0
                 \/ compare_dates d1 d2 = 1)
  /\ (forall d1 d2,
         pydatetime.strptime d1 "%Y-%m-%d" = None
         \/ pydatetime.strptime d2 "%Y-%m-%d" = None ->
         compare_dates d1 d2 = 0)
  /\ (forall (e : T) es n ns,
         pydatetime.strptime (get_transaction_date e) "%Y-%m-%d" = None
         \/ pydatetime.strptime (get_transaction_date n) "%Y-%m-%d" = None ->
         _sorted_merge (e :: es) (n :: ns) = e :: _sorted_merge es (n :: ns))
  /\ (forall existing new : list T,
         Permutation (_sorted_merge existing new) (existing ++ new))
  /\ (forall existing new : list T,
         Permutation (_simple_merge existing new) (existing ++ new)
         /\ sorted_by_text (_simple_merge existing new)).
Proof.
  assert (Hzero : forall d1 d2,
             pydatetime.strptime d1 "%Y-%m-%d" = None
             \/ pydatetime.strptime d2 "%Y-%m-%d" = None ->
             compare_dates d1 d2 = 0).
  { intros d1 d2 [E|E]; unfold compare_dates; rewrite E; [reflexivity|].
    now destruct (pydatetime.strptime d1 "%Y-%m-%d"). }
  split; [|split; [|split; [|split]]].
  - intros d1 d2. unfold compare_dates.
    destruct (pydatetime.strptime d1 "%Y-%m-%d") as [a|]; [|auto].
    destruct (pydatetime.strptime d2 "%Y-%m-%d") as [b|]; [|auto].
    destruct (pydatetime.datetime_ltb a b); [auto|].
    destruct (pydatetime.datetime_ltb b a); auto.
  - exact Hzero.
  - intros e es n ns Hbad. rewrite _sorted_merge_cons, Hzero by assumption.
    reflexivity.
  - apply _sorted_merge_perm.
  - intros existing new. split; [apply _simple_merge_perm|].
    apply (sort_by_sorted get_transaction_date).
Qed.

End with_transaction.

Ltac sorted_example :=
  repeat first [ apply SSorted_nil | apply SSorted_cons | apply Forall_nil | apply Forall_cons ];
  vm_compute; congruence.

Ltac canonical_example :=
  repeat first [ apply Forall_nil | apply Forall_cons ]; vm_compute; reflexivity.

Ltac run := vm_compute; reflexivity.

(** C1 as stated fails on dates that are no calendar day: both lists are
    sorted (by [compare_dates] and as text), and the merge puts 2023-03-01
    before 2023-01-01. *)
Lemma merge_transactions_malformed_date_unsorted :
  let existing := [purchase_on "2023-03-01"] in
  let new := [purchase_on "2023-01-00"; purchase_on "2023-01-01";
              purchase_on "2023-04-01"] in
  let result := [purchase_on "2023-03-01"; purchase_on "2023-01-00";
                 purchase_on "2023-01-01"; purchase_on "2023-04-01"] in
  sorted_by_date existing /\ sorted_by_date new
  /\ sorted_by_text existing /\ sorted_by_text new
  /\ merge_transactions existing new = result
  /\ ~ sorted_by_date result
  /\ ~ sorted_by_text result.
Proof.
  cbv zeta.
  split; [sorted_example|]. split; [sorted_example|].
  split; [sorted_example|]. split; [sorted_example|].
  split; [run|]. split.
  - intros Hs. apply StronglySorted_inv in Hs as [_ Hs].
    inversion Hs as [|? ? _ Hs']. inversion Hs' as [|? ? Hbad _].
    vm_compute in Hbad. congruence.
  - intros Hs. apply StronglySorted_inv in Hs as [_ Hs].
    inversion Hs as [|? ? Hbad _]. vm_compute in Hbad. congruence.
Qed.

Lemma merge_transactions_sorted_stable_witness :
  let existing := [purchase_on "2023-01-15"; purchase_on "2023-03-01"] in
  let new := [purchase_on "2023-02-01"; purchase_on "2023-03-01"] in
  sorted_by_date (merge_transactions existing new)
  /\ Permutation (merge_transactions existing new) (existing ++ new)
  /\ stable_interleave existing new (merge_transactions existing new).
Proof.
  cbv zeta. apply merge_transactions_sorted_stable;
    [ canonical_example | canonical_example | sorted_example | sorted_example ].
Defined.

(** Zero padding matters as well: the boundaries of a list are taken in the
    order of texts, so a list sorted by date with the unpadded 2023-9-01 has
    2023-10-01 as its minimum, and the incoming 2023-09-15 is prepended. *)
Lemma merge_transactions_unpadded_date_unsorted :
  let existing := [purchase_on "2023-9-01"; purchase_on "2023-10-01"] in
  let new := [purchase_on "2023-09-15"] in
  sorted_by_date existing /\ sorted_by_date new
  /\ merge_transactions existing new = new ++ existing
  /\ compare_dates "2023-09-15" "2023-9-01" = 1.
Proof.
  cbv zeta.
  split; [sorted_example|]. split; [sorted_example|]. split; run.
Qed.

(** C7 as stated fails on a date that is no calendar day: three one-element
    batches merge to different lists under the two groupings. *)
Lemma merge_transactions_malformed_date_grouping :
  let a := [purchase_on "2023-03-01"] in
  let b := [purchase_on "2023-02-30"] in
  let c := [purchase_on "2023-01-01"] in
  let g1 := Merge (Merge (Batch a) (Batch b)) (Batch c) in
  let g2 := Merge (Batch a) (Merge (Batch b) (Batch c)) in
  batches g1 = batches g2
  /\ Forall sorted_by_date (batches g1)
  /\ merged g1 = c ++ a ++ b
  /\ merged g2 = a ++ b ++ c.
Proof.
  cbv zeta.
  split; [reflexivity|].
  split; [repeat first [ apply Forall_nil | apply Forall_cons ]; sorted_example|].
  split; run.
Qed.

Lemma merge_transactions_grouping_witness :
  let a := [purchase_on "2023-03-01"] in
  let b := [purchase_on "2023-02-01"] in
  let c := [purchase_on "2023-01-01"] in
  merged (Merge (Merge (Batch a) (Batch b)) (Batch c))
  = merged (Merge (Batch a) (Merge (Batch b) (Batch c)))
  /\ merge_transactions (merge_transactions a b) c
     = merge_transactions a (merge_transactions b c).
Proof.
  cbv zeta. split.
  - apply (proj1 merge_transactions_grouping);
      [ reflexivity
      | repeat first [ apply Forall_nil | apply Forall_cons ]; canonical_example
      | repeat first [ apply Forall_nil | apply Forall_cons ]; sorted_example ].
  - apply (proj1 (proj2 merge_transactions_grouping));
      [ canonical_example | canonical_example | canonical_example
      | sorted_example | sorted_example | sorted_example ].
Defined.

(** C10 as stated fails for the fallback sort: two dates that are no calendar
    day compare as tied, the two-pointer merge keeps the existing record
    first, and the fallback sort puts the new record first, by text. *)
Lemma _simple_merge_orders_by_text :
  let existing := [purchase_on "2023-02-30"] in
  let new := [purchase_on "2023-02-29"] in
  pydatetime.strptime "2023-02-30" "%Y-%m-%d" = None
  /\ pydatetime.strptime "2023-02-29" "%Y-%m-%d" = None
  /\ compare_dates "2023-02-30" "2023-02-29" = 0
  /\ _sorted_merge existing new = existing ++ new
  /\ _simple_merge existing new = new ++ existing.
Proof. cbv zeta. repeat (split; [run|]). run. Qed.

Lemma compare_dates_total_witness :
  compare_dates "2023-02-30" "2023-01-01" = 0
  /\ _sorted_merge [purchase_on "2023-02-30"] [purchase_on "2023-01-01"]
     = [purchase_on "2023-02-30"; purchase_on "2023-01-01"].
Proof.
  split.
  - apply (proj1 (proj2 (@compare_dates_total (Purchase decimal_float.decimal) _))). left. run.
  - apply (proj1 (proj2 (proj2 (@compare_dates_total (Purchase decimal_float.decimal) _)))). left. run.
Defined.

End merger_properties.

(* ------------------------------------------------------------------ *)
(** ** Properties of the date parser and of the transformer *)

Module transformer_properties.
Import pystr pyexcept pydatetime pandas number_utils date_utils models transformer.
Import calendar transform_notions calendar_facts examples.

Section with_float.
Context {float : Type} `{PyFloat float}.

Lemma try_formats_strftime fmts s r :
  try_formats fmts s = Some r -> exists dt, r = strftime dt.
Proof.
  induction fmts as [|fmt fmts IH]; cbn; [discriminate|].
  destruct (strptime s fmt) as [dt|]; [|exact IH].
  intros [= <-]. now exists dt.
Qed.

Lemma parse_date_cases (v : cell float) d :
  parse_date v = Some d ->
  (exists dt, d = strftime dt) \/ (v = CStr d /\ re_match_iso d = true).
Proof.
  destruct v as [| |s|n|b|x|t]; unfold parse_date; try discriminate.
  - destruct (re_match_iso s) eqn:E.
    + intros [= <-]. now right.
    + intros Hf. left. now apply try_formats_strftime in Hf.
  - intros [= <-]. left. now exists t.
Qed.

Lemma parse_date_of_shape s :
  re_match_iso s = true -> parse_date (CStr s : cell float) = Some s.
Proof. intros E. unfold parse_date. now rewrite E. Qed.

(** C9.  A text that [parse_date] returns is returned unchanged when it is
    parsed again, unless it is the text of a day of a year below 1000; a
    text of the shape YYYY-MM-DD is returned unchanged.  The claim fails on
    the years below 1000: the cell 01/15/0999 is parsed to 999-01-15, the
    year without its leading zero, and that text is not parsed again. *)
Theorem parse_date_again :
  (forall (v : cell float) s,
      parse_date v = Some s ->
      parse_date (CStr s : cell float) = Some s
      \/ exists dt, s = strftime dt /\ year dt < 1000)
  /\ (forall s, iso_shape s = true -> parse_date (CStr s : cell float) = Some s)
  /\ parse_date (CStr "01/15/0999" : cell float) = Some "999-01-15"
  /\ parse_date (CStr "999-01-15" : cell float) = None.
Proof.
  split; [|split; [|split]].
  - intros v s Hv. apply parse_date_cases in Hv as [[dt ->]|[_ E]].
    + destruct (Z_lt_le_dec (year dt) 1000) as [Hy|Hy]; [right; eauto|left].
      now apply parse_date_of_shape, iso_shape_re_match, iso_shape_strftime.
    + left. now apply parse_date_of_shape.
  - intros s Hs. now apply parse_date_of_shape, iso_shape_re_match.
  - vm_compute; reflexivity.
  - vm_compute; reflexivity.
Qed.

Lemma parse_date_shape (v : cell float) d :
  parse_date v = Some d ->
  (v = CStr d /\ (newline_terminated v = false -> iso_shape d = true))
  \/ (exists dt,
         d = strftime dt
         /\ (1000 <= year dt -> canonical_date d = true /\ iso_shape d = true)).
Proof.
  intros Hv. apply parse_date_cases in Hv as [[dt ->]|[-> E]].
  - right. exists dt. split; [reflexivity|]. intros Hy.
    split; [now apply canonical_strftime | now apply iso_shape_strftime].
  - left. split; [reflexivity|]. cbn. intros Hn. now apply re_match_iso_shape.
Qed.

Lemma amount_of_returns (row : Series float) (df : DataFrame float) a :
  amount_of row df = Return (Some a) ->
  first_float [cell_at row df 9; cell_at row df 10; cell_at row df 5] = Some a.
Proof.
  unfold amount_of, cell_at, first_float, parsed.
  destruct (parse_float (get_cell_value row df 9 CNone)) as [[x|]|e]; cbn [bind];
    [now intros [= <-] | | discriminate].
  destruct (parse_float (get_cell_value row df 10 CNone)) as [[x|]|e]; cbn [bind];
    [now intros [= <-] | | discriminate].
  now intros ->.
Qed.

Lemma constructed_date (row : Series float) (df : DataFrame float) r :
  constructed row df r -> parse_date (cell_at row df 0) = Some (record_date r).
Proof.
  unfold cell_at.
  intros [p E|s E|symbol d E|symbol t E|kind t E]; revert E; cbn [record_date].
  - unfold transform_to_purchase.
    destruct (parse_date _) as [date|]; [|discriminate].
    repeat (destruct (parse_float _) as [[?|]|?]; cbn [bind]; try discriminate).
    all: now intros [= <-].
  - unfold transform_to_sale, transform_to_purchase.
    destruct (parse_date _) as [date|]; [|discriminate].
    repeat (destruct (parse_float _) as [[?|]|?]; cbn [bind]; try discriminate).
    all: now intros [= <-].
  - unfold transform_to_dividend.
    destruct (parse_date _) as [date|]; [|discriminate].
    destruct (amount_of row df) as [[?|]|?]; cbn [bind]; try discriminate.
    now intros [= <-].
  - unfold transform_to_tax.
    destruct (parse_date _) as [date|]; [|discriminate].
    destruct (amount_of row df) as [[?|]|?]; cbn [bind]; try discriminate.
    now intros [= <-].
  - unfold transform_to_transfer.
    destruct (parse_date _) as [date|]; [|discriminate].
    destruct (amount_of row df) as [[?|]|?]; cbn [bind]; try discriminate.
    now intros [= <-].
Qed.

(** C8, as amended.  The date of a record constructed by any of the five
    transforms is either the text of the date cell itself, kept as it is,
    which has the shape four digits, hyphen, two digits, hyphen, two digits
    when it does not end with a newline; or what [strftime] gives for a
    calendar day, which from the year 1000 on is the zero-padded text of
    that day, of the same shape. *)
Theorem constructed_date_shape (row : Series float) (df : DataFrame float) (r : TransactionRecord float) :
  constructed row df r ->
  (cell_at row df 0 = CStr (record_date r)
   /\ (newline_terminated (cell_at row df 0) = false -> iso_shape (record_date r) = true))
  \/ (exists dt,
         record_date r = strftime dt
         /\ (1000 <= year dt ->
             canonical_date (record_date r) = true /\ iso_shape (record_date r) = true)).
Proof.
  intros Hr. apply constructed_date in Hr. now apply parse_date_shape in Hr.
Qed.

Lemma get_cell_value_absent (row : Series float) (df : DataFrame float) position default :
  absent row df position = true -> get_cell_value row df position default = default.
Proof.
  unfold absent, get_cell_value.
  destruct (_ || _); [reflexivity|].
  destruct (nth_error _ _) as [col|]; [|reflexivity].
  destruct (get row col) as [v|]; [|reflexivity].
  destruct (isna v) eqn:E; [reflexivity|]. now destruct v.
Qed.

Lemma parse_float_parsed (c : cell float) :
  overflows c = false -> parse_float c = Return (parsed c).
Proof.
  unfold parsed. destruct c as [| |s|n|b|x|t]; cbn; try reflexivity.
  - now destruct (negb _).
  - now intros ->.
Qed.

Lemma parse_float_overflows (c : cell float) :
  overflows c = true -> parse_float c = Raise int_too_large.
Proof. destruct c as [| |s|n|b|x|t]; cbn; try discriminate. now intros ->. Qed.

(** What [transform_to_purchase] does on the rows none of whose numbers is
    beyond the floats: it returns, and returns a record exactly when the
    cell at position 0 parses as a date and the cells at positions 4 and 5
    parse as floats. *)
Lemma transform_to_purchase_within_floats (row : Series float) (df : DataFrame float) :
  Forall (fun position => overflows (cell_at row df position) = false) [4; 5; 7; 9; 10] ->
  returns (transform_to_purchase row df) = true
  /\ ((exists p, transform_to_purchase row df = Return (Some p)) <->
      (exists d q u,
          parse_date (cell_at row df 0) = Some d
          /\ parsed (cell_at row df 4) = Some q
          /\ parsed (cell_at row df 5) = Some u)).
Proof.
  intros Hw.
  repeat match goal with
         | Hw : Forall _ (_ :: _) |- _ =>
             let Hc := fresh "Hc" in
             let Hw' := fresh "Hw" in
             inversion Hw as [|? ? Hc Hw']; subst; clear Hw;
             apply parse_float_parsed in Hc
         end.
  unfold transform_to_purchase, cell_at in *.
  rewrite Hc, Hc0, Hc1, Hc2, Hc3.
  destruct (parse_date _) as [d|].
  - destruct (parsed (get_cell_value row df 4 CNone)) as [q|]; cbn [bind].
    + destruct (parsed (get_cell_value row df 5 CNone)) as [u|]; cbn [bind returns].
      * split; [reflexivity|]. split; eauto 7.
      * split; [reflexivity|]. split; [intros [p E]; discriminate|].
        intros (? & ? & ? & _ & _ & E). discriminate.
    + split; [reflexivity|]. split; [intros [p E]; discriminate|].
      intros (? & ? & ? & _ & E & _). discriminate.
  - split; [reflexivity|]. split; [intros [p E]; discriminate|].
    intros (? & ? & ? & E & _). discriminate.
Qed.

(** The fields of a purchase that is returned, and the sale of the same
    row. *)
Lemma transform_to_purchase_returns (row : Series float) (df : DataFrame float) :
  (forall p, transform_to_purchase row df = Return (Some p) ->
     parse_date (cell_at row df 0) = Some (purchase_date p)
     /\ parse_float (cell_at row df 4) = Return (Some (purchase_quantity p))
     /\ parse_float (cell_at row df 5) = Return (Some (purchase_unit_price p))
     /\ (blank_or_absent row df 6 = true -> purchase_currency p = "USD")
     /\ (absent row df 3 = true -> purchase_company_symbol p = EmptyString))
  /\ match transform_to_purchase row df, transform_to_sale row df with
     | Return (Some p), Return (Some s) =>
         sale_date s = purchase_date p
         /\ sale_company_symbol s = purchase_company_symbol p
         /\ sale_quantity s = purchase_quantity p
         /\ sale_unit_price s = purchase_unit_price p
         /\ sale_currency s = purchase_currency p
         /\ sale_transaction_fee s = purchase_transaction_fee p
         /\ sale_proceeds_foreign s = purchase_proceeds_foreign p
         /\ sale_proceeds_ils s = purchase_proceeds_ils p
     | Return None, Return None => True
     | Raise e, Raise e' => e = e'
     | _, _ => False
     end.
Proof.
  split.
  - intros p. unfold transform_to_purchase, cell_at.
    destruct (parse_date _) as [d|]; [|discriminate].
    destruct (parse_float (get_cell_value row df 4 CNone)) as [[q|]|?];
      cbn [bind]; try discriminate.
    destruct (parse_float (get_cell_value row df 5 CNone)) as [[u|]|?];
      cbn [bind]; try discriminate.
    repeat (destruct (parse_float _) as [?|?]; cbn [bind]; try discriminate).
    intros [= <-]. cbn. repeat split.
    + unfold blank_or_absent, currency_of.
      destruct (get_cell_value row df 6 (CStr EmptyString)); try discriminate.
      cbn [str]. now intros ->.
    + intros Ha. now rewrite get_cell_value_absent.
  - unfold transform_to_sale.
    destruct (transform_to_purchase row df) as [[p|]|e]; cbn; tauto.
Qed.

Lemma amount_of_within_floats (row : Series float) (df : DataFrame float) :
  Forall (fun position => overflows (cell_at row df position) = false) [9; 10; 5] ->
  amount_of row df
  = Return (first_float [cell_at row df 9; cell_at row df 10; cell_at row df 5]).
Proof.
  intros Hw.
  repeat match goal with
         | Hw : Forall _ (_ :: _) |- _ =>
             let Hc := fresh "Hc" in
             let Hw' := fresh "Hw" in
             inversion Hw as [|? ? Hc Hw']; subst; clear Hw;
             apply parse_float_parsed in Hc
         end.
  unfold amount_of, first_float, cell_at in *. rewrite Hc, Hc0, Hc1.
  destruct (parsed (get_cell_value row df 9 CNone)); cbn [bind]; [reflexivity|].
  destruct (parsed (get_cell_value row df 10 CNone)); cbn [bind]; [reflexivity|].
  now destruct (parsed (get_cell_value row df 5 CNone)).
Qed.

(** What the dividend, tax and transfer transforms do on the rows whose
    cells at positions 9, 10 and 5 are not beyond the floats: they return,
    a record unless the cell at position 0 does not parse as a date or none
    of the three cells parses as a float; the amount of the record is the
    first of the three cells, in that order, that parses. *)
Lemma amount_fallback_chain (row : Series float) (df : DataFrame float) :
  Forall (fun position => overflows (cell_at row df position) = false) [9; 10; 5] ->
  let date := parse_date (cell_at row df 0) in
  let amount := first_float [cell_at row df 9; cell_at row df 10; cell_at row df 5] in
  (forall symbol,
      returns (transform_to_dividend row df symbol) = true
      /\ (transform_to_dividend row df symbol = Return None <-> date = None \/ amount = None)
      /\ (forall d, transform_to_dividend row df symbol = Return (Some d) ->
            amount = Some (dividend_amount d) /\ date = Some (dividend_date d)))
  /\ (forall symbol,
         returns (transform_to_tax row df symbol) = true
         /\ (transform_to_tax row df symbol = Return None <-> date = None \/ amount = None)
         /\ (forall t, transform_to_tax row df symbol = Return (Some t) ->
               amount = Some (tax_amount t) /\ date = Some (tax_date t)))
  /\ (forall transfer_type,
         returns (transform_to_transfer row df transfer_type) = true
         /\ (transform_to_transfer row df transfer_type = Return None
             <-> date = None \/ amount = None)
         /\ (forall t, transform_to_transfer row df transfer_type = Return (Some t) ->
               amount = Some (transfer_amount t) /\ date = Some (transfer_date t))).
Proof.
  intros Hw. cbv zeta. pose proof (amount_of_within_floats row df Hw) as Ea.
  set (amount := first_float _) in *. clearbody amount. unfold cell_at.
  split; [|split]; intros arg;
    [ unfold transform_to_dividend | unfold transform_to_tax
    | unfold transform_to_transfer ];
    rewrite Ea; destruct (parse_date _) as [d|]; destruct amount as [a|]; cbn [bind returns];
    (split; [reflexivity|]);
    (split; [split; [try discriminate; auto | intros [E|E]; congruence]
            | intros r; try discriminate; now intros [= <-] ]).
Qed.

End with_float.

#[local] Existing Instance decimal_float.decimal_PyFloat.

(** C8 as stated fails: a text of the right shape that is no calendar day is
    kept as the date of the record. *)
Lemma purchase_with_invalid_calendar_date :
  let row := row_of (values_of "2023-13-45" "Buy" "AAPL") in
  (exists p, transform_to_purchase row (table []) = Return (Some p)
             /\ purchase_date p = "2023-13-45")
  /\ strptime "2023-13-45" "%Y-%m-%d" = None
  /\ canonical_date "2023-13-45" = false.
Proof.
  cbv zeta. split; [|split; vm_compute; reflexivity].
  eexists. split; vm_compute; reflexivity.
Qed.

Lemma constructed_date_shape_witness :
  let row := row_of (payout_of "01/15/2023" "Dividend" "AAPL") in
  let record :=
    DividendRecord
      (mk_Dividend "2023-01-15" "AAPL" (decimal_float.Finite false 123456 (-2)) "USD") in
  (cell_at row (table []) 0 = CStr (record_date record)
   /\ (newline_terminated (cell_at row (table []) 0) = false ->
       iso_shape (record_date record) = true))
  \/ (exists dt,
         record_date record = strftime dt
         /\ (1000 <= year dt ->
             canonical_date (record_date record) = true
             /\ iso_shape (record_date record) = true)).
Proof.
  cbv zeta. apply constructed_date_shape.
  apply by_dividend with (symbol := None). vm_compute; reflexivity.
Defined.

(** C2.  On a row whose date, quantity and unit price parse and whose fee
    is an [int] beyond the floats, [transform_to_purchase] returns neither
    a record nor none: the [OverflowError] of [float()] leaves it, and
    leaves [transform_to_sale] alike. *)
Theorem transform_to_purchase_overflow :
  let row := row_of (huge_fee_of "2023-01-15" "Buy" "AAPL") in
  let df := table [] in
  parse_date (cell_at row df 0) = Some "2023-01-15"
  /\ parse_float (cell_at row df 4) = Return (Some (decimal_float.of_int 10))
  /\ parse_float (cell_at row df 5) = Return (Some (decimal_float.Finite false 1505 (-1)))
  /\ cell_at row df 7 = CInt (10 ^ 400)
  /\ transform_to_purchase row df = Raise (OverflowError "int too large to convert to float")
  /\ transform_to_sale row df = Raise (OverflowError "int too large to convert to float").
Proof. cbv zeta. repeat (split; [vm_compute; reflexivity|]). vm_compute; reflexivity. Qed.

(** C4.  On a row whose cell at position 9 is an [int] beyond the floats and
    whose cell at position 10 is the number 5, the first of the cells at
    positions 9, 10 and 5 that parses as a float is 5, and the dividend,
    tax and transfer transforms return no record with that amount: the
    [OverflowError] of [float()] leaves them. *)
Theorem amount_of_overflow :
  let row := row_of (huge_payout_of "2023-01-15" "Dividend" "AAPL") in
  let df := table [] in
  parse_date (cell_at row df 0) = Some "2023-01-15"
  /\ cell_at row df 9 = CInt (10 ^ 400)
  /\ first_float [cell_at row df 9; cell_at row df 10; cell_at row df 5]
     = Some (decimal_float.of_int 5)
  /\ transform_to_dividend row df None
     = Raise (OverflowError "int too large to convert to float")
  /\ transform_to_tax row df None
     = Raise (OverflowError "int too large to convert to float")
  /\ transform_to_transfer row df "deposit"
     = Raise (OverflowError "int too large to convert to float").
Proof. cbv zeta. repeat (split; [vm_compute; reflexivity|]). vm_compute; reflexivity. Qed.

End transformer_properties.

(* ------------------------------------------------------------------ *)
(** ** Properties of the categorizer *)

Module categorizer_properties.
Import pystr pandas categorizer categorizer_notions examples.

Section with_float.
Context {float : Type} `{PyFloat float}.



End with_float.

#[local] Existing Instance decimal_float.decimal_PyFloat.

(** The order of the lists at work: a value with keywords of the sale, the
    tax and the fee lists is categorized as sale. *)
Lemma sales_tax_fee_is_a_sale :
  let row := row_of (values_of "2023-01-15" "Sales Tax Fee" "AAPL") in
  has_keyword TAX_KEYWORDS "Sales Tax Fee" = true
  /\ has_keyword FEE_KEYWORDS "Sales Tax Fee" = true
  /\ categorize_transaction row (Some "Transaction Type") = Some sale.
Proof. cbv zeta. repeat (split; [vm_compute; reflexivity|]). vm_compute; reflexivity. Qed.


End categorizer_properties.

(* ------------------------------------------------------------------ *)
(** ** Folding merges over the files of a job *)

Module orchestrator_facts.
Import pystr pyexcept pandas date_utils models categorizer transformer merger orchestrator.
Import calendar keyed merge_notions orchestrator_notions.
Import calendar_facts keyed_facts sorting_facts merger_facts.

Lemma string_prefix_app s t : String.prefix s (s ++ t)%string = true.
Proof.
  induction s as [|c s IH]; cbn.
  - now destruct t.
  - destruct (ascii_dec c c); [exact IH | contradiction].
Qed.

Lemma contains_prefix needle haystack :
  String.prefix needle haystack = true -> contains needle haystack = true.
Proof. destruct haystack; cbn [contains]; now intros ->. Qed.

Lemma contains_here needle post : contains needle (needle ++ post)%string = true.
Proof. apply contains_prefix, string_prefix_app. Qed.

Lemma contains_app needle pre post :
  contains needle (pre ++ needle ++ post)%string = true.
Proof.
  induction pre as [|c pre IH].
  - exact (contains_here needle post).
  - cbn [String.append contains]. rewrite IH. apply orb_true_r.
Qed.

Lemma ForallOrdPairs_permutation {A : Type} (R : A -> A -> Prop) l l' :
  (forall a b, R a b -> R b a) ->
  Permutation l l' -> ForallOrdPairs R l -> ForallOrdPairs R l'.
Proof.
  intros Hsym Hp. induction Hp as [|x l l' Hp IH|x y l|l l' l'' _ IH1 _ IH2]; intros Hf.
  - constructor.
  - inversion Hf as [|? ? Hx Hl]; subst. constructor; [|now apply IH].
    now apply (Permutation_Forall Hp).
  - inversion Hf as [|? ? Hy Hxl]; subst. inversion Hxl as [|? ? Hx Hl]; subst.
    inversion Hy as [|? ? Hyx Hyl]; subst.
    constructor; [constructor; [now apply Hsym | assumption]|].
    now constructor.
  - auto.
Qed.

Lemma Permutation_concat {A : Type} (l l' : list (list A)) :
  Permutation l l' -> Permutation (List.concat l) (List.concat l').
Proof.
  induction 1 as [|x l l' _ IH|x y l|l l' l'' _ IH1 _ IH2]; cbn.
  - constructor.
  - now apply Permutation_app_head.
  - rewrite !app_assoc. apply Permutation_app_tail, Permutation_app_comm.
  - now transitivity (List.concat l').
Qed.

Section with_transaction.
Context {T : Type} `{Transaction T}.

Lemma disjoint_dates_sym (a b : list T) : disjoint_dates a b -> disjoint_dates b a.
Proof. intros Hd x y Hx Hy E. now apply (Hd y x Hy Hx). Qed.

Lemma merge_transactions_comm (a b : list T) :
  canonical_dates a -> canonical_dates b -> disjoint_dates a b ->
  merge_transactions a b = merge_transactions b a.
Proof.
  intros Ca Cb Hd. rewrite !merge_transactions_zmerge by assumption.
  apply zmerge_comm. intros x y Hx Hy E. apply (Hd x y Hx Hy).
  apply date_key_inj; [now apply canonical_in with a | now apply canonical_in with b | exact E].
Qed.

Lemma merge_transactions_assoc (a b c : list T) :
  canonical_dates a -> canonical_dates b -> canonical_dates c ->
  merge_transactions (merge_transactions a b) c
  = merge_transactions a (merge_transactions b c).
Proof.
  intros Ca Cb Cc.
  rewrite (merge_transactions_zmerge a b), (merge_transactions_zmerge b c) by assumption.
  rewrite !merge_transactions_zmerge by auto using canonical_zmerge.
  apply zmerge_assoc.
Qed.

Lemma fold_merge_canonical (bs : list (list T)) acc :
  canonical_dates acc -> Forall canonical_dates bs ->
  canonical_dates (fold_left merge_transactions bs acc).
Proof.
  revert acc. induction bs as [|b bs IH]; intros acc Ca Cb; [assumption|].
  inversion Cb; subst. cbn. apply IH; [now apply canonical_merge | assumption].
Qed.

Lemma fold_merge_permutation (bs bs' : list (list T)) :
  Permutation bs bs' ->
  forall acc,
    canonical_dates acc -> Forall canonical_dates bs ->
    ForallOrdPairs disjoint_dates bs ->
    fold_left merge_transactions bs acc = fold_left merge_transactions bs' acc.
Proof.
  induction 1 as [|x l l' Hp IH|x y l|l l' l'' Hp1 IH1 Hp2 IH2];
    intros acc Ca Cb Hd.
  - reflexivity.
  - inversion Cb; subst. inversion Hd; subst. cbn.
    apply IH; [now apply canonical_merge | assumption | assumption].
  - inversion Cb as [|? ? Cy Cxl]; subst. inversion Cxl as [|? ? Cx Cl]; subst.
    inversion Hd as [|? ? Hy _]; subst. inversion Hy as [|? ? Hyx _]; subst.
    cbn. f_equal.
    rewrite !merge_transactions_assoc by assumption. f_equal.
    now apply merge_transactions_comm.
  - rewrite IH1 by assumption. apply IH2; [assumption| |].
    + now apply (Permutation_Forall Hp1).
    + apply (ForallOrdPairs_permutation _ l); auto using disjoint_dates_sym.
Qed.

Lemma fold_merge_concat (bs : list (list T)) acc :
  Permutation (fold_left merge_transactions bs acc) (acc ++ List.concat bs).
Proof.
  revert acc. induction bs as [|b bs IH]; intros acc; cbn.
  - now rewrite app_nil_r.
  - rewrite IH, merge_transactions_perm. now rewrite app_assoc.
Qed.



End with_transaction.

Section with_loader.
Context {float : Type} `{PyFloat float}.
Variable load_file : string -> string -> DataFrame float + string.

Lemma process_row_after_errors filename df col errors st item :
  process_row filename df col (after_errors errors st) item
  = after_errors errors (process_row filename df col st item).
Proof.
  unfold process_row. destruct item as [idx row].
  destruct (categorize_transaction row col) as [[]|];
    repeat match goal with
           | |- context [match ?x with Return _ => _ | Raise _ => _ end] =>
               destruct x as [[?|]|?]
           end;
    unfold after_errors; cbn; rewrite ?app_assoc; reflexivity.
Qed.

Lemma fold_process_row_after_errors filename df col errors items st :
  fold_left (process_row filename df col) items (after_errors errors st)
  = after_errors errors (fold_left (process_row filename df col) items st).
Proof.
  revert st. induction items as [|item items IH]; intros st; [reflexivity|].
  cbn. now rewrite process_row_after_errors, IH.
Qed.

Lemma process_rows_of_after_errors filename df col errors :
  process_rows_of filename df col errors
  = after_errors errors (process_rows_of filename df col []).
Proof.
  unfold process_rows_of.
  set (extra := match col with
                | None => [("File " ++ filename ++ ": Could not find transaction type column. "
                            ++ "Available columns: "
                            ++ str_of_list (map repr_label (columns df)))%string]
                | Some _ => []
                end).
  assert (E1 : forall errs,
             match col with
             | None => errs ++ [("File " ++ filename
                                 ++ ": Could not find transaction type column. "
                                 ++ "Available columns: "
                                 ++ str_of_list (map repr_label (columns df)))%string]
             | Some _ => errs
             end = errs ++ extra).
  { intros errs. unfold extra. destruct col; [now rewrite app_nil_r | reflexivity]. }
  rewrite (E1 errors), (E1 []). cbn [app].
  change (mk_file_state [] [] [] [] [] (errors ++ extra))
    with (after_errors errors (mk_file_state (float := float) [] [] [] [] [] extra)).
  rewrite fold_process_row_after_errors. reflexivity.
Qed.

Lemma process_rows_after_errors filename df errors :
  process_rows filename df errors
  = st <- process_rows filename df [] ;; Return (after_errors errors st).
Proof.
  unfold process_rows.
  destruct (find_transaction_type_column df) as [col|e]; cbn [bind]; [|reflexivity].
  now rewrite process_rows_of_after_errors.
Qed.

Lemma _process_file_absorb self directory filename :
  _process_file load_file self directory filename
  = st <- file_contribution load_file directory filename ;; Return (absorb self st).
Proof.
  unfold _process_file, file_contribution.
  destruct (load_file directory filename) as [df|error]; [|reflexivity].
  destruct (validate_dataframe df filename) as [[|] e]; [|reflexivity].
  rewrite process_rows_after_errors.
  now destruct (process_rows filename df []).
Qed.

Lemma process_files_absorb self directory files :
  process_files load_file self directory files
  = sts <- contributions load_file directory files ;; Return (fold_left absorb sts self).
Proof.
  revert self. induction files as [|f files IH]; intros self; [reflexivity|].
  cbn [process_files contributions]. rewrite _process_file_absorb.
  destruct (file_contribution load_file directory f) as [st|e]; cbn [bind]; [|reflexivity].
  rewrite IH.
  now destruct (contributions load_file directory files).
Qed.

(** A job returns exactly when each of its files has a contribution. *)
Lemma parse_job_returns self directory files r :
  parse_job load_file self directory files = Return r ->
  exists sts,
    contributions load_file directory files = Return sts
    /\ process_files load_file self directory files = Return (fold_left absorb sts self).
Proof.
  unfold parse_job. rewrite process_files_absorb.
  destruct (contributions load_file directory files) as [sts|e]; [|discriminate].
  intros _. now exists sts.
Qed.

Lemma parse_job_of_contributions self directory files sts :
  contributions load_file directory files = Return sts ->
  exists r, parse_job load_file self directory files = Return r.
Proof.
  intros E. unfold parse_job. rewrite process_files_absorb, E. cbn [bind]. eauto.
Qed.

Lemma parse_job_raises self directory files e :
  parse_job load_file self directory files = Raise e
  <-> contributions load_file directory files = Raise e.
Proof.
  unfold parse_job. rewrite process_files_absorb.
  destruct (contributions load_file directory files) as [sts|e']; cbn [bind];
    split; congruence.
Qed.

Lemma contributions_cons directory f files sts :
  contributions load_file directory (f :: files) = Return sts ->
  exists st sts',
    file_contribution load_file directory f = Return st
    /\ contributions load_file directory files = Return sts'
    /\ sts = st :: sts'.
Proof.
  cbn [contributions].
  destruct (file_contribution load_file directory f) as [st|e]; [|discriminate].
  destruct (contributions load_file directory files) as [sts'|e]; [|discriminate].
  cbn [bind]. intros [= <-]. eauto.
Qed.


Lemma contributions_in directory files sts :
  contributions load_file directory files = Return sts ->
  (forall f, In f files ->
     exists st, file_contribution load_file directory f = Return st /\ In st sts)
  /\ (forall st, In st sts ->
        exists f, In f files /\ file_contribution load_file directory f = Return st).
Proof.
  revert sts. induction files as [|f files IH]; intros sts E.
  - injection E as <-. split; intros ? [].
  - apply contributions_cons in E as (st & sts' & Ef & E' & ->).
    destruct (IH sts' E') as [IH1 IH2]. split.
    + intros g [<-|Hg]; [exists st; split; [assumption|now left]|].
      destruct (IH1 g Hg) as (st' & ? & ?). exists st'. split; [assumption|now right].
    + intros st' [<-|Hs]; [exists f; split; [now left|assumption]|].
      destruct (IH2 st' Hs) as (g & ? & ?). exists g. split; [now right|assumption].
Qed.

Lemma contributions_permutation directory files files' :
  Permutation files files' ->
  forall sts,
    contributions load_file directory files = Return sts ->
    exists sts',
      contributions load_file directory files' = Return sts' /\ Permutation sts sts'.
Proof.
  induction 1 as [|x l l' _ IH|x y l|l l' l'' _ IH1 _ IH2]; intros sts E.
  - exists sts. split; [assumption|reflexivity].
  - apply contributions_cons in E as (st & sts0 & Ex & E0 & ->).
    destruct (IH sts0 E0) as (sts0' & E0' & Hp).
    exists (st :: sts0'). split; [|now constructor].
    cbn [contributions]. now rewrite Ex, E0'.
  - apply contributions_cons in E as (sty & sts0 & Ey & E0 & ->).
    apply contributions_cons in E0 as (stx & sts1 & Ex & E1 & ->).
    exists (stx :: sty :: sts1). split; [|apply perm_swap].
    cbn [contributions]. now rewrite Ex, Ey, E1.
  - destruct (IH1 sts E) as (sts' & E' & Hp').
    destruct (IH2 sts' E') as (sts'' & E'' & Hp'').
    exists sts''. split; [assumption|now transitivity sts'].
Qed.

(** One of the five lists of the parser, along the contributions. *)
Lemma fold_absorb_part {T : Type} `{Transaction T}
    (acc : PortfolioParser float -> list T) (part : file_state float -> list T) :
  (forall self st, acc (absorb self st) = merge_transactions (acc self) (part st)) ->
  forall sts self,
    acc (fold_left absorb sts self)
    = fold_left merge_transactions (map part sts) (acc self).
Proof.
  intros Hstep. induction sts as [|st sts IH]; intros self; [reflexivity|].
  cbn. now rewrite IH, Hstep.
Qed.

Lemma fold_absorb_errors sts (self : PortfolioParser float) :
  self_errors (fold_left absorb sts self)
  = self_errors self ++ List.concat (map (@row_errors float) sts).
Proof.
  revert self. induction sts as [|st sts IH]; intros self; cbn.
  - now rewrite app_nil_r.
  - rewrite IH. cbn. now rewrite app_assoc.
Qed.

Lemma fold_absorb_job_id sts (self : PortfolioParser float) :
  job_id (fold_left absorb sts self) = job_id self.
Proof.
  revert self. induction sts as [|st sts IH]; intros self; [reflexivity|].
  cbn [fold_left]. now rewrite IH.
Qed.

(** The result of a job that returns, from the contributions of its files. *)
Lemma parse_job_result self directory files r :
  parse_job load_file self directory files = Return r ->
  exists sts,
    contributions load_file directory files = Return sts
    /\ jobId r = job_id self
    /\ purchases r
       = fold_left merge_transactions (map (@file_purchases float) sts) (self_purchases self)
    /\ sales r
       = fold_left merge_transactions (map (@file_sales float) sts) (self_sales self)
    /\ dividends r
       = fold_left merge_transactions (map (@file_dividends float) sts) (self_dividends self)
    /\ taxes r
       = fold_left merge_transactions (map (@file_taxes float) sts) (self_taxes self)
    /\ transfers r
       = fold_left merge_transactions (map (@file_transfers float) sts) (self_transfers self)
    /\ errors r = self_errors self ++ List.concat (map (@row_errors float) sts).
Proof.
  unfold parse_job. rewrite process_files_absorb.
  destruct (contributions load_file directory files) as [sts|e]; [|discriminate].
  cbn [bind]. intros [= <-]. exists sts. split; [reflexivity|].
  cbn [jobId purchases sales dividends taxes transfers errors].
  rewrite fold_absorb_job_id, fold_absorb_errors.
  rewrite (fold_absorb_part (@self_purchases float) (@file_purchases float)) by reflexivity.
  rewrite (fold_absorb_part (@self_sales float) (@file_sales float)) by reflexivity.
  rewrite (fold_absorb_part (@self_dividends float) (@file_dividends float)) by reflexivity.
  rewrite (fold_absorb_part (@self_taxes float) (@file_taxes float)) by reflexivity.
  rewrite (fold_absorb_part (@self_transfers float) (@file_transfers float)) by reflexivity.
  repeat split.
Qed.





End with_loader.
End orchestrator_facts.

(* ------------------------------------------------------------------ *)
(** ** Properties of the orchestrator *)

Module orchestrator_properties.
Import pystr pyexcept pandas date_utils models categorizer transformer merger orchestrator.
Import calendar keyed merge_notions orchestrator_notions.
Import calendar_facts keyed_facts sorting_facts merger_facts orchestrator_facts examples.

Section with_loader.
Context {float : Type} `{PyFloat float}.
Variable load_file : string -> string -> DataFrame float + string.






Lemma stamps_in_purchases (st : file_state float) p :
  In p (file_purchases st) -> In ("purchase", purchase_date p) (stamps st).
Proof.
  intros Hp. unfold stamps. apply in_or_app. left.
  apply (in_map (fun p => ("purchase", purchase_date p))). exact Hp.
Qed.

Lemma stamps_in_sales (st : file_state float) s :
  In s (file_sales st) -> In ("sale", sale_date s) (stamps st).
Proof.
  intros Hs. unfold stamps. apply in_or_app. right. apply in_or_app. left.
  apply (in_map (fun s => ("sale", sale_date s))). exact Hs.
Qed.

Lemma stamps_in_dividends (st : file_state float) d :
  In d (file_dividends st) -> In ("dividend", dividend_date d) (stamps st).
Proof.
  intros Hd. unfold stamps. do 2 (apply in_or_app; right). apply in_or_app. left.
  apply (in_map (fun d => ("dividend", dividend_date d))). exact Hd.
Qed.

Lemma stamps_in_taxes (st : file_state float) t :
  In t (file_taxes st) -> In ("tax", tax_date t) (stamps st).
Proof.
  intros Ht. unfold stamps. do 3 (apply in_or_app; right). apply in_or_app. left.
  apply (in_map (fun t => ("tax", tax_date t))). exact Ht.
Qed.

Lemma stamps_in_transfers (st : file_state float) t :
  In t (file_transfers st) -> In ("transfer", transfer_date t) (stamps st).
Proof.
  intros Ht. unfold stamps. do 4 (apply in_or_app; right).
  apply (in_map (fun t => ("transfer", transfer_date t))). exact Ht.
Qed.

(** The records of one kind that a file contributes have canonical dates
    when the file has. *)
Lemma canonical_part {T : Type} `{Transaction T} (kind : string)
    (part : file_state float -> list T) directory f st :
  (forall st t, In t (part st) -> In (kind, get_transaction_date t) (stamps st)) ->
  file_contribution load_file directory f = Return st ->
  canonical_file load_file directory f ->
  canonical_dates (part st).
Proof.
  intros Hstamp Ef Hcan. unfold canonical_file in Hcan. rewrite Ef in Hcan.
  apply Forall_forall. intros t Ht.
  apply (proj1 (Forall_forall _ _) Hcan (kind, get_transaction_date t)).
  now apply Hstamp.
Qed.

(** The batches of one kind, over the files of a job, seen through their
    stamps. *)
Lemma batches_of_kind {T : Type} `{Transaction T} (kind : string)
    (part : file_state float -> list T) directory files sts :
  (forall st t, In t (part st) -> In (kind, get_transaction_date t) (stamps st)) ->
  contributions load_file directory files = Return sts ->
  (forall f, In f files -> canonical_file load_file directory f) ->
  ForallOrdPairs (no_shared_date load_file directory) files ->
  Forall canonical_dates (map part sts)
  /\ ForallOrdPairs disjoint_dates (map part sts).
Proof.
  intros Hstamp Es Hcan Hdis. split.
  - apply Forall_map, Forall_forall. intros st Hst.
    destruct (proj2 (contributions_in load_file directory files sts Es) st Hst)
      as (f & Hf & Ef).
    exact (canonical_part kind part directory f st Hstamp Ef (Hcan f Hf)).
  - clear Hcan. revert sts Es.
    induction Hdis as [|f files Hf Hfiles IH]; intros sts Es.
    + injection Es as <-. constructor.
    + apply contributions_cons in Es as (st & sts' & Ef & Es' & ->).
      cbn [map]. constructor; [|now apply IH].
      apply Forall_map, Forall_forall. intros st' Hst'.
      destruct (proj2 (contributions_in load_file directory files sts' Es') st' Hst')
        as (g & Hg & Eg).
      pose proof (proj1 (Forall_forall _ _) Hf g Hg) as Hfg.
      unfold no_shared_date in Hfg. rewrite Ef, Eg in Hfg. cbn [stamps_of] in Hfg.
      intros x y Hx Hy E. apply (Hfg (kind, get_transaction_date x)).
      * now apply Hstamp.
      * rewrite E. now apply Hstamp.
Qed.

(** C6, as amended.  When a job returns a result for a list of files, it
    returns one for every other order of the same files; each of the five
    sequences of one result is a permutation of the same sequence of the
    other; and the five sequences are identical when every record has a
    canonical date and no two records of one kind that come from different
    files of the list have the same date. *)
Theorem parse_job_order_of_files (directory job : string) (files files' : list string)
    (r : ParsedJobResult float) :
  Permutation files files' ->
  parse_job load_file (new_parser job) directory files = Return r ->
  exists r',
    parse_job load_file (new_parser job) directory files' = Return r'
    /\ (Permutation (purchases r) (purchases r')
        /\ Permutation (sales r) (sales r')
        /\ Permutation (dividends r) (dividends r')
        /\ Permutation (taxes r) (taxes r')
        /\ Permutation (transfers r) (transfers r'))
    /\ ((forall f, In f files -> canonical_file load_file directory f) ->
        ForallOrdPairs (no_shared_date load_file directory) files ->
        sequences r = sequences r').
Proof.
  intros Hp Er.
  apply parse_job_result in Er as (sts & Es & _ & E1 & E2 & E3 & E4 & E5 & _).
  destruct (contributions_permutation load_file directory files files' Hp sts Es)
    as (sts' & Es' & Hps).
  destruct (parse_job_of_contributions load_file (new_parser job) directory files' sts' Es')
    as [r' Er'].
  exists r'. split; [exact Er'|].
  apply parse_job_result in Er' as (sts'' & Es'' & _ & E1' & E2' & E3' & E4' & E5' & _).
  rewrite Es' in Es''. injection Es'' as <-.
  unfold sequences. rewrite E1, E2, E3, E4, E5, E1', E2', E3', E4', E5'.
  cbn [new_parser self_purchases self_sales self_dividends self_taxes self_transfers].
  split.
  - repeat split; rewrite !fold_merge_concat; cbn [app];
      apply Permutation_concat, Permutation_map, Hps.
  - intros Hcan Hdis.
    assert (Hnil : forall (T : Type) (TT : Transaction T), canonical_dates (@nil T))
      by (intros; constructor).
    f_equal; [f_equal; [f_equal; [f_equal|]|]|].
    + destruct (@batches_of_kind (Purchase float) Purchase_transaction "purchase"
                  (@file_purchases float) directory files sts stamps_in_purchases
                  Es Hcan Hdis).
      apply fold_merge_permutation; auto using Permutation_map.
    + destruct (@batches_of_kind (Sale float) Sale_transaction "sale"
                  (@file_sales float) directory files sts stamps_in_sales Es Hcan Hdis).
      apply fold_merge_permutation; auto using Permutation_map.
    + destruct (@batches_of_kind (Dividend float) Dividend_transaction "dividend"
                  (@file_dividends float) directory files sts stamps_in_dividends
                  Es Hcan Hdis).
      apply fold_merge_permutation; auto using Permutation_map.
    + destruct (@batches_of_kind (Tax float) Tax_transaction "tax"
                  (@file_taxes float) directory files sts stamps_in_taxes Es Hcan Hdis).
      apply fold_merge_permutation; auto using Permutation_map.
    + destruct (@batches_of_kind (Transfer float) Transfer_transaction "transfer"
                  (@file_transfers float) directory files sts stamps_in_transfers
                  Es Hcan Hdis).
      apply fold_merge_permutation; auto using Permutation_map.
Qed.

End with_loader.

#[local] Existing Instance decimal_float.decimal_PyFloat.


(** A table whose header holds a number and no exact spelling of a type
    column: the lookup of the type column raises, and so does the job. *)
Lemma parse_job_number_in_header :
  find_transaction_type_column yearly
  = Raise (AttributeError "'int' object has no attribute 'lower'")
  /\ parse_job load_file (new_parser "job") "/uploads" ["aapl.csv"; "yearly.xlsx"]
     = Raise (AttributeError "'int' object has no attribute 'lower'").
Proof. split; vm_compute; reflexivity. Qed.


(** C6 as stated fails: two files with a purchase on the same day give the
    purchases in the order the files are processed. *)
Lemma parse_job_depends_on_file_order :
  exists r r',
    parse_job load_file (new_parser "job") "/uploads" ["aapl.csv"; "msft.csv"] = Return r
    /\ parse_job load_file (new_parser "job") "/uploads" ["msft.csv"; "aapl.csv"] = Return r'
    /\ Permutation ["aapl.csv"; "msft.csv"] ["msft.csv"; "aapl.csv"]
    /\ map purchase_date (purchases r) = ["2023-01-15"; "2023-01-15"]
    /\ map purchase_company_symbol (purchases r) = ["AAPL"; "MSFT"]
    /\ map purchase_company_symbol (purchases r') = ["MSFT"; "AAPL"]
    /\ purchases r <> purchases r'.
Proof.
  do 2 eexists. split; [vm_compute; reflexivity|]. split; [vm_compute; reflexivity|].
  split; [apply perm_swap|].
  repeat (split; [vm_compute; reflexivity|]).
  intros E. apply (f_equal (map purchase_company_symbol)) in E.
  vm_compute in E. discriminate.
Qed.

Lemma parse_job_order_of_files_witness :
  exists r r',
    parse_job load_file (new_parser "job") "/uploads" ["later.csv"; "aapl.csv"] = Return r
    /\ parse_job load_file (new_parser "job") "/uploads" ["aapl.csv"; "later.csv"] = Return r'
    /\ sequences r = sequences r'.
Proof.
  destruct (parse_job load_file (new_parser "job") "/uploads" ["later.csv"; "aapl.csv"])
    as [r|e] eqn:Er; [|vm_compute in Er; discriminate].
  destruct (parse_job_order_of_files load_file "/uploads" "job"
              ["later.csv"; "aapl.csv"] ["aapl.csv"; "later.csv"] r
              (perm_swap _ _ _) Er) as (r' & Er' & _ & Heq).
  exists r, r'. split; [reflexivity|]. split; [exact Er'|]. apply Heq.
  - intros f [<-|[<-|[]]]; apply Forall_forall; intros stamp Hin;
      vm_compute in Hin; destruct Hin as [<-|[]]; vm_compute; reflexivity.
  - repeat constructor. intros stamp H1 H2.
    vm_compute in H1, H2. destruct H1 as [<-|[]]. destruct H2 as [E|[]]. discriminate.
Defined.

End orchestrator_properties.

(* ------------------------------------------------------------------ *)
(** ** Facts about [strip], [lower] and [re.sub] *)

Module string_facts.
Import pystr text_notions.

Lemma is_space_lower_char c : is_space (lower_char c) = is_space c.
Proof. destruct c as [[] [] [] [] [] [] [] []]; reflexivity. Qed.

Lemma lstrip_lower s : lower (lstrip s) = lstrip (lower s).
Proof.
  induction s as [|c s IH]; cbn; [reflexivity|].
  rewrite is_space_lower_char. destruct (is_space c); [exact IH|reflexivity].
Qed.

Lemma rstrip_lower s : lower (rstrip s) = rstrip (lower s).
Proof.
  induction s as [|c s IH]; cbn; [reflexivity|].
  rewrite <- IH, is_space_lower_char.
  destruct (rstrip s); cbn; [destruct (is_space c)|]; reflexivity.
Qed.

Lemma strip_lower s : lower (strip s) = strip (lower s).
Proof. unfold strip. now rewrite rstrip_lower, lstrip_lower. Qed.

Lemma lstrip_starts_clean s : starts_clean (lstrip s) = true.
Proof.
  induction s as [|c s IH]; cbn; [reflexivity|].
  destruct (is_space c) eqn:E; [exact IH|]. cbn. now rewrite E.
Qed.

Lemma lstrip_clean s : starts_clean s = true -> lstrip s = s.
Proof.
  destruct s as [|c s]; cbn; [reflexivity|].
  now destruct (is_space c).
Qed.

Lemma rstrip_starts_clean s : starts_clean s = true -> starts_clean (rstrip s) = true.
Proof.
  destruct s as [|c s]; cbn; [reflexivity|].
  destruct (is_space c) eqn:E; [discriminate|]. intros _.
  destruct (rstrip s); cbn; now rewrite E.
Qed.

Lemma rstrip_rstrip s : rstrip (rstrip s) = rstrip s.
Proof.
  induction s as [|c s IH]; cbn; [reflexivity|].
  destruct (rstrip s) as [|c' r] eqn:E.
  - destruct (is_space c) eqn:Ec; cbn; [reflexivity|]. now rewrite Ec.
  - cbn [rstrip]. cbn [rstrip] in IH. rewrite IH. reflexivity.
Qed.

Lemma strip_strip s : strip (strip s) = strip s.
Proof.
  unfold strip.
  rewrite (lstrip_clean (rstrip (lstrip s))).
  - apply rstrip_rstrip.
  - apply rstrip_starts_clean, lstrip_starts_clean.
Qed.

Lemma rstrip_clean s : ends_clean s = true -> rstrip s = s.
Proof.
  induction s as [|c s IH]; [reflexivity|].
  destruct s as [|c' s].
  - cbn. now destruct (is_space c).
  - intros E. change (ends_clean (String c' s) = true) in E.
    cbn [rstrip] in *. rewrite (IH E). reflexivity.
Qed.

Lemma strip_clean s : starts_clean s = true -> ends_clean s = true -> strip s = s.
Proof.
  intros Hs He. unfold strip. rewrite (lstrip_clean s Hs). now apply rstrip_clean.
Qed.

Lemma remove_chars_lstrip p s :
  (forall c, is_space c = true -> p c = true) ->
  remove_chars p (lstrip s) = remove_chars p s.
Proof.
  intros Hp. induction s as [|c s IH]; cbn; [reflexivity|].
  destruct (is_space c) eqn:E; [|reflexivity].
  now rewrite (Hp c E).
Qed.

Lemma remove_chars_rstrip p s :
  (forall c, is_space c = true -> p c = true) ->
  remove_chars p (rstrip s) = remove_chars p s.
Proof.
  intros Hp. induction s as [|c s IH]; cbn; [reflexivity|].
  rewrite <- IH.
  destruct (rstrip s) as [|c' r]; [|reflexivity].
  destruct (is_space c) eqn:E; cbn; [now rewrite (Hp c E)|reflexivity].
Qed.

Lemma remove_chars_strip p s :
  (forall c, is_space c = true -> p c = true) ->
  remove_chars p (strip s) = remove_chars p s.
Proof.
  intros Hp. unfold strip.
  now rewrite remove_chars_rstrip, remove_chars_lstrip.
Qed.

End string_facts.

(* ------------------------------------------------------------------ *)
(** ** Facts about [strptime] on the six formats *)

Module date_facts.
Import pystr pydatetime pandas date_utils calendar format_notions text_notions.
Import calendar_facts string_facts.

Lemma month_alternatives_pad2 {B : Type} m r (k : Z -> string -> option B) b :
  1 <= m <= 12 -> k m r = Some b ->
  try_alternatives month_alternatives (pad2 m ++ r)%string k = Some b.
Proof.
  intros Hm Hk. enum m 1 12%nat; cbn; rewrite Hk; reflexivity.
Qed.

Lemma day_alternatives_pad2 {B : Type} d r (k : Z -> string -> option B) b :
  1 <= d <= 31 -> k d r = Some b ->
  try_alternatives day_alternatives (pad2 d ++ r)%string k = Some b.
Proof.
  intros Hd Hk. enum d 1 31%nat; cbn; rewrite Hk; reflexivity.
Qed.

Lemma match_format_render ds dt : forall y m d,
  match_format ds (render ds dt) y m d
  = Some (let '(y', m', d') := fields ds dt y m d in (y', m', d', EmptyString)).
Proof.
  destruct (datetime_bounds dt) as (Hy & Hm & Hd).
  induction ds as [|[| | |c] ds IH]; intros y m d; cbn [render fields].
  - reflexivity.
  - rewrite match_format_DirY, four_digits_pad4 by lia. apply IH.
  - cbn [match_format]. apply month_alternatives_pad2; [exact Hm|apply IH].
  - cbn [match_format]. apply day_alternatives_pad2; [exact Hd|apply IH].
  - cbn [match_format]. rewrite Ascii.eqb_refl. apply IH.
Qed.

(** Reading back a date written in one of the six formats. *)
Lemma strptime_written_as fmt dt :
  In fmt formats -> strptime (written_as fmt dt) fmt = Some dt.
Proof.
  intros Hin. unfold strptime, written_as. rewrite match_format_render.
  cbv in Hin.
  repeat (destruct Hin as [<-|Hin]; [cbn; apply make_datetime_fields|]).
  contradiction.
Qed.

Lemma try_alternatives_none {B : Type} alts s (k : Z -> string -> option B) :
  (forall alt v r, In alt alts -> alt s = Some (v, r) -> k v r = None) ->
  try_alternatives alts s k = None.
Proof.
  induction alts as [|a alts IH]; intros Hk; cbn; [reflexivity|].
  destruct (a s) as [[v r]|] eqn:E.
  - rewrite (Hk a v r (or_introl eq_refl) E). apply IH.
    intros alt v' r' Hin. apply Hk. now right.
  - apply IH. intros alt v' r' Hin. apply Hk. now right.
Qed.

(** What the alternatives of a month or a day leave of a text: all but its
    first character, or all but its first two. *)
Lemma one_rest p a s v r : one p (String a s) = Some (v, r) -> r = s.
Proof. cbn. destruct (p a); [now intros [= _ <-]|discriminate]. Qed.

Lemma two_rest p q a b s v r : two p q (String a (String b s)) = Some (v, r) -> r = s.
Proof. cbn. destruct (p a && q b); [now intros [= _ <-]|discriminate]. Qed.

Lemma space_one_rest p a b s v r :
  space_one p (String a (String b s)) = Some (v, r) -> r = s.
Proof.
  unfold space_one. destruct (Ascii.eqb_spec a " ") as [->|Hne].
  - destruct (p b); [now intros [= _ <-]|discriminate].
  - destruct a as [[] [] [] [] [] [] [] []]; try discriminate. now elim Hne.
Qed.

Lemma month_rest a b s alt v r :
  In alt month_alternatives -> alt (String a (String b s)) = Some (v, r) ->
  r = s \/ r = String b s.
Proof.
  intros [<-|[<-|[<-|[]]]] E.
  - left. exact (two_rest _ _ _ _ _ _ _ E).
  - left. exact (two_rest _ _ _ _ _ _ _ E).
  - right. exact (one_rest _ _ _ _ _ E).
Qed.

Lemma day_rest a b s alt v r :
  In alt day_alternatives -> alt (String a (String b s)) = Some (v, r) ->
  r = s \/ r = String b s.
Proof.
  intros [<-|[<-|[<-|[<-|[<-|[]]]]]] E.
  - left. exact (two_rest _ _ _ _ _ _ _ E).
  - left. exact (two_rest _ _ _ _ _ _ _ E).
  - left. exact (two_rest _ _ _ _ _ _ _ E).
  - right. exact (one_rest _ _ _ _ _ E).
  - left. exact (space_one_rest _ _ _ _ _ _ E).
Qed.

(** A month or a day followed by a separator does not match a text whose
    second and third characters are not that separator. *)
Lemma match_format_wrong_separator field sep ds a b c s y m d :
  field = DirM \/ field = DirD ->
  Ascii.eqb sep b = false -> Ascii.eqb sep c = false ->
  match_format (field :: Lit sep :: ds) (String a (String b (String c s))) y m d = None.
Proof.
  intros Hf Hb Hc.
  destruct Hf as [-> | ->]; cbn [match_format]; apply try_alternatives_none;
    intros alt v r Hin E.
  - destruct (month_rest _ _ _ _ _ _ Hin E) as [-> | ->].
    + now rewrite Hc.
    + now rewrite Hb.
  - destruct (day_rest _ _ _ _ _ _ Hin E) as [-> | ->].
    + now rewrite Hc.
    + now rewrite Hb.
Qed.

Lemma four_digits_third a b c s : is_digit c = false ->
  four_digits (String a (String b (String c s))) = None.
Proof.
  intros Hc. destruct s as [|d s]; [reflexivity|].
  cbn. rewrite Hc, andb_false_r. reflexivity.
Qed.

Lemma re_match_iso_third a b c s : is_digit c = false ->
  re_match_iso (String a (String b (String c s))) = false.
Proof.
  intros Hc.
  do 7 (destruct s as [|? s]; [reflexivity|]).
  cbn [re_match_iso]. rewrite Hc, andb_false_r. reflexivity.
Qed.

Lemma re_match_iso_fifth a b c d e s : Ascii.eqb e "-" = false ->
  re_match_iso (String a (String b (String c (String d (String e s))))) = false.
Proof.
  intros He.
  do 5 (destruct s as [|? s]; [reflexivity|]).
  cbn [re_match_iso]. rewrite He, andb_false_r. reflexivity.
Qed.

Lemma is_space_digit k : 0 <= k <= 9 -> is_space (digit k) = false.
Proof. intros Hk. enum k 0 10%nat; reflexivity. Qed.

Lemma eqb_slash_digit k : 0 <= k <= 9 -> Ascii.eqb "/" (digit k) = false.
Proof. intros Hk. enum k 0 10%nat; reflexivity. Qed.

Lemma eqb_hyphen_digit k : 0 <= k <= 9 -> Ascii.eqb "-" (digit k) = false.
Proof. intros Hk. enum k 0 10%nat; reflexivity. Qed.

(** A month above twelve is no month: the text of a day from 13 to 31 is
    not read by [%m]. *)
Lemma match_format_no_month sep ds n s y m d :
  sep = "/"%char \/ sep = "-"%char -> 12 < n <= 31 ->
  match_format (DirM :: Lit sep :: ds) (pad2 n ++ String sep s)%string y m d = None.
Proof.
  intros Hsep Hn.
  destruct Hsep as [-> | ->]; enum n 13 19%nat; reflexivity.
Qed.

End date_facts.

(* ------------------------------------------------------------------ *)
(** ** Properties of [parse_date] on the six formats *)

Module date_properties.
Import pystr pydatetime pandas date_utils calendar format_notions text_notions.
Import calendar_facts string_facts date_facts.

Lemma strip_written_as fmt dt :
  In fmt formats -> strip (written_as fmt dt) = written_as fmt dt.
Proof.
  intros Hin.
  destruct (datetime_bounds dt) as (Hy & Hm & Hd).
  destruct (pad4_digits (year dt)) as (Y1 & Y2 & Y3 & Y4 & _); [lia|].
  destruct (pad2_digits (month dt)) as (M1 & M2 & _); [lia|].
  destruct (pad2_digits (day dt)) as (D1 & D2 & _); [lia|].
  cbv in Hin.
  repeat (destruct Hin as [<-|Hin];
          [apply strip_clean; cbn; now rewrite is_space_digit|]).
  contradiction.
Qed.

Lemma strptime_year_first fmt ds a b c s :
  directives fmt = DirY :: ds -> is_digit c = false ->
  strptime (String a (String b (String c s))) fmt = None.
Proof.
  intros Hds Hc. unfold strptime.
  now rewrite Hds, match_format_DirY, four_digits_third.
Qed.

Lemma strptime_wrong_separator fmt field sep ds a b c s :
  directives fmt = field :: Lit sep :: ds ->
  field = DirM \/ field = DirD ->
  Ascii.eqb sep b = false -> Ascii.eqb sep c = false ->
  strptime (String a (String b (String c s))) fmt = None.
Proof.
  intros Hds Hf Hb Hc. unfold strptime.
  now rewrite Hds, match_format_wrong_separator.
Qed.

Lemma strptime_year_then_separator fmt sep ds y c s :
  directives fmt = DirY :: Lit sep :: ds -> 0 <= y <= 9999 ->
  Ascii.eqb sep c = false ->
  strptime (pad4 y ++ String c s) fmt = None.
Proof.
  intros Hds Hy Hc. unfold strptime.
  rewrite Hds, match_format_DirY, four_digits_pad4 by exact Hy.
  cbn [match_format]. now rewrite Hc.
Qed.

(** A day up to twelve followed by a month above twelve is not read by
    [%d-%m]. *)
Lemma match_format_day_then_no_month ds a b n s y m d :
  Ascii.eqb "-" b = false -> 12 < n <= 31 ->
  match_format (DirD :: Lit "-" :: DirM :: Lit "-" :: ds)
    (String a (String b (String "-" (pad2 n ++ String "-" s)))) y m d = None.
Proof.
  intros Hb Hn. cbn [match_format]. apply try_alternatives_none.
  intros alt v r Hin E.
  destruct (day_rest _ _ _ _ _ _ Hin E) as [-> | ->].
  - change (match_format (DirM :: Lit "-" :: ds) (pad2 n ++ String "-" s) y m v = None).
    apply match_format_no_month; [now right|exact Hn].
  - now rewrite Hb.
Qed.

Lemma days_in_month_lower y n : 1 <= n <= 12 -> 28 <= days_in_month y n.
Proof.
  intros Hn. unfold days_in_month.
  enum n 1 12%nat; cbv iota beta; try destruct (is_leap y); lia.
Qed.

(** The date with the day and the month of a date exchanged, when its day
    is at most twelve. *)
Lemma exchanged_exists dt : day dt <= 12 -> exists dt', exchanged dt dt'.
Proof.
  intros Hle. destruct (datetime_bounds dt) as (Hy & Hm & Hd).
  assert (Hok : valid_ymd (year dt) (day dt) (month dt) = true).
  { unfold valid_ymd.
    assert (Hdays : month dt <= days_in_month (year dt) (day dt)).
    { pose proof (days_in_month_lower (year dt) (day dt)). lia. }
    repeat (apply andb_true_intro; split); apply Z.leb_le; lia. }
  exists (mk_datetime _ _ _ Hok). repeat split.
Qed.

Section with_float.
Context {float : Type}.

Lemma text_us dt :
  written_as "%m/%d/%Y" dt
  = String (digit (month dt / 10)) (String (digit (month dt mod 10)) (String "/"
      (pad2 (day dt) ++ "/" ++ pad4 (year dt)))).
Proof. reflexivity. Qed.

Lemma text_eu dt :
  written_as "%d/%m/%Y" dt
  = String (digit (day dt / 10)) (String (digit (day dt mod 10)) (String "/"
      (pad2 (month dt) ++ "/" ++ pad4 (year dt)))).
Proof. reflexivity. Qed.

Lemma text_eu_hyphen dt :
  written_as "%d-%m-%Y" dt
  = String (digit (day dt / 10)) (String (digit (day dt mod 10)) (String "-"
      (pad2 (month dt) ++ "-" ++ pad4 (year dt)))).
Proof. reflexivity. Qed.

Lemma text_us_hyphen dt :
  written_as "%m-%d-%Y" dt
  = String (digit (month dt / 10)) (String (digit (month dt mod 10)) (String "-"
      (pad2 (day dt) ++ "-" ++ pad4 (year dt)))).
Proof. reflexivity. Qed.

Lemma text_year_slash dt :
  written_as "%Y/%m/%d" dt
  = String (digit (year dt / 1000)) (String (digit ((year dt / 100) mod 10))
      (String (digit ((year dt / 10) mod 10)) (String (digit (year dt mod 10))
         (String "/" (pad2 (month dt) ++ "/" ++ pad2 (day dt)))))).
Proof. reflexivity. Qed.

Lemma parse_date_us dt :
  parse_date (CStr (written_as "%m/%d/%Y" dt) : cell float) = Some (strftime dt).
Proof.
  unfold parse_date.
  rewrite strip_written_as by (cbv; tauto).
  assert (Hre : re_match_iso (written_as "%m/%d/%Y" dt) = false)
    by (rewrite text_us; now apply re_match_iso_third).
  rewrite Hre. unfold formats. cbn [try_formats].
  assert (H1 : strptime (written_as "%m/%d/%Y" dt) "%Y-%m-%d" = None)
    by (rewrite text_us; now eapply strptime_year_first).
  rewrite H1, strptime_written_as by (cbv; tauto). reflexivity.
Qed.

Lemma parse_date_year_slash dt :
  parse_date (CStr (written_as "%Y/%m/%d" dt) : cell float) = Some (strftime dt).
Proof.
  destruct (datetime_bounds dt) as (Hy & Hm & Hd).
  destruct (pad4_digits (year dt)) as (Y1 & Y2 & Y3 & Y4 & _); [lia|].
  unfold parse_date.
  rewrite strip_written_as by (cbv; tauto).
  assert (Hre : re_match_iso (written_as "%Y/%m/%d" dt) = false)
    by (rewrite text_year_slash; now apply re_match_iso_fifth).
  rewrite Hre. unfold formats. cbn [try_formats].
  assert (H1 : strptime (written_as "%Y/%m/%d" dt) "%Y-%m-%d" = None).
  { change (written_as "%Y/%m/%d" dt)
      with (pad4 (year dt) ++ String "/" (pad2 (month dt) ++ "/" ++ pad2 (day dt)))%string.
    eapply strptime_year_then_separator; [reflexivity|lia|reflexivity]. }
  assert (H2 : strptime (written_as "%Y/%m/%d" dt) "%m/%d/%Y" = None).
  { rewrite text_year_slash.
    eapply strptime_wrong_separator; [reflexivity|now left| |];
      now apply eqb_slash_digit. }
  assert (H3 : strptime (written_as "%Y/%m/%d" dt) "%d/%m/%Y" = None).
  { rewrite text_year_slash.
    eapply strptime_wrong_separator; [reflexivity|now right| |];
      now apply eqb_slash_digit. }
  rewrite H1, H2, H3, strptime_written_as by (cbv; tauto). reflexivity.
Qed.

Lemma hyphen_text_formats a b s :
  Ascii.eqb "/" b = false ->
  try_formats formats (String a (String b (String "-" s)))
  = try_formats ["%d-%m-%Y"; "%m-%d-%Y"]%string (String a (String b (String "-" s))).
Proof.
  intros Hb. unfold formats. cbn [try_formats].
  rewrite (strptime_year_first "%Y-%m-%d" _ a b "-" s eq_refl eq_refl).
  rewrite (strptime_wrong_separator "%m/%d/%Y" _ _ _ a b "-" s eq_refl
             (or_introl eq_refl) Hb eq_refl).
  rewrite (strptime_wrong_separator "%d/%m/%Y" _ _ _ a b "-" s eq_refl
             (or_intror eq_refl) Hb eq_refl).
  rewrite (strptime_year_first "%Y/%m/%d" _ a b "-" s eq_refl eq_refl).
  reflexivity.
Qed.

Lemma parse_date_eu_hyphen dt :
  parse_date (CStr (written_as "%d-%m-%Y" dt) : cell float) = Some (strftime dt).
Proof.
  destruct (datetime_bounds dt) as (Hy & Hm & Hd).
  destruct (pad2_digits (day dt)) as (D1 & D2 & _); [lia|].
  unfold parse_date.
  rewrite strip_written_as by (cbv; tauto).
  assert (Hre : re_match_iso (written_as "%d-%m-%Y" dt) = false)
    by (rewrite text_eu_hyphen; now apply re_match_iso_third).
  rewrite Hre, text_eu_hyphen, hyphen_text_formats by now apply eqb_slash_digit.
  rewrite <- text_eu_hyphen. cbn [try_formats].
  rewrite strptime_written_as by (cbv; tauto). reflexivity.
Qed.

Lemma parse_date_us_hyphen dt :
  (12 < day dt ->
   parse_date (CStr (written_as "%m-%d-%Y" dt) : cell float) = Some (strftime dt))
  /\ (forall dt', exchanged dt dt' ->
      parse_date (CStr (written_as "%m-%d-%Y" dt) : cell float) = Some (strftime dt')).
Proof.
  destruct (datetime_bounds dt) as (Hy & Hm & Hd).
  destruct (pad2_digits (month dt)) as (M1 & M2 & _); [lia|].
  split.
  - intros Hgt. unfold parse_date.
    rewrite strip_written_as by (cbv; tauto).
    assert (Hre : re_match_iso (written_as "%m-%d-%Y" dt) = false)
      by (rewrite text_us_hyphen; now apply re_match_iso_third).
    rewrite Hre, text_us_hyphen, hyphen_text_formats by now apply eqb_slash_digit.
    cbn [try_formats].
    assert (H5 : strptime
                   (String (digit (month dt / 10)) (String (digit (month dt mod 10))
                      (String "-" (pad2 (day dt) ++ "-" ++ pad4 (year dt))))) "%d-%m-%Y"
                 = None).
    { unfold strptime.
      change (directives "%d-%m-%Y") with [DirD; Lit "-"; DirM; Lit "-"; DirY].
      change (pad2 (day dt) ++ "-" ++ pad4 (year dt))%string
        with (pad2 (day dt) ++ String "-" (pad4 (year dt)))%string.
      rewrite match_format_day_then_no_month;
        [reflexivity|now apply eqb_hyphen_digit|lia]. }
    rewrite H5, <- text_us_hyphen, strptime_written_as by (cbv; tauto). reflexivity.
  - intros dt' (Ey & Em & Ed).
    replace (written_as "%m-%d-%Y" dt) with (written_as "%d-%m-%Y" dt').
    + apply parse_date_eu_hyphen.
    + unfold written_as. cbn. now rewrite Ey, Em, Ed.
Qed.

Lemma parse_date_eu dt :
  (12 < day dt ->
   parse_date (CStr (written_as "%d/%m/%Y" dt) : cell float) = Some (strftime dt))
  /\ (forall dt', exchanged dt dt' ->
      parse_date (CStr (written_as "%d/%m/%Y" dt) : cell float) = Some (strftime dt')).
Proof.
  destruct (datetime_bounds dt) as (Hy & Hm & Hd).
  split.
  - intros Hgt. unfold parse_date.
    rewrite strip_written_as by (cbv; tauto).
    assert (Hre : re_match_iso (written_as "%d/%m/%Y" dt) = false)
      by (rewrite text_eu; now apply re_match_iso_third).
    rewrite Hre. unfold formats. cbn [try_formats].
    assert (H1 : strptime (written_as "%d/%m/%Y" dt) "%Y-%m-%d" = None)
      by (rewrite text_eu; now eapply strptime_year_first).
    assert (H2 : strptime (written_as "%d/%m/%Y" dt) "%m/%d/%Y" = None).
    { unfold strptime.
      change (directives "%m/%d/%Y") with [DirM; Lit "/"; DirD; Lit "/"; DirY].
      change (written_as "%d/%m/%Y" dt)
        with (pad2 (day dt) ++ String "/" (pad2 (month dt) ++ "/" ++ pad4 (year dt)))%string.
      rewrite match_format_no_month; [reflexivity|now left|lia]. }
    rewrite H1, H2, strptime_written_as by (cbv; tauto). reflexivity.
  - intros dt' (Ey & Em & Ed).
    replace (written_as "%d/%m/%Y" dt) with (written_as "%m/%d/%Y" dt').
    + apply parse_date_us.
    + unfold written_as. cbn. now rewrite Ey, Em, Ed.
Qed.

(** X1.  A calendar day written as YYYY-MM-DD, zero padded, is returned by
    [parse_date] as it is written.  Written as MM/DD/YYYY, YYYY/MM/DD or
    DD-MM-YYYY, zero padded, it is read as that day and returned as
    [strftime] gives it: from the year 1000 on, its zero-padded YYYY-MM-DD
    text. *)
Theorem parse_date_formats dt :
  parse_date (CStr (written_as "%Y-%m-%d" dt) : cell float)
  = Some (written_as "%Y-%m-%d" dt)
  /\ parse_date (CStr (written_as "%m/%d/%Y" dt) : cell float) = Some (strftime dt)
  /\ parse_date (CStr (written_as "%Y/%m/%d" dt) : cell float) = Some (strftime dt)
  /\ parse_date (CStr (written_as "%d-%m-%Y" dt) : cell float) = Some (strftime dt)
  /\ (1000 <= year dt -> strftime dt = written_as "%Y-%m-%d" dt).
Proof.
  split; [|split; [|split; [|split]]].
  - change (written_as "%Y-%m-%d" dt) with (isoformat dt).
    unfold parse_date.
    now rewrite (iso_shape_re_match _ (iso_shape_isoformat dt)).
  - apply parse_date_us.
  - apply parse_date_year_slash.
  - apply parse_date_eu_hyphen.
  - apply strftime_isoformat.
Qed.

Lemma string_app_inv_head (s t t' : string) : (s ++ t = s ++ t')%string -> t = t'.
Proof. induction s as [|c s IH]; cbn; [auto|]. intros [= E]. auto. Qed.

(** The date with the day and the month exchanged is rendered as the date
    itself exactly when the day and the month are the same number. *)
Lemma strftime_exchanged dt dt' :
  exchanged dt dt' -> (strftime dt' = strftime dt <-> day dt = month dt).
Proof.
  intros (Ey & Em & Ed).
  destruct (datetime_bounds dt) as (_ & Hm & Hd).
  destruct (datetime_bounds dt') as (_ & Hm' & Hd').
  unfold strftime. rewrite Ey, Em, Ed. split.
  - intros E. apply string_app_inv_head in E. injection E as E1 E2 _.
    destruct (pad2_digits (day dt)) as (D1 & D2 & ED); [lia|].
    destruct (pad2_digits (month dt)) as (M1 & M2 & EM); [lia|].
    apply (f_equal digit_value) in E1, E2.
    rewrite !digit_value_digit in E1, E2 by assumption. lia.
  - now intros ->.
Qed.

(** X2.  A day written as DD/MM/YYYY or as MM-DD-YYYY is read as that day
    when its day is above twelve.  When its day is at most twelve the text
    is read in the format tried first, month first with slashes and day
    first with hyphens, and [parse_date] returns the date with the day and
    the month exchanged: another date, unless the day and the month are the
    same number. *)
Theorem parse_date_day_month_order dt :
  (12 < day dt ->
   parse_date (CStr (written_as "%d/%m/%Y" dt) : cell float) = Some (strftime dt)
   /\ parse_date (CStr (written_as "%m-%d-%Y" dt) : cell float) = Some (strftime dt))
  /\ (day dt <= 12 ->
      exists dt',
        exchanged dt dt'
        /\ parse_date (CStr (written_as "%d/%m/%Y" dt) : cell float) = Some (strftime dt')
        /\ parse_date (CStr (written_as "%m-%d-%Y" dt) : cell float)
           = Some (strftime dt')
        /\ (strftime dt' = strftime dt <-> day dt = month dt)).
Proof.
  split.
  - intros Hgt. split.
    + exact (proj1 (parse_date_eu dt) Hgt).
    + exact (proj1 (parse_date_us_hyphen dt) Hgt).
  - intros Hle. destruct (exchanged_exists dt Hle) as (dt' & Hex).
    exists dt'. split; [exact Hex|]. split; [|split].
    + exact (proj2 (parse_date_eu dt) dt' Hex).
    + exact (proj2 (parse_date_us_hyphen dt) dt' Hex).
    + exact (strftime_exchanged dt dt' Hex).
Qed.

End with_float.

Lemma parse_date_day_month_order_witness :
  parse_date (CStr "13/02/2023" : cell decimal_float.decimal) = Some "2023-02-13"
  /\ parse_date (CStr "02-13-2023" : cell decimal_float.decimal) = Some "2023-02-13"
  /\ parse_date (CStr "01/02/2023" : cell decimal_float.decimal) = Some "2023-01-02"
  /\ parse_date (CStr "02-01-2023" : cell decimal_float.decimal) = Some "2023-01-02".
Proof.
  destruct (parse_date_day_month_order (float := decimal_float.decimal)
              february_thirteenth) as [Hgt _].
  destruct (parse_date_day_month_order (float := decimal_float.decimal)
              february_first) as [_ Hle].
  destruct Hgt as [E1 E2]; [cbn; lia|].
  destruct Hle as (dt' & (Ey & Em & Ed) & E3 & E4 & _); [cbn; lia|].
  assert (Es : strftime dt' = "2023-01-02").
  { unfold strftime. rewrite Ey, Em, Ed. reflexivity. }
  rewrite Es in E3, E4.
  split; [exact E1|]. split; [exact E2|]. split; [exact E3|exact E4].
Defined.

End date_properties.

(* ------------------------------------------------------------------ *)
(** ** Properties of [compare_dates] and [get_date_boundaries] *)

Module date_order_properties.
Import pystr pydatetime pandas date_utils calendar format_notions text_notions.
Import calendar_facts string_facts date_facts sorting_facts.

(** X3.  [compare_dates] is antisymmetric on all texts, whether they parse
    or not, and a text compares equal to itself. *)
Theorem compare_dates_antisymmetric :
  (forall a b, compare_dates a b = - compare_dates b a)
  /\ (forall a, compare_dates a a = 0).
Proof.
  assert (Hanti : forall a b, compare_dates a b = - compare_dates b a).
  { intros a b. unfold compare_dates.
    destruct (strptime a "%Y-%m-%d") as [da|], (strptime b "%Y-%m-%d") as [db|];
      try reflexivity.
    rewrite !datetime_ltb_ordinal.
    destruct (Z.ltb_spec (ordinal da) (ordinal db));
      destruct (Z.ltb_spec (ordinal db) (ordinal da)); lia. }
  split; [exact Hanti|].
  intros a. pose proof (Hanti a a). lia.
Qed.

(** X4.  On the zero-padded texts of calendar days [compare_dates] is the
    comparison of the texts: the order of the per-file sort and of the
    boundaries is the order of the merge. *)
Theorem compare_dates_text_order a b :
  canonical_date a = true -> canonical_date b = true ->
  compare_dates a b
  = match String.compare a b with Lt => -1 | Eq => 0 | Gt => 1 end.
Proof.
  intros Ha Hb. rewrite compare_dates_canonical by assumption.
  destruct (canonical_inv a Ha) as (da & Ea & <-).
  destruct (canonical_inv b Hb) as (db & Eb & <-).
  now rewrite compare_isoformat, !date_key_isoformat.
Qed.

Lemma compare_dates_text_order_witness :
  compare_dates "2023-01-15" "2023-02-01"
  = match String.compare "2023-01-15" "2023-02-01" with Lt => -1 | Eq => 0 | Gt => 1 end.
Proof. apply compare_dates_text_order; vm_compute; reflexivity. Defined.

Lemma in_somes {A : Type} (l : list (option A)) x : In x (somes l) <-> In (Some x) l.
Proof.
  induction l as [|[y|] l IH]; cbn.
  - tauto.
  - rewrite IH. split; (intros [E|Hin]; [left; congruence|now right]).
  - rewrite IH. split; [now right|]. intros [E|Hin]; [discriminate|assumption].
Qed.

Lemma get_date_boundaries_somes dates :
  get_date_boundaries dates = get_date_boundaries (map Some (somes dates)).
Proof.
  destruct dates as [|d dates]; [reflexivity|].
  destruct (somes (d :: dates)) as [|v vs] eqn:E.
  - unfold get_date_boundaries. now rewrite E.
  - rewrite get_date_boundaries_nonempty by discriminate.
    unfold get_date_boundaries. now rewrite E.
Qed.

(** X5.  [get_date_boundaries] ignores the entries that are [None]; when no
    date is left it returns no boundary, and otherwise two dates of the
    list, the least and the greatest in the order of texts. *)
Theorem get_date_boundaries_bounds (dates : list (option string)) :
  match get_date_boundaries dates with
  | (Some lo, Some hi) =>
      In (Some lo) dates /\ In (Some hi) dates
      /\ forall d, In (Some d) dates -> String.leb lo d = true /\ String.leb d hi = true
  | (None, None) => forall d, In (Some d) dates -> False
  | _ => False
  end.
Proof.
  rewrite get_date_boundaries_somes.
  destruct (somes dates) as [|v vs] eqn:E.
  - cbn. intros d Hd. apply in_somes in Hd. now rewrite E in Hd.
  - destruct (get_date_boundaries_spec (v :: vs)) as (lo & hi & -> & Hlo & Hhi & Hall);
      [discriminate|].
    rewrite <- E in Hlo, Hhi, Hall.
    repeat split; try (now apply in_somes); apply Hall; now apply in_somes.
Qed.

End date_order_properties.

(* ------------------------------------------------------------------ *)
(** ** The three strategies of the merger *)

Module merge_strategies.
Import pystr date_utils models merger calendar keyed merge_notions.
Import calendar_facts keyed_facts sorting_facts merger_facts examples.
Import merger_properties.

#[local] Existing Instance decimal_float.decimal_PyFloat.

Section with_transaction.
Context {T : Type} `{Transaction T}.

Lemma insert_by_canonical (a b : T) l :
  canonical_date (get_transaction_date a) = true ->
  canonical_date (get_transaction_date b) = true ->
  insert_by get_transaction_date a (b :: l)
  = if dkey a <=? dkey b then a :: b :: l
    else b :: insert_by get_transaction_date a l.
Proof.
  intros Ha Hb. cbn [insert_by]. unfold dkey. now rewrite leb_canonical.
Qed.

Lemma insert_by_zmerge (a : T) l1 l2 :
  canonical_dates (a :: l1) -> canonical_dates l2 ->
  Forall (fun x => dkey a <= dkey x) l1 ->
  insert_by get_transaction_date a (zmerge dkey l1 l2) = zmerge dkey (a :: l1) l2.
Proof.
  intros Hc1 Hc2 Hle. revert Hc2.
  pose proof (Forall_inv Hc1) as Ha. pose proof (Forall_inv_tail Hc1) as Hl1.
  induction l2 as [|b l2 IH]; intros Hc2.
  - rewrite !zmerge_nil_r. apply insert_by_sorted_head.
    apply Forall_forall. intros x Hx.
    rewrite leb_canonical; [|exact Ha|now apply canonical_in with l1].
    apply Z.leb_le. now apply (proj1 (Forall_forall _ _) Hle).
  - pose proof (Forall_inv Hc2) as Hb. pose proof (Forall_inv_tail Hc2) as Hl2.
    rewrite zmerge_cons.
    destruct l1 as [|c l1].
    + rewrite zmerge_nil_l, insert_by_canonical by assumption.
      destruct (dkey a <=? dkey b); [reflexivity|].
      f_equal. rewrite <- (IH Hl2). now rewrite zmerge_nil_l.
    + pose proof (Forall_inv Hle) as Hac. cbn beta in Hac. pose proof (Forall_inv Hl1) as Hc.
      rewrite zmerge_cons.
      destruct (Z.leb_spec (dkey a) (dkey b)) as [Hab|Hab].
      * destruct (dkey c <=? dkey b); rewrite insert_by_canonical by assumption.
        -- destruct (Z.leb_spec (dkey a) (dkey c)); [reflexivity|lia].
        -- destruct (Z.leb_spec (dkey a) (dkey b)); [reflexivity|lia].
      * destruct (Z.leb_spec (dkey c) (dkey b)); [lia|].
        rewrite insert_by_canonical by assumption.
        destruct (Z.leb_spec (dkey a) (dkey b)); [lia|].
        f_equal. exact (IH Hl2).
Qed.

Lemma _simple_merge_zmerge (l1 l2 : list T) :
  canonical_dates l1 -> canonical_dates l2 ->
  key_sorted dkey l1 -> key_sorted dkey l2 ->
  _simple_merge l1 l2 = zmerge dkey l1 l2.
Proof.
  intros Hc1 Hc2 Hs1 Hs2. unfold _simple_merge.
  induction l1 as [|a l1 IH].
  - rewrite zmerge_nil_l. apply sort_by_of_sorted.
    now apply sorted_by_text_key.
  - apply StronglySorted_inv in Hs1 as [Hs1 Hle].
    change (sort_by get_transaction_date ((a :: l1) ++ l2))
      with (insert_by get_transaction_date a (sort_by get_transaction_date (l1 ++ l2))).
    rewrite (IH (Forall_inv_tail Hc1) Hs1).
    now apply insert_by_zmerge.
Qed.

(** X6.  Merging never loses, duplicates or invents a record, whatever the
    dates are: the result is a rearrangement of the two lists together. *)
Theorem merge_transactions_keeps_records (existing new : list T) :
  Permutation (merge_transactions existing new) (existing ++ new)
  /\ List.length (merge_transactions existing new)
     = (List.length existing + List.length new)%nat
  /\ (forall t, In t (merge_transactions existing new) <-> In t existing \/ In t new).
Proof.
  pose proof (merge_transactions_perm existing new) as Hp.
  split; [exact Hp|]. split.
  - rewrite (Permutation_length Hp). apply length_app.
  - intros t. rewrite <- in_app_iff.
    split; apply Permutation_in; [exact Hp|now symmetry].
Qed.

(** X7.  When all the dates are zero-padded texts of calendar days, the
    prepend and append shortcuts return what the two-pointer merge returns;
    when moreover both lists are sorted, the concatenate-and-sort fallback
    returns the same list too. *)
Theorem merge_strategies_agree (existing new : list T) :
  canonical_dates existing -> canonical_dates new ->
  merge_transactions existing new = _sorted_merge existing new
  /\ (sorted_by_date existing -> sorted_by_date new ->
      merge_transactions existing new = _simple_merge existing new).
Proof.
  intros He Hn. split.
  - now rewrite merge_transactions_zmerge, _sorted_merge_zmerge.
  - intros Se Sn.
    rewrite merge_transactions_zmerge, _simple_merge_zmerge;
      try assumption; try reflexivity; now apply sorted_by_date_key.
Qed.

(** X28.  On zero-padded texts of calendar days, a batch none of whose
    dates is before a date of the accumulated list is appended to it as it
    is, and a batch all of whose dates are before every date of the
    accumulated list is put in front of it as it is. *)
Theorem merge_transactions_separate_ranges (existing new : list T) :
  canonical_dates existing -> canonical_dates new ->
  ((forall e n, In e existing -> In n new ->
                compare_dates (get_transaction_date e) (get_transaction_date n) <= 0) ->
   merge_transactions existing new = existing ++ new)
  /\ ((forall e n, In e existing -> In n new ->
                   compare_dates (get_transaction_date n) (get_transaction_date e) < 0) ->
      merge_transactions existing new = new ++ existing).
Proof.
  intros He Hn. rewrite merge_transactions_zmerge by assumption. split.
  - intros Hle. apply zmerge_append. intros a b Ha Hb. unfold dkey.
    specialize (Hle a b Ha Hb). apply Z.leb_le in Hle.
    rewrite (compare_le_canonical _ _ (canonical_in _ _ He Ha) (canonical_in _ _ Hn Hb))
      in Hle.
    now apply Z.leb_le.
  - intros Hlt. apply zmerge_prepend. intros a b Ha Hb. unfold dkey.
    apply (compare_lt_canonical _ _ (canonical_in _ _ Hn Hb) (canonical_in _ _ He Ha)).
    now apply Hlt.
Qed.

End with_transaction.

Lemma merge_transactions_separate_ranges_witness :
  let earlier := [purchase_on "2023-01-15"; purchase_on "2023-03-01"] in
  let later := [purchase_on "2023-03-01"; purchase_on "2023-04-01"] in
  merge_transactions earlier later = earlier ++ later
  /\ merge_transactions [purchase_on "2023-04-01"] earlier
     = earlier ++ [purchase_on "2023-04-01"].
Proof.
  intros earlier later.
  assert (He : canonical_dates earlier) by canonical_example.
  assert (Hl : canonical_dates later) by canonical_example.
  assert (Hn : canonical_dates [purchase_on "2023-04-01"]) by canonical_example.
  split.
  - apply (proj1 (merge_transactions_separate_ranges earlier later He Hl)).
    intros e n [<-|[<-|[]]] [<-|[<-|[]]]; vm_compute; congruence.
  - apply (proj2 (merge_transactions_separate_ranges [purchase_on "2023-04-01"] earlier
                    Hn He)).
    intros e n [<-|[]] [<-|[<-|[]]]; vm_compute; reflexivity.
Defined.

Lemma merge_strategies_agree_witness :
  let existing := [purchase_on "2023-01-15"; purchase_on "2023-03-01"] in
  let new := [purchase_on "2023-04-01"; purchase_on "2023-05-01"] in
  merge_transactions existing new = existing ++ new
  /\ _sorted_merge existing new = existing ++ new
  /\ _simple_merge existing new = existing ++ new.
Proof.
  intros existing new.
  assert (He : canonical_dates existing) by canonical_example.
  assert (Hn : canonical_dates new) by canonical_example.
  assert (Se : sorted_by_date existing) by sorted_example.
  assert (Sn : sorted_by_date new) by sorted_example.
  destruct (merge_strategies_agree existing new He Hn) as [E1 E2].
  specialize (E2 Se Sn).
  assert (E : merge_transactions existing new = existing ++ new) by run.
  split; [exact E|]. split; congruence.
Defined.

End merge_strategies.

(* ------------------------------------------------------------------ *)
(** ** Properties of the cell accessor, of the currency and of [parse_float] *)

Module cell_properties.
Import pystr pyexcept pydatetime pandas number_utils date_utils models transformer.
Import calendar transform_notions record_notions text_notions.
Import calendar_facts string_facts examples.

Section with_float.
Context {float : Type} `{PyFloat float}.

Lemma label_eqb_spec (a b : label) : reflect (a = b) (label_eqb a b).
Proof.
  destruct a as [s|n], b as [t|m]; cbn; try (constructor; discriminate).
  - destruct (String.eqb_spec s t); constructor; congruence.
  - destruct (Z.eqb_spec n m); constructor; congruence.
Qed.

Lemma label_eqb_refl (a : label) : label_eqb a a = true.
Proof. now destruct (label_eqb_spec a a). Qed.

Lemma get_combine (labels : list label) (cells : list (cell float)) n label :
  NoDup labels -> nth_error labels n = Some label ->
  get (combine labels cells) label = nth_error cells n.
Proof.
  intros Hnd. revert cells n.
  induction Hnd as [|l labels Hnotin Hnd IH]; intros cells n Hn.
  - now destruct n.
  - destruct cells as [|v cells].
    + cbn. now destruct n.
    + cbn [combine get]. destruct n as [|n]; cbn in Hn |- *.
      * injection Hn as ->. now rewrite label_eqb_refl.
      * destruct (label_eqb_spec l label) as [->|Hne].
        -- elim Hnotin. eapply nth_error_In. exact Hn.
        -- now apply IH.
Qed.

(** X8.  [get_cell_value] returns the default for a position outside the
    table, never returns a missing value of the row, and, on a row of a
    table whose labels are distinct, reads the cell at the position. *)
Theorem get_cell_value_by_position (df : DataFrame float) (position : Z) :
  (forall row default,
      position < 0 \/ len_columns df <= position ->
      get_cell_value row df position default = default)
  /\ (forall row default,
         isna (get_cell_value row df position default) = true ->
         get_cell_value row df position default = default)
  /\ (forall cells default,
         NoDup (columns df) -> 0 <= position < len_columns df ->
         get_cell_value (combine (columns df) cells) df position default
         = match nth_error cells (Z.to_nat position) with
           | Some value => if isna value then default else value
           | None => default
           end).
Proof.
  split; [|split].
  - intros row default Hout. unfold get_cell_value.
    destruct (Z.ltb_spec position 0); [reflexivity|].
    destruct (Z.geb_spec position (len_columns df)); [reflexivity|lia].
  - intros row default. unfold get_cell_value.
    destruct ((position <? 0) || (position >=? len_columns df)); [reflexivity|].
    destruct (nth_error _ _) as [label|]; [|reflexivity].
    destruct (get row label) as [value|]; [|reflexivity].
    destruct (isna value) eqn:E; [reflexivity|congruence].
  - intros cells default Hnd Hin. unfold get_cell_value.
    destruct (Z.ltb_spec position 0); [lia|].
    destruct (Z.geb_spec position (len_columns df)); [lia|]. cbn [orb].
    destruct (nth_error (columns df) (Z.to_nat position)) as [label|] eqn:E.
    + now rewrite (get_combine _ _ _ _ Hnd E).
    + apply nth_error_None in E. unfold len_columns in *. lia.
Qed.

Lemma currency_of_clean (row : Series float) (df : DataFrame float) :
  nonempty (currency_of row df) = true /\ trimmed (currency_of row df).
Proof.
  unfold currency_of, trimmed.
  destruct (nonempty (strip _)) eqn:E; cbn [negb].
  - split; [exact E|apply strip_strip].
  - split; reflexivity.
Qed.

Lemma constructed_currency (row : Series float) (df : DataFrame float) r :
  constructed row df r -> record_currency r = currency_of row df.
Proof.
  intros [p E|s E|symbol d E|symbol t E|kind t E]; revert E; cbn [record_currency].
  - unfold transform_to_purchase.
    destruct (parse_date _) as [date|]; [|discriminate].
    repeat (destruct (parse_float _) as [[?|]|?]; cbn [bind]; try discriminate).
    all: now intros [= <-].
  - unfold transform_to_sale, transform_to_purchase.
    destruct (parse_date _) as [date|]; [|discriminate].
    repeat (destruct (parse_float _) as [[?|]|?]; cbn [bind]; try discriminate).
    all: now intros [= <-].
  - unfold transform_to_dividend.
    destruct (parse_date _) as [date|]; [|discriminate].
    destruct (amount_of row df) as [[?|]|?]; cbn [bind]; try discriminate.
    now intros [= <-].
  - unfold transform_to_tax.
    destruct (parse_date _) as [date|]; [|discriminate].
    destruct (amount_of row df) as [[?|]|?]; cbn [bind]; try discriminate.
    now intros [= <-].
  - unfold transform_to_transfer.
    destruct (parse_date _) as [date|]; [|discriminate].
    destruct (amount_of row df) as [[?|]|?]; cbn [bind]; try discriminate.
    now intros [= <-].
Qed.

(** X9.  The currency of a record constructed by any of the five transforms
    is never empty and has no white space around it: it is the trimmed
    text of column G, or USD when that is blank or absent. *)
Theorem constructed_currency_clean (row : Series float) (df : DataFrame float)
    (r : TransactionRecord float) :
  constructed row df r ->
  nonempty (record_currency r) = true
  /\ trimmed (record_currency r)
  /\ (record_currency r = "USD"
      \/ record_currency r = strip (str (get_cell_value row df 6 (CStr EmptyString)))).
Proof.
  intros Hr. rewrite (constructed_currency _ _ _ Hr).
  destruct (currency_of_clean row df) as [Hn Ht].
  split; [exact Hn|]. split; [exact Ht|].
  unfold currency_of.
  destruct (nonempty (strip _)); cbn [negb]; [now right|now left].
Qed.

(** X10.  For a text, [parse_float] returns, and what it returns depends
    only on what is left of the text once white space, commas and the
    dollar, euro and pound signs are removed, wherever they stand; a blank
    text has no value. *)
Theorem parse_float_ignores_separators :
  (forall s, nonempty (strip s) = false -> parse_float (CStr s) = Return None)
  /\ (forall s, nonempty (strip s) = true ->
        parse_float (CStr s) = Return (float_of_str (remove_chars currency_or_space s)))
  /\ (forall c,
         currency_or_space c = true
         <-> c = "$"%char \/ c = euro \/ c = ascii_of_N 163 \/ c = ","%char
             \/ is_space c = true)
  /\ (forall s1 s2,
         nonempty (strip s1) = true -> nonempty (strip s2) = true ->
         remove_chars currency_or_space s1 = remove_chars currency_or_space s2 ->
         parse_float (CStr s1) = parse_float (CStr s2)).
Proof.
  assert (Hclean : forall s, nonempty (strip s) = true ->
            parse_float (CStr s)
            = Return (float_of_str (remove_chars currency_or_space s))).
  { intros s Hs. unfold parse_float. rewrite Hs. cbn [negb].
    rewrite remove_chars_strip; [reflexivity|].
    intros c Hc. unfold currency_or_space. rewrite Hc. now rewrite !orb_true_r. }
  split; [|split; [|split]].
  - intros s Hs. unfold parse_float. now rewrite Hs.
  - exact Hclean.
  - intros c. unfold currency_or_space.
    rewrite !orb_true_iff, !Ascii.eqb_eq. tauto.
  - intros s1 s2 H1 H2 E. now rewrite !Hclean, E.
Qed.

End with_float.

#[local] Existing Instance decimal_float.decimal_PyFloat.

(** A price written with the euro sign and a comma. *)
Lemma parse_float_euro :
  parse_float (CStr (String euro "1,234.56"))
  = Return (Some (decimal_float.Finite false 123456 (-2))).
Proof. vm_compute; reflexivity. Qed.

Lemma NoDup_header : NoDup header.
Proof.
  unfold header. cbn [map].
  repeat (apply NoDup_cons; [cbn; intuition discriminate|]). apply NoDup_nil.
Qed.

Lemma get_cell_value_by_position_witness :
  get_cell_value (row_of (values_of "2023-01-15" "Buy" "AAPL")) (table []) 3 CNone
  = CStr "AAPL"
  /\ get_cell_value (row_of (values_of "2023-01-15" "Buy" "AAPL")) (table []) 7 CNone
     = CNone
  /\ get_cell_value (row_of (values_of "2023-01-15" "Buy" "AAPL")) (table []) 11 CNone
     = CNone.
Proof.
  pose proof (get_cell_value_by_position (table [])) as Hpos.
  split; [|split].
  - destruct (Hpos 3) as (_ & _ & Hin).
    refine (eq_trans (Hin (values_of "2023-01-15" "Buy" "AAPL") CNone NoDup_header _) _);
      [vm_compute; split; congruence|vm_compute; reflexivity].
  - destruct (Hpos 7) as (_ & _ & Hin).
    refine (eq_trans (Hin (values_of "2023-01-15" "Buy" "AAPL") CNone NoDup_header _) _);
      [vm_compute; split; congruence|vm_compute; reflexivity].
  - destruct (Hpos 11) as (Hout & _ & _).
    apply Hout. right. vm_compute. congruence.
Defined.

Lemma constructed_currency_clean_witness :
  let row := row_of (payout_of "01/15/2023" "Dividend" "AAPL") in
  let record :=
    DividendRecord
      (mk_Dividend "2023-01-15" "AAPL" (decimal_float.Finite false 123456 (-2)) "USD") in
  nonempty (record_currency record) = true
  /\ trimmed (record_currency record)
  /\ (record_currency record = "USD"
      \/ record_currency record
         = strip (str (get_cell_value row (table []) 6 (CStr EmptyString)))).
Proof.
  intros row record.
  apply (constructed_currency_clean row (table []) record).
  apply by_dividend with (symbol := None). vm_compute. reflexivity.
Defined.

End cell_properties.

(* ------------------------------------------------------------------ *)
(** ** What a file and a job account for *)

Module orchestrator_accounting.
Import pystr pyexcept pandas date_utils models categorizer transformer merger orchestrator.
Import calendar keyed merge_notions orchestrator_notions accounting_notions.
Import calendar_facts keyed_facts sorting_facts merger_facts orchestrator_facts examples.
Import orchestrator_properties.

Section with_transaction.
Context {T : Type} `{Transaction T}.

Lemma fold_merge_sorted (bs : list (list T)) acc :
  canonical_dates acc -> key_sorted dkey acc ->
  Forall canonical_dates bs -> Forall (key_sorted dkey) bs ->
  key_sorted dkey (fold_left merge_transactions bs acc).
Proof.
  revert acc. induction bs as [|b bs IH]; intros acc Ca Sa Cb Sb; [assumption|].
  inversion Cb; subst. inversion Sb; subst. cbn.
  apply IH; try assumption.
  - now apply canonical_merge.
  - rewrite merge_transactions_zmerge by assumption. now apply zmerge_sorted.
Qed.

End with_transaction.

Section with_loader.
Context {float : Type} `{PyFloat float}.
Variable load_file : string -> string -> DataFrame float + string.

(** X15.  [validate_dataframe] accepts a loaded table exactly when it has a
    row and a column.  The one message it gives is that the file is empty:
    a table with rows and no column gets that message too, and the message
    about columns is never given. *)
Theorem validate_dataframe_messages (df : DataFrame float) (filename : string) :
  (validate_dataframe df filename = (true, None)
   <-> values df <> [] /\ columns df <> [])
  /\ (validate_dataframe df filename = (true, None)
      \/ validate_dataframe df filename = (false, Some (empty_file filename))).
Proof.
  unfold validate_dataframe, empty, empty_file.
  destruct (values df) as [|r rs], (columns df) as [|c cs]; cbn.
  all: split; [split; [discriminate || (intros _; split; discriminate)
                      |intros [Hv Hc]; congruence]
              |auto].
Qed.

Lemma process_row_uncategorized filename df st item :
  process_row filename df None st item = st.
Proof. now destruct item. Qed.

Lemma fold_process_row_uncategorized filename df items st :
  fold_left (process_row filename df None) items st = st.
Proof.
  revert st. induction items as [|item items IH]; intros st; [reflexivity|].
  cbn [fold_left]. now rewrite process_row_uncategorized.
Qed.

(** X16.  A table in which no transaction type column is found yields no
    record at all, whatever its rows hold, and one diagnostic that lists
    its columns. *)
Theorem process_rows_without_type_column filename (df : DataFrame float) errors :
  find_transaction_type_column df = Return None ->
  process_rows filename df errors
  = Return (mk_file_state [] [] [] [] [] (errors ++ [no_type_column filename df])).
Proof.
  intros E. unfold process_rows, process_rows_of. rewrite E. cbn [bind].
  rewrite fold_process_row_uncategorized. reflexivity.
Qed.




Lemma contribution_sorted directory f st :
  file_contribution load_file directory f = Return st ->
  sorted_by_text (file_purchases st) /\ sorted_by_text (file_sales st)
  /\ sorted_by_text (file_dividends st) /\ sorted_by_text (file_taxes st)
  /\ sorted_by_text (file_transfers st).
Proof.
  unfold file_contribution.
  destruct (load_file directory f) as [df|error].
  - destruct (validate_dataframe df f) as [[|] e].
    + unfold process_rows.
      destruct (find_transaction_type_column df) as [col|e']; [|discriminate].
      cbn [bind]. intros [= <-]. unfold process_rows_of.
      cbn [file_purchases file_sales file_dividends file_taxes file_transfers].
      repeat split; apply sort_by_sorted.
    + intros [= <-]. repeat split; constructor.
  - intros [= <-]. repeat split; constructor.
Qed.

(** X18.  Whatever the dates are, each of the five lists a file contributes
    is in non-decreasing order of the texts of its dates; when the dates of
    the file are zero-padded texts of calendar days, that is the order of
    the dates. *)
Theorem file_contribution_sorted directory f st :
  file_contribution load_file directory f = Return st ->
  (sorted_by_text (file_purchases st) /\ sorted_by_text (file_sales st)
   /\ sorted_by_text (file_dividends st) /\ sorted_by_text (file_taxes st)
   /\ sorted_by_text (file_transfers st))
  /\ (canonical_file load_file directory f ->
      sorted_by_date (file_purchases st) /\ sorted_by_date (file_sales st)
      /\ sorted_by_date (file_dividends st) /\ sorted_by_date (file_taxes st)
      /\ sorted_by_date (file_transfers st)).
Proof.
  intros Ef. pose proof (contribution_sorted directory f st Ef) as Hs.
  split; [exact Hs|]. intros Hcan.
  destruct Hs as (S1 & S2 & S3 & S4 & S5).
  unfold canonical_file in Hcan. rewrite Ef in Hcan. cbn [stamps_of] in Hcan.
  pose proof (proj1 (Forall_forall _ _) Hcan) as Hall. cbn beta in Hall.
  assert (text_to_date : forall (T : Type) (TT : Transaction T) (l : list T),
             canonical_dates l -> sorted_by_text l -> sorted_by_date l).
  { intros T TT l Hc Hl. apply sorted_by_date_key; [exact Hc|].
    now apply sorted_by_text_key. }
  split; [|split; [|split; [|split]]]; apply text_to_date; try assumption;
    apply Forall_forall; intros t Ht.
  - apply (Hall ("purchase", purchase_date t)). now apply stamps_in_purchases.
  - apply (Hall ("sale", sale_date t)). now apply stamps_in_sales.
  - apply (Hall ("dividend", dividend_date t)). now apply stamps_in_dividends.
  - apply (Hall ("tax", tax_date t)). now apply stamps_in_taxes.
  - apply (Hall ("transfer", transfer_date t)). now apply stamps_in_transfers.
Qed.

Lemma sorted_fold_of_kind {T : Type} `{Transaction T} (kind : string)
    (part : file_state float -> list T) directory files sts :
  (forall st t, In t (part st) -> In (kind, get_transaction_date t) (stamps st)) ->
  (forall f st, file_contribution load_file directory f = Return st ->
                sorted_by_text (part st)) ->
  contributions load_file directory files = Return sts ->
  (forall f, In f files -> canonical_file load_file directory f) ->
  sorted_by_date (fold_left merge_transactions (map part sts) []).
Proof.
  intros Hstamp Hsorted Es Hcan.
  assert (Hcf : forall st, In st sts -> canonical_dates (part st) /\ sorted_by_text (part st)).
  { intros st Hst.
    destruct (proj2 (contributions_in load_file directory files sts Es) st Hst)
      as (f & Hf & Ef).
    split; [|exact (Hsorted f st Ef)].
    exact (canonical_part load_file kind part directory f st Hstamp Ef (Hcan f Hf)). }
  assert (Hc : Forall canonical_dates (map part sts)).
  { apply Forall_map, Forall_forall. intros st Hst. now apply Hcf. }
  assert (Hs : Forall (key_sorted dkey) (map part sts)).
  { apply Forall_map, Forall_forall. intros st Hst.
    destruct (Hcf st Hst). now apply sorted_by_text_key. }
  apply sorted_by_date_key.
  - apply fold_merge_canonical; [constructor|exact Hc].
  - apply fold_merge_sorted; [constructor|constructor|exact Hc|exact Hs].
Qed.

(** X19.  When every record of every file of a job has the zero-padded text
    of a calendar day for its date, each of the five sequences of the
    result is in non-decreasing date order. *)
Theorem parse_job_sorted (directory job : string) (files : list string)
    (r : ParsedJobResult float) :
  (forall f, In f files -> canonical_file load_file directory f) ->
  parse_job load_file (new_parser job) directory files = Return r ->
  sorted_by_date (purchases r) /\ sorted_by_date (sales r)
  /\ sorted_by_date (dividends r) /\ sorted_by_date (taxes r)
  /\ sorted_by_date (transfers r).
Proof.
  intros Hcan Er.
  apply parse_job_result in Er as (sts & Es & _ & E1 & E2 & E3 & E4 & E5 & _).
  rewrite E1, E2, E3, E4, E5.
  cbn [new_parser self_purchases self_sales self_dividends self_taxes self_transfers].
  pose proof (fun f st E => contribution_sorted directory f st E) as Hs.
  split; [|split; [|split; [|split]]].
  - apply (@sorted_fold_of_kind (Purchase float) Purchase_transaction "purchase"
             (@file_purchases float) directory files sts stamps_in_purchases);
      [intros f st E; apply (Hs f st E)|exact Es|exact Hcan].
  - apply (@sorted_fold_of_kind (Sale float) Sale_transaction "sale"
             (@file_sales float) directory files sts stamps_in_sales);
      [intros f st E; apply (Hs f st E)|exact Es|exact Hcan].
  - apply (@sorted_fold_of_kind (Dividend float) Dividend_transaction "dividend"
             (@file_dividends float) directory files sts stamps_in_dividends);
      [intros f st E; apply (Hs f st E)|exact Es|exact Hcan].
  - apply (@sorted_fold_of_kind (Tax float) Tax_transaction "tax"
             (@file_taxes float) directory files sts stamps_in_taxes);
      [intros f st E; apply (Hs f st E)|exact Es|exact Hcan].
  - apply (@sorted_fold_of_kind (Transfer float) Transfer_transaction "transfer"
             (@file_transfers float) directory files sts stamps_in_transfers);
      [intros f st E; apply (Hs f st E)|exact Es|exact Hcan].
Qed.

(** X20.  A job that returns neither loses nor duplicates a record, whatever
    the dates are: each sequence of the result is a rearrangement of what
    the parser held followed by what the files contribute, and the
    diagnostics are those the parser held followed by those of the files,
    in the order of the files. *)
Theorem parse_job_keeps_records (self : PortfolioParser float) (directory : string)
    (files : list string) (r : ParsedJobResult float) :
  parse_job load_file self directory files = Return r ->
  exists sts,
    contributions load_file directory files = Return sts
    /\ Permutation (purchases r)
         (self_purchases self ++ List.concat (map (@file_purchases float) sts))
    /\ Permutation (sales r) (self_sales self ++ List.concat (map (@file_sales float) sts))
    /\ Permutation (dividends r)
         (self_dividends self ++ List.concat (map (@file_dividends float) sts))
    /\ Permutation (taxes r) (self_taxes self ++ List.concat (map (@file_taxes float) sts))
    /\ Permutation (transfers r)
         (self_transfers self ++ List.concat (map (@file_transfers float) sts))
    /\ errors r = self_errors self ++ List.concat (map (@row_errors float) sts)
    /\ jobId r = job_id self.
Proof.
  intros Er.
  apply parse_job_result in Er as (sts & Es & Ej & E1 & E2 & E3 & E4 & E5 & Ee).
  exists sts. split; [exact Es|].
  rewrite E1, E2, E3, E4, E5.
  repeat (split; [apply fold_merge_concat|]).
  split; [exact Ee|exact Ej].
Qed.

End with_loader.

#[local] Existing Instance decimal_float.decimal_PyFloat.

Lemma process_rows_without_type_column_witness :
  process_rows "cash.csv" untyped_table []
  = Return
      (mk_file_state [] [] [] [] []
         ["File cash.csv: Could not find transaction type column. Available columns: ['Date', 'Amount']"]).
Proof.
  refine (eq_trans (process_rows_without_type_column "cash.csv" untyped_table [] _) _);
    vm_compute; reflexivity.
Defined.


Lemma file_contribution_sorted_witness :
  exists st,
    file_contribution load_file "/uploads" "aapl.csv" = Return st
    /\ sorted_by_date (file_purchases st).
Proof.
  destruct (file_contribution load_file "/uploads" "aapl.csv") as [st|e] eqn:Est;
    [|vm_compute in Est; discriminate].
  exists st. split; [reflexivity|].
  apply (proj2 (file_contribution_sorted load_file "/uploads" "aapl.csv" st Est)).
  unfold canonical_file.
  apply Forall_forall; intros stamp Hin;
    vm_compute in Hin; destruct Hin as [<-|[]]; vm_compute; reflexivity.
Defined.

Lemma parse_job_sorted_witness :
  exists r,
    parse_job load_file (new_parser "job") "/uploads" ["later.csv"; "aapl.csv"; "msft.csv"]
    = Return r
    /\ sorted_by_date (purchases r).
Proof.
  destruct (parse_job load_file (new_parser "job") "/uploads"
              ["later.csv"; "aapl.csv"; "msft.csv"]) as [r|e] eqn:Er;
    [|vm_compute in Er; discriminate].
  exists r. split; [reflexivity|].
  apply (parse_job_sorted load_file "/uploads" "job"
           ["later.csv"; "aapl.csv"; "msft.csv"] r); [|exact Er].
  intros f [<-|[<-|[<-|[]]]]; apply Forall_forall; intros stamp Hin;
    vm_compute in Hin; destruct Hin as [<-|[]]; vm_compute; reflexivity.
Defined.

Lemma parse_job_keeps_records_witness :
  exists r,
    parse_job load_file (new_parser "job") "/uploads" ["aapl.csv"; "missing.csv"] = Return r
    /\ errors r = ["File missing.csv failed to load: File not found: missing.csv"]
    /\ jobId r = "job".
Proof.
  destruct (parse_job load_file (new_parser "job") "/uploads" ["aapl.csv"; "missing.csv"])
    as [r|e] eqn:Er; [|vm_compute in Er; discriminate].
  destruct (parse_job_keeps_records load_file (new_parser "job") "/uploads"
              ["aapl.csv"; "missing.csv"] r Er)
    as (sts & Es & _ & _ & _ & _ & _ & Ee & Ej).
  exists r. split; [reflexivity|]. split; [|exact Ej].
  rewrite Ee. vm_compute in Es. injection Es as <-. reflexivity.
Defined.

End orchestrator_accounting.

(* ------------------------------------------------------------------ *)
(** ** More properties of the categorizer *)

Module categorizer_more.
Import pystr pyexcept pandas categorizer categorizer_notions orchestrator_notions text_notions.
Import string_facts orchestrator_facts cell_properties examples.

Lemma prefix_inv s t : String.prefix s t = true -> exists post, t = (s ++ post)%string.
Proof.
  revert t. induction s as [|c s IH]; intros t.
  - intros _. now exists t.
  - destruct t as [|c' t]; cbn; [discriminate|].
    destruct (ascii_dec c c') as [<-|]; [|discriminate].
    intros Hp. destruct (IH t Hp) as (post & ->). now exists post.
Qed.

Lemma contains_inv needle t :
  contains needle t = true -> exists pre post, t = (pre ++ needle ++ post)%string.
Proof.
  induction t as [|c t IH]; cbn [contains].
  - rewrite orb_false_r. intros Hp. apply prefix_inv in Hp as (post & E).
    exists EmptyString, post. exact E.
  - intros Hc. apply orb_true_iff in Hc as [Hp|Hc].
    + apply prefix_inv in Hp as (post & E). exists EmptyString, post. exact E.
    + destruct (IH Hc) as (pre & post & ->). now exists (String c pre), post.
Qed.

Lemma append_assoc (a b c : string) : ((a ++ b) ++ c = a ++ (b ++ c))%string.
Proof. induction a as [|x a IH]; cbn; [reflexivity|now rewrite IH]. Qed.

(** A text that contains a keyword contains every part of it. *)
Lemma contains_part before part after t :
  contains (before ++ part ++ after) t = true -> contains part t = true.
Proof.
  intros Hc. apply contains_inv in Hc as (pre & post & ->).
  replace (pre ++ (before ++ part ++ after) ++ post)%string
    with ((pre ++ before) ++ part ++ (after ++ post))%string
    by (now rewrite !append_assoc).
  apply contains_app.
Qed.

(** X11.  Four keywords never decide a category, because a text that holds
    one of them holds a shorter keyword of the same list: ExecutedBuy holds
    Buy, ExecutedSell holds Sell, Foreign Tax holds Tax and Cash Handling
    Fee holds Fee. *)
Theorem redundant_keywords (text : string) :
  any_keyword PURCHASE_KEYWORDS text = any_keyword ["Buy"; "Purchase"] text
  /\ any_keyword SALE_KEYWORDS text = any_keyword ["Sell"; "Sale"] text
  /\ any_keyword TAX_KEYWORDS text = any_keyword ["Withholding"; "Tax"] text
  /\ any_keyword FEE_KEYWORDS text = any_keyword ["Fee"; "Handling"] text.
Proof.
  pose proof (contains_part "executed" "buy" "" text) as Hbuy.
  change (contains (lower "ExecutedBuy") text = true -> contains (lower "Buy") text = true)
    in Hbuy.
  pose proof (contains_part "executed" "sell" "" text) as Hsell.
  change (contains (lower "ExecutedSell") text = true -> contains (lower "Sell") text = true)
    in Hsell.
  pose proof (contains_part "foreign " "tax" "" text) as Htax.
  change (contains (lower "Foreign Tax") text = true -> contains (lower "Tax") text = true)
    in Htax.
  pose proof (contains_part "cash handling " "fee" "" text) as Hfee.
  change (contains (lower "Cash Handling Fee") text = true
          -> contains (lower "Fee") text = true) in Hfee.
  unfold any_keyword, PURCHASE_KEYWORDS, SALE_KEYWORDS, TAX_KEYWORDS, FEE_KEYWORDS.
  cbn [existsb]. rewrite !orb_false_r.
  repeat split.
  - destruct (contains (lower "ExecutedBuy") text); [|now rewrite !orb_false_r].
    now rewrite Hbuy.
  - destruct (contains (lower "ExecutedSell") text); [|now rewrite !orb_false_r].
    now rewrite Hsell.
  - destruct (contains (lower "Foreign Tax") text); [|now rewrite !orb_false_r].
    rewrite Htax by reflexivity. now rewrite !orb_true_r.
  - destruct (contains (lower "Cash Handling Fee") text); [|reflexivity].
    now rewrite Hfee.
Qed.

Section with_float.
Context {float : Type} `{PyFloat float}.

(** X12.  The category of a row does not depend on the case of the text of
    its type cell nor on the white space around it. *)
Theorem categorize_transaction_ignores_case (row1 row2 : Series float) col v1 v2 :
  get row1 (LText col) = Some v1 -> get row2 (LText col) = Some v2 ->
  strip (lower (str v1)) = strip (lower (str v2)) ->
  categorize_transaction row1 (Some col) = categorize_transaction row2 (Some col).
Proof.
  intros E1 E2 E. unfold categorize_transaction.
  now rewrite E1, E2, !strip_lower, E.
Qed.

Lemma original_of_some x cols c :
  original_of x (map lower cols) cols = Some c -> In c cols /\ lower c = x.
Proof.
  induction cols as [|o cols IH]; cbn; [discriminate|].
  destruct (String.eqb_spec (lower o) x) as [E|_].
  - intros [= <-]. split; [now left|exact E].
  - intros Hc. destruct (IH Hc). split; [now right|assumption].
Qed.

Lemma original_of_none x cols :
  original_of x (map lower cols) cols = None -> ~ In x (map lower cols).
Proof.
  induction cols as [|o cols IH]; cbn; [tauto|].
  destruct (String.eqb_spec (lower o) x) as [E|Hne]; [discriminate|].
  intros Hc [E|Hin]; [contradiction|now apply IH].
Qed.

Lemma existsb_eqb x l : existsb (String.eqb x) l = true <-> In x l.
Proof.
  rewrite existsb_exists. split.
  - intros (y & Hy & E). apply String.eqb_eq in E. now subst.
  - intros Hx. exists x. split; [exact Hx|apply String.eqb_refl].
Qed.

Lemma existsb_label_eqb (x : label) l : existsb (label_eqb x) l = true <-> In x l.
Proof.
  rewrite existsb_exists. split.
  - intros (y & Hy & E). destruct (label_eqb_spec x y); [now subst|discriminate].
  - intros Hx. exists x. split; [exact Hx|apply label_eqb_refl].
Qed.

Lemma text_labels_inv (cols : list label) :
  match text_labels cols with
  | Return texts => cols = map LText texts
  | Raise e => e = no_lower /\ exists n, In (LInt n) cols
  end.
Proof.
  induction cols as [|[s|n] cols IH]; cbn; [reflexivity| |].
  - destruct (text_labels cols) as [texts|e]; cbn [bind].
    + now rewrite IH.
    + destruct IH as (-> & n & Hn). split; [reflexivity|]. exists n. now right.
  - split; [reflexivity|]. exists n. now left.
Qed.

Lemma in_map_LText c texts : In (LText c) (map LText texts) <-> In c texts.
Proof.
  rewrite in_map_iff. split.
  - now intros (x & [= ->] & Hx).
  - intros Hc. now exists c.
Qed.

Lemma labels_are_texts_map texts :
  forallb (fun l => match l with LText _ => true | LInt _ => false end) (map LText texts)
  = true.
Proof. induction texts as [|t texts IH]; [reflexivity|exact IH]. Qed.

(** X13.  The lookup of the type column returns when the labels of the
    table are texts or one of them is spelled exactly like a candidate,
    and only then: otherwise the [AttributeError] of [lower] on a number
    leaves it.  The column it returns is a column of the table whose name
    is one of the candidates up to case; a column spelled exactly like a
    candidate is preferred; and it returns no column exactly when the
    labels are texts and none is a candidate up to case. *)
Theorem find_transaction_type_column_found (df : DataFrame float) :
  (returns (find_transaction_type_column df) = true
   <-> labels_are_texts df = true
       \/ exists name, In name possible_names /\ In (LText name) (columns df))
  /\ match find_transaction_type_column df with
     | Return (Some c) =>
         In (LText c) (columns df) /\ In (lower c) (map lower possible_names)
         /\ ((exists name, In name possible_names /\ In (LText name) (columns df)) ->
             In c possible_names)
     | Return None =>
         labels_are_texts df = true
         /\ forall c, In (LText c) (columns df) ->
                      ~ In (lower c) (map lower possible_names)
     | Raise e => e = AttributeError "'int' object has no attribute 'lower'"
     end.
Proof.
  unfold find_transaction_type_column, labels_are_texts.
  destruct (find (fun name => existsb (label_eqb (LText name)) (columns df)) possible_names)
    as [name|] eqn:E1.
  - apply find_some in E1 as [Hin Hex]. apply existsb_label_eqb in Hex. split.
    + split; [intros _; right; eauto|reflexivity].
    + split; [exact Hex|]. split; [now apply in_map|]. intros _. exact Hin.
  - assert (Hno : forall name, In name possible_names -> ~ In (LText name) (columns df)).
    { intros name Hp Hc. pose proof (find_none _ _ E1 name Hp) as Hf. cbn beta in Hf.
      apply not_true_iff_false in Hf. apply Hf. now apply existsb_label_eqb. }
    pose proof (text_labels_inv (columns df)) as Ht.
    destruct (text_labels (columns df)) as [texts|e]; cbn [bind].
    + rewrite Ht. pose proof (labels_are_texts_map texts) as Hall.
      destruct (find (fun name => existsb (String.eqb (lower name)) (map lower texts))
                  possible_names) as [name|] eqn:E2.
      * split; [split; [intros _; now left|reflexivity]|].
        apply find_some in E2 as [Hin Hex]. apply existsb_eqb in Hex.
        destruct (original_of (lower name) (map lower texts) texts) as [c|] eqn:E3.
        -- apply original_of_some in E3 as [Hc El].
           split; [now apply in_map_LText|]. split; [rewrite El; now apply in_map|].
           intros (exact & Hp & Hcol). rewrite <- Ht in Hcol. elim (Hno exact Hp Hcol).
        -- apply original_of_none in E3. contradiction.
      * split; [split; [intros _; now left|reflexivity]|].
        split; [exact Hall|].
        intros c Hc Hl. apply in_map_LText in Hc.
        apply in_map_iff in Hl as (name & El & Hp).
        pose proof (find_none _ _ E2 name Hp) as Hf. cbn beta in Hf.
        apply not_true_iff_false in Hf. apply Hf, existsb_eqb.
        rewrite El. now apply in_map.
    + destruct Ht as (-> & n & Hn). split; [|reflexivity].
      split; [discriminate|]. intros [Hall|(name & Hp & Hc)].
      * rewrite forallb_forall in Hall. specialize (Hall (LInt n) Hn). discriminate.
      * elim (Hno name Hp Hc).
Qed.

Lemma first_symbol_source (row : Series float) cols s :
  first_symbol row cols = Some s ->
  exists label value,
    get row label = Some value /\ isna value = false /\ s = strip (str value).
Proof.
  induction cols as [|col cols IH]; cbn; [discriminate|].
  destruct (get row (LText col)) as [v|] eqn:E; [|exact IH].
  destruct (isna v) eqn:En; cbn [negb]; [exact IH|].
  intros [= <-]. now exists (LText col), v.
Qed.

(** X14.  [get_company_symbol_for_dividend] returns nothing for a row without
    the type column; when the cell right after the type column is not
    missing it returns the trimmed text of that cell; and a symbol it
    returns is always the trimmed text of a cell of the row that is not
    missing, with no white space around it. *)
Theorem get_company_symbol_for_dividend_source (row : Series float) (col : string) :
  (has_label (LText col) row = false -> get_company_symbol_for_dividend row col = None)
  /\ (forall next_col value,
         has_label (LText col) row = true ->
         next_label (index row) (LText col) = Some next_col ->
         get row next_col = Some value -> isna value = false ->
         get_company_symbol_for_dividend row col = Some (strip (str value)))
  /\ (forall symbol,
         get_company_symbol_for_dividend row col = Some symbol ->
         trimmed symbol
         /\ exists label value,
             get row label = Some value /\ isna value = false
             /\ symbol = strip (str value)).
Proof.
  split; [|split].
  - intros E. unfold get_company_symbol_for_dividend. now rewrite E.
  - intros next_col value Hl Hn Hg Hna. unfold get_company_symbol_for_dividend.
    now rewrite Hl, Hn, Hg, Hna.
  - intros symbol. unfold get_company_symbol_for_dividend.
    destruct (has_label (LText col) row); cbn [negb]; [|discriminate].
    destruct (next_label (index row) (LText col)) as [next_col|].
    + destruct (get row next_col) as [v|] eqn:E.
      * destruct (isna v) eqn:En; cbn [negb].
        -- intros Hf. destruct (first_symbol_source _ _ _ Hf) as (l & w & E1 & E2 & ->).
           split; [apply strip_strip|]. now exists l, w.
        -- intros [= <-]. split; [apply strip_strip|]. now exists next_col, v.
      * intros Hf. destruct (first_symbol_source _ _ _ Hf) as (l & w & E1 & E2 & ->).
        split; [apply strip_strip|]. now exists l, w.
    + intros Hf. destruct (first_symbol_source _ _ _ Hf) as (l & w & E1 & E2 & ->).
      split; [apply strip_strip|]. now exists l, w.
Qed.

End with_float.

#[local] Existing Instance decimal_float.decimal_PyFloat.

Lemma categorize_transaction_ignores_case_witness :
  categorize_transaction (row_of (values_of "2023-01-15" " BUY " "AAPL"))
    (Some "Transaction Type")
  = categorize_transaction (row_of (values_of "2023-01-15" "buy" "AAPL"))
      (Some "Transaction Type").
Proof.
  apply (categorize_transaction_ignores_case _ _ "Transaction Type"
           (CStr " BUY ") (CStr "buy")); vm_compute; reflexivity.
Defined.

Lemma get_company_symbol_for_dividend_source_witness :
  get_company_symbol_for_dividend
    (row_of (payout_of "2023-01-15" "Dividend" " AAPL ")) "Transaction Type"
  = Some "AAPL".
Proof.
  refine (eq_trans
            (proj1 (proj2 (get_company_symbol_for_dividend_source
                             (row_of (payout_of "2023-01-15" "Dividend" " AAPL "))
                             "Transaction Type"))
               (LText "Company") (CStr " AAPL ") _ _ _ _) _);
    vm_compute; reflexivity.
Defined.

End categorizer_more.



(* ------------------------------------------------------------------ *)
(** ** Properties of [to_dict] *)

Module models_properties.
Import models models_dict orchestrator examples.

Section with_float.
Context {float : Type} `{PyFloat float}.

Lemma map_injective {A B : Type} (f : A -> B) :
  (forall x y, f x = f y -> x = y) ->
  forall l1 l2, map f l1 = map f l2 -> l1 = l2.
Proof.
  intros Hf. induction l1 as [|x l1 IH]; intros [|y l2]; cbn; try discriminate.
  - reflexivity.
  - intros [= E1 E2]. f_equal; [now apply Hf|now apply IH].
Qed.

Lemma optional_float_injective (x y : option float) :
  optional_float x = optional_float y -> x = y.
Proof. destruct x, y; cbn; congruence. Qed.

Lemma optional_str_injective (x y : option string) :
  optional_str (float := float) x = optional_str y -> x = y.
Proof. destruct x, y; cbn; congruence. Qed.

Lemma Purchase_to_dict_injective (a b : Purchase float) :
  Purchase_to_dict a = Purchase_to_dict b -> a = b.
Proof.
  destruct a, b. unfold Purchase_to_dict. cbn.
  intros [= -> -> -> -> -> E1 E2 E3].
  apply optional_float_injective in E1, E2, E3. now subst.
Qed.

Lemma Sale_to_dict_injective (a b : Sale float) :
  Sale_to_dict a = Sale_to_dict b -> a = b.
Proof.
  destruct a, b. unfold Sale_to_dict. cbn.
  intros [= -> -> -> -> -> E1 E2 E3].
  apply optional_float_injective in E1, E2, E3. now subst.
Qed.

Lemma Dividend_to_dict_injective (a b : Dividend float) :
  Dividend_to_dict a = Dividend_to_dict b -> a = b.
Proof. destruct a, b. unfold Dividend_to_dict. cbn. now intros [= -> -> -> ->]. Qed.

Lemma Tax_to_dict_injective (a b : Tax float) :
  Tax_to_dict a = Tax_to_dict b -> a = b.
Proof.
  destruct a, b. unfold Tax_to_dict. cbn. intros [= -> E -> ->].
  apply optional_str_injective in E. now subst.
Qed.

Lemma Transfer_to_dict_injective (a b : Transfer float) :
  Transfer_to_dict a = Transfer_to_dict b -> a = b.
Proof. destruct a, b. unfold Transfer_to_dict. cbn. now intros [= -> -> -> ->]. Qed.

(** X21.  [to_dict] loses nothing: two results with the same dictionary are
    the same result, and the dictionary of a result holds each of its
    sequences in full, under the key of its kind. *)
Theorem to_dict_faithful :
  (forall a b : ParsedJobResult float,
      ParsedJobResult_to_dict a = ParsedJobResult_to_dict b -> a = b)
  /\ (forall r : ParsedJobResult float,
         let d := ParsedJobResult_to_dict r in
         item d "jobId" = Some (PStr (jobId r))
         /\ len (item d "purchases") = Some (List.length (purchases r))
         /\ len (item d "sales") = Some (List.length (sales r))
         /\ len (item d "dividends") = Some (List.length (dividends r))
         /\ len (item d "taxes") = Some (List.length (taxes r))
         /\ len (item d "transfers") = Some (List.length (transfers r))
         /\ len (item d "errors") = Some (List.length (errors r))).
Proof.
  split.
  - intros a b. destruct a, b. unfold ParsedJobResult_to_dict. cbn.
    intros [= -> E1 E2 E3 E4 E5 E6].
    apply (map_injective _ Purchase_to_dict_injective) in E1.
    apply (map_injective _ Sale_to_dict_injective) in E2.
    apply (map_injective _ Dividend_to_dict_injective) in E3.
    apply (map_injective _ Tax_to_dict_injective) in E4.
    apply (map_injective _ Transfer_to_dict_injective) in E5.
    apply (map_injective PStr) in E6; [|now intros x y [= ->]].
    now subst.
  - intros r. cbv zeta. cbn. rewrite !length_map. repeat split.
Qed.

End with_float.
End models_properties.

(* ------------------------------------------------------------------ *)
(** ** The records of a job, row by row *)

Module row_properties.
Import pystr pyexcept pandas date_utils models categorizer transformer merger orchestrator.
Import calendar keyed merge_notions orchestrator_notions accounting_notions row_notions.
Import calendar_facts keyed_facts sorting_facts merger_facts orchestrator_facts examples.
Import orchestrator_properties.

Lemma picks_app {A B : Type} (f : A -> option B) l1 l2 :
  picks f (l1 ++ l2) = picks f l1 ++ picks f l2.
Proof.
  induction l1 as [|x l1 IH]; cbn; [reflexivity|].
  destruct (f x); cbn; now rewrite IH.
Qed.

Lemma in_picks {A B : Type} (f : A -> option B) l y :
  In y (picks f l) <-> exists x, In x l /\ f x = Some y.
Proof.
  induction l as [|x l IH]; cbn.
  - split; [contradiction|now intros (x & [] & _)].
  - destruct (f x) as [z|] eqn:E; cbn; rewrite IH; split.
    + intros [<-|(x' & Hx & Ex)]; [now exists x; auto|exists x'; auto].
    + intros (x' & [<-|Hx] & Ex); [left; congruence|right; now exists x'].
    + intros (x' & Hx & Ex). exists x'; auto.
    + intros (x' & [<-|Hx] & Ex); [congruence|now exists x'].
Qed.

Section with_loader.
Context {float : Type} `{PyFloat float}.
Variable load_file : string -> string -> DataFrame float + string.

Lemma process_row_collected filename df col st item :
  process_row filename df col st item = collected filename df col st [item].
Proof.
  unfold process_row, collected. destruct item as [idx row]. cbn [picks snd].
  unfold failure_of_row, purchase_of_row, sale_of_row, dividend_of_row, tax_of_row,
    transfer_of_row, symbol_of_row, record_of, diagnostic_of.
  destruct (categorize_transaction row col) as [[]|];
    repeat match goal with
           | |- context [match ?x with Return _ => _ | Raise _ => _ end] =>
               destruct x as [[?|]|?]
           end;
    cbn; rewrite ?app_nil_r; try reflexivity; destruct st; reflexivity.
Qed.

Lemma fold_process_row_collected filename df col items st :
  fold_left (process_row filename df col) items st = collected filename df col st items.
Proof.
  revert st. induction items as [|item items IH]; intros st.
  - unfold collected. cbn. rewrite !app_nil_r. now destruct st.
  - cbn [fold_left]. rewrite IH, process_row_collected.
    unfold collected. cbn [file_purchases file_sales file_dividends file_taxes
      file_transfers row_errors].
    rewrite <- !app_assoc, <- !picks_app. reflexivity.
Qed.

Lemma process_rows_of_parts filename (df : DataFrame float) col errors :
  let rows := iterrows df in
  let st := process_rows_of filename df col errors in
  file_purchases st
  = sort_by purchase_date (picks (fun item => purchase_of_row df col (snd item)) rows)
  /\ file_sales st
     = sort_by sale_date (picks (fun item => sale_of_row df col (snd item)) rows)
  /\ file_dividends st
     = sort_by dividend_date (picks (fun item => dividend_of_row df col (snd item)) rows)
  /\ file_taxes st
     = sort_by tax_date (picks (fun item => tax_of_row df col (snd item)) rows)
  /\ file_transfers st
     = sort_by transfer_date (picks (fun item => transfer_of_row df col (snd item)) rows).
Proof.
  cbv zeta. unfold process_rows_of. rewrite fold_process_row_collected.
  unfold collected. cbn [file_purchases file_sales file_dividends file_taxes
    file_transfers app].
  repeat split.
Qed.

Lemma process_rows_of_errors filename (df : DataFrame float) col errors :
  row_errors (process_rows_of filename df col errors)
  = errors
    ++ match col with
       | None => [no_type_column filename df]
       | Some _ => []
       end
    ++ picks (failure_of_row filename df col) (iterrows df).
Proof.
  unfold process_rows_of. rewrite fold_process_row_collected.
  unfold collected. cbn [row_errors].
  destruct col; [reflexivity|].
  now rewrite <- app_assoc.
Qed.


Lemma in_sort_by {A : Type} (key : A -> string) l x : In x (sort_by key l) <-> In x l.
Proof.
  split; apply Permutation_in; [apply sort_by_perm|symmetry; apply sort_by_perm].
Qed.

(** What a file that loads and is valid contributes. *)
Lemma file_contribution_rows directory f st :
  file_contribution load_file directory f = Return st ->
  (exists message, st = diagnostic_only message /\ contains f message = true)
  \/ exists df col,
       load_file directory f = inl df
       /\ fst (validate_dataframe df f) = true
       /\ find_transaction_type_column df = Return col
       /\ st = process_rows_of f df col [].
Proof.
  unfold file_contribution.
  destruct (load_file directory f) as [df|error] eqn:El;
    [|intros [= <-]; left; eexists; split; [reflexivity|apply (contains_app f "File ")]].
  destruct (validate_dataframe df f) as [[|] e] eqn:Ev;
    [|intros [= <-]; left; eexists; split; [reflexivity|apply (contains_app f "File ")]].
  unfold process_rows.
  destruct (find_transaction_type_column df) as [col|e'] eqn:Ec; [|discriminate].
  cbn [bind]. intros [= <-]. right. exists df, col.
  repeat split; [now rewrite Ev|exact Ec].
Qed.

Lemma file_contribution_of_rows directory f df col :
  load_file directory f = inl df ->
  fst (validate_dataframe df f) = true ->
  find_transaction_type_column df = Return col ->
  file_contribution load_file directory f = Return (process_rows_of f df col []).
Proof.
  intros El Ev Ec. unfold file_contribution. rewrite El.
  destruct (validate_dataframe df f) as [[|] e]; [|discriminate].
  unfold process_rows. now rewrite Ec.
Qed.

(** The records of one kind that the files of a job contribute. *)
Lemma in_contributions {X : Type} (part : file_state float -> list X)
    (key : X -> string)
    (of_row : DataFrame float -> option string -> Series float -> option X)
    directory files sts x :
  (forall message, part (diagnostic_only message) = []) ->
  (forall f df col,
      part (process_rows_of f df col [])
      = sort_by key (picks (fun item => of_row df col (snd item)) (iterrows df))) ->
  contributions load_file directory files = Return sts ->
  In x (List.concat (map part sts))
  <-> from_row_of_job load_file directory files of_row x.
Proof.
  intros Hnone Hrows Es. rewrite in_concat. unfold from_row_of_job.
  destruct (contributions_in load_file directory files sts Es) as [Hfiles Hsts]. split.
  - intros (l & Hl & Hx).
    apply in_map_iff in Hl as (st & <- & Hst).
    destruct (Hsts st Hst) as (f & Hf & Ef).
    apply file_contribution_rows in Ef
        as [(message & -> & _)|(df & col & El & Ev & Ec & ->)];
      [now rewrite Hnone in Hx|].
    rewrite Hrows, in_sort_by, in_picks in Hx.
    destruct Hx as ([idx row] & Hin & E).
    exists f, df, col, idx, row. auto 6.
  - intros (f & df & col & idx & row & Hf & El & Ev & Ec & Hin & E).
    destruct (Hfiles f Hf) as (st & Ef & Hst).
    rewrite (file_contribution_of_rows directory f df col El Ev Ec) in Ef.
    injection Ef as <-.
    exists (part (process_rows_of f df col [])). split.
    + now apply (in_map part) in Hst.
    + rewrite Hrows, in_sort_by, in_picks. now exists (idx, row).
Qed.

(** X23.  The records of the result of a job are exactly what the rows of
    its files give: a record is in a sequence of the result when, and only
    when, some row of a file of the job that loads and is valid has the
    category of the sequence and transforms to the record. *)
Theorem parse_job_records_from_rows (directory job : string) (files : list string)
    (r : ParsedJobResult float) :
  parse_job load_file (new_parser job) directory files = Return r ->
  (forall p, In p (purchases r)
             <-> from_row_of_job load_file directory files purchase_of_row p)
  /\ (forall s, In s (sales r)
                <-> from_row_of_job load_file directory files sale_of_row s)
  /\ (forall d, In d (dividends r)
                <-> from_row_of_job load_file directory files dividend_of_row d)
  /\ (forall t, In t (taxes r)
                <-> from_row_of_job load_file directory files tax_of_row t)
  /\ (forall t, In t (transfers r)
                <-> from_row_of_job load_file directory files transfer_of_row t).
Proof.
  intros Er.
  apply parse_job_result in Er as (sts & Es & _ & E1 & E2 & E3 & E4 & E5 & _).
  rewrite E1, E2, E3, E4, E5.
  cbn [new_parser self_purchases self_sales self_dividends self_taxes self_transfers].
  assert (Hin : forall (T : Type) (TT : Transaction T) (bs : list (list T)) x,
             In x (fold_left merge_transactions bs []) <-> In x (List.concat bs)).
  { intros T TT bs x.
    split; apply Permutation_in;
      [apply (fold_merge_concat bs [])|symmetry; apply (fold_merge_concat bs [])]. }
  split; [|split; [|split; [|split]]]; intros x; rewrite Hin.
  - apply (in_contributions (@file_purchases float) purchase_date);
      [reflexivity|intros f df col; apply (process_rows_of_parts f df col [])|exact Es].
  - apply (in_contributions (@file_sales float) sale_date);
      [reflexivity|intros f df col; apply (process_rows_of_parts f df col [])|exact Es].
  - apply (in_contributions (@file_dividends float) dividend_date);
      [reflexivity|intros f df col; apply (process_rows_of_parts f df col [])|exact Es].
  - apply (in_contributions (@file_taxes float) tax_date);
      [reflexivity|intros f df col; apply (process_rows_of_parts f df col [])|exact Es].
  - apply (in_contributions (@file_transfers float) transfer_date);
      [reflexivity|intros f df col; apply (process_rows_of_parts f df col [])|exact Es].
Qed.

Lemma diagnostic_of_names_file {A : Type} filename idx what (x : result (option A)) message :
  diagnostic_of filename idx what x = Some message ->
  contains filename message = true.
Proof.
  destruct x as [[r|]|e]; cbn; [discriminate| |]; intros [= <-].
  - unfold row_failure. apply (contains_app filename "File ").
  - unfold row_error. apply (contains_app filename "File ").
Qed.

Lemma failure_of_row_names_file filename (df : DataFrame float) col item message :
  failure_of_row filename df col item = Some message ->
  contains filename message = true.
Proof.
  unfold failure_of_row. destruct item as [idx row].
  destruct (categorize_transaction row col) as [[]|]; [..|discriminate];
    apply diagnostic_of_names_file.
Qed.

(** X27.  Every diagnostic of a job names a file of the job: each message
    of the error list of the result holds the name of the file it is
    about. *)
Theorem parse_job_diagnostics_name_files (directory job : string) (files : list string)
    (r : ParsedJobResult float) :
  parse_job load_file (new_parser job) directory files = Return r ->
  forall message,
    In message (errors r) ->
    exists f, In f files /\ contains f message = true.
Proof.
  intros Er message Hin.
  apply parse_job_result in Er as (sts & Es & _ & _ & _ & _ & _ & _ & Ee).
  rewrite Ee in Hin. cbn [new_parser self_errors app] in Hin.
  apply in_concat in Hin as (l & Hl & Hm).
  apply in_map_iff in Hl as (st & <- & Hst).
  destruct (proj2 (contributions_in load_file directory files sts Es) st Hst)
    as (f & Hf & Ef).
  exists f. split; [exact Hf|].
  apply file_contribution_rows in Ef as [(m & -> & Hc)|(df & col & El & Ev & Ec & ->)].
  - now destruct Hm as [<-|[]].
  - rewrite process_rows_of_errors in Hm. cbn [app] in Hm.
    apply in_app_or in Hm as [Hm|Hm].
    + destruct col; [contradiction|].
      destruct Hm as [<-|[]]. apply (contains_app f "File ").
    + apply in_picks in Hm as (item & _ & E).
      exact (failure_of_row_names_file _ _ _ _ _ E).
Qed.

End with_loader.

#[local] Existing Instance decimal_float.decimal_PyFloat.


Lemma parse_job_records_from_rows_witness :
  exists r,
    parse_job load_file (new_parser "job") "/uploads" ["aapl.csv"] = Return r
    /\ (In (mk_Purchase "2023-01-15" "AAPL" (decimal_float.of_int 10)
              (decimal_float.Finite false 1505 (-1)) "USD" None None None)
           (purchases r)
        <-> from_row_of_job load_file "/uploads" ["aapl.csv"] purchase_of_row
              (mk_Purchase "2023-01-15" "AAPL" (decimal_float.of_int 10)
                 (decimal_float.Finite false 1505 (-1)) "USD" None None None)).
Proof.
  destruct (parse_job load_file (new_parser "job") "/uploads" ["aapl.csv"]) as [r|e] eqn:Er;
    [|vm_compute in Er; discriminate].
  exists r. split; [reflexivity|].
  apply (proj1 (parse_job_records_from_rows load_file "/uploads" "job" ["aapl.csv"] r Er)).
Defined.

Lemma parse_job_diagnostics_name_files_witness :
  exists f,
    In f ["aapl.csv"; "missing.csv"]
    /\ contains f "File missing.csv failed to load: File not found: missing.csv" = true.
Proof.
  destruct (parse_job load_file (new_parser "job") "/uploads" ["aapl.csv"; "missing.csv"])
    as [r|e] eqn:Er; [|vm_compute in Er; discriminate].
  apply (parse_job_diagnostics_name_files load_file "/uploads" "job"
           ["aapl.csv"; "missing.csv"] r Er).
  vm_compute in Er. injection Er as <-. left. reflexivity.
Defined.

End row_properties.

(* ------------------------------------------------------------------ *)
(** ** Dates written without leading zeros *)

Module padding_facts.
Import pystr pydatetime pandas date_utils calendar format_notions text_notions.
Import padding_notions.
Import calendar_facts string_facts date_facts date_properties.

Lemma month_alternatives_writes {B : Type} m ms sep r (k : Z -> string -> option B) b :
  1 <= m <= 12 -> writes m ms -> sep = "/"%char \/ sep = "-"%char ->
  k m (String sep r) = Some b ->
  try_alternatives month_alternatives (ms ++ String sep r)%string k = Some b.
Proof.
  intros Hm [-> | [Hlt ->]] Hsep Hk.
  - now apply month_alternatives_pad2.
  - destruct Hsep as [-> | ->]; enum m 1 9%nat; cbn; rewrite Hk; reflexivity.
Qed.

Lemma day_alternatives_writes {B : Type} d ds sep r (k : Z -> string -> option B) b :
  1 <= d <= 31 -> writes d ds -> sep = "/"%char \/ sep = "-"%char ->
  k d (String sep r) = Some b ->
  try_alternatives day_alternatives (ds ++ String sep r)%string k = Some b.
Proof.
  intros Hd [-> | [Hlt ->]] Hsep Hk.
  - now apply day_alternatives_pad2.
  - destruct Hsep as [-> | ->]; enum d 1 9%nat; cbn; rewrite Hk; reflexivity.
Qed.

Lemma day_alternatives_writes_end {B : Type} d ds (k : Z -> string -> option B) b :
  1 <= d <= 31 -> writes d ds -> k d EmptyString = Some b ->
  try_alternatives day_alternatives ds k = Some b.
Proof.
  intros Hd [-> | [Hlt ->]] Hk.
  - exact (day_alternatives_pad2 d EmptyString k b Hd Hk).
  - enum d 1 9%nat; cbn; rewrite Hk; reflexivity.
Qed.

Lemma four_digits_second a b s : is_digit b = false ->
  four_digits (String a (String b s)) = None.
Proof.
  intros Hb. destruct s as [|c [|d s]]; [reflexivity..|].
  cbn. rewrite Hb, andb_false_r. reflexivity.
Qed.

Lemma re_match_iso_seventh a b c d e f g s : is_digit g = false ->
  re_match_iso (String a (String b (String c (String d (String e (String f
    (String g s))))))) = false.
Proof.
  intros Hg.
  do 3 (destruct s as [|? s]; [reflexivity|]).
  cbn [re_match_iso]. rewrite Hg, andb_false_r. reflexivity.
Qed.

(** The shape of a text that writes a number: one or two digits. *)
Lemma writes_shape n s :
  0 <= n <= 99 -> writes n s ->
  exists a rest, s = String (digit a) rest /\ 0 <= a <= 9
    /\ (rest = EmptyString \/ exists b, rest = String (digit b) EmptyString /\ 0 <= b <= 9).
Proof.
  intros Hn [-> | [Hlt ->]].
  - destruct (pad2_digits n Hn) as (H1 & H2 & _).
    exists (n / 10), (String (digit (n mod 10)) EmptyString).
    split; [reflexivity|]. split; [exact H1|]. right. now exists (n mod 10).
  - exists n, EmptyString. split; [reflexivity|]. split; [lia|now left].
Qed.

Lemma re_match_iso_second a b s : is_digit b = false ->
  re_match_iso (String a (String b s)) = false.
Proof.
  intros Hb.
  do 8 (destruct s as [|? s]; [reflexivity|]).
  cbn [re_match_iso]. rewrite Hb, andb_false_r. reflexivity.
Qed.

Lemma ends_clean_cons c s : s <> EmptyString -> ends_clean (String c s) = ends_clean s.
Proof. destruct s; [contradiction|reflexivity]. Qed.

Lemma ends_clean_app s t : t <> EmptyString -> ends_clean (s ++ t)%string = ends_clean t.
Proof.
  intros Ht. induction s as [|c s IH]; [reflexivity|].
  cbn [String.append]. rewrite ends_clean_cons; [exact IH|].
  destruct s; [exact Ht|discriminate].
Qed.

Lemma writes_ends_clean n s : 0 <= n <= 99 -> writes n s -> ends_clean s = true.
Proof.
  intros Hn [-> | [Hlt ->]]; cbn.
  - destruct (pad2_digits n Hn) as (_ & H2 & _). now rewrite is_space_digit.
  - now rewrite is_space_digit by lia.
Qed.

Lemma writes_nonempty n s : writes n s -> s <> EmptyString.
Proof. intros [-> | [_ ->]]; discriminate. Qed.

Lemma pad4_ends_clean y : 0 <= y <= 9999 -> ends_clean (pad4 y) = true.
Proof.
  intros Hy. destruct (pad4_digits y Hy) as (_ & _ & _ & H4 & _).
  cbn. now rewrite is_space_digit.
Qed.

Lemma is_digit_false_space c : is_digit c = true -> is_space c = false.
Proof. destruct c as [[] [] [] [] [] [] [] []]; cbn; congruence. Qed.

(** A text that starts with a written number and a separator. *)
Section led.
Variables (n : Z) (ns : string) (sep : ascii) (rest : string).
Hypothesis Hn : 0 <= n <= 99.
Hypothesis Hns : writes n ns.
Hypothesis Hsep : is_digit sep = false.

Lemma led_starts_clean : starts_clean (ns ++ String sep rest)%string = true.
Proof.
  destruct (writes_shape n ns Hn Hns) as (a & r & -> & Ha & _).
  cbn. now rewrite is_space_digit.
Qed.

Lemma led_four_digits : four_digits (ns ++ String sep rest)%string = None.
Proof.
  destruct (writes_shape n ns Hn Hns) as (a & r & -> & Ha & [-> | (b & -> & Hb)]).
  - now apply four_digits_second.
  - now apply four_digits_third.
Qed.

Lemma led_re_match_iso : re_match_iso (ns ++ String sep rest)%string = false.
Proof.
  destruct (writes_shape n ns Hn Hns) as (a & r & -> & Ha & [-> | (b & -> & Hb)]).
  - now apply re_match_iso_second.
  - now apply re_match_iso_third.
Qed.

Lemma led_wrong_separator field x ds c rest' y m d :
  field = DirM \/ field = DirD ->
  rest = String c rest' -> is_digit c = true ->
  x = "/"%char /\ sep = "-"%char ->
  match_format (field :: Lit x :: ds) (ns ++ String sep rest)%string y m d = None.
Proof.
  intros Hf -> Hc [-> ->].
  assert (Hx : forall k, is_digit k = true -> Ascii.eqb "/" k = false).
  { intros k Hk. destruct (Ascii.eqb_spec "/" k) as [<-|]; [discriminate|reflexivity]. }
  destruct (writes_shape n ns Hn Hns) as (a & r & -> & Ha & [-> | (b & -> & Hb)]).
  - apply match_format_wrong_separator; [exact Hf|reflexivity|now apply Hx].
  - apply match_format_wrong_separator; [exact Hf| |reflexivity].
    apply Hx. now apply is_digit_digit.
Qed.

End led.

End padding_facts.

Module padding_properties.
Import pystr pydatetime pandas date_utils calendar format_notions text_notions.
Import padding_notions.
Import calendar_facts string_facts date_facts date_properties padding_facts.

Lemma written_first_digit n ns :
  0 <= n <= 99 -> writes n ns -> exists c r, ns = String c r /\ is_digit c = true.
Proof.
  intros Hn Hw. destruct (writes_shape n ns Hn Hw) as (a & r & E & Ha & _).
  exists (digit a), r. split; [exact E|now apply is_digit_digit].
Qed.

Section with_date.
Variables (dt : datetime) (ms ds : string).
Hypothesis Hms : writes (month dt) ms.
Hypothesis Hds : writes (day dt) ds.

Lemma month_bounds : 0 <= month dt <= 99.
Proof. destruct (datetime_bounds dt) as (_ & ? & _). lia. Qed.

Lemma day_bounds : 0 <= day dt <= 99.
Proof. destruct (datetime_bounds dt) as (_ & _ & ?). lia. Qed.

Lemma year_bounds : 0 <= year dt <= 9999.
Proof. destruct (datetime_bounds dt) as (? & _ & _). lia. Qed.

(** Month, day, year with slashes. *)
Lemma strptime_month_day_year :
  strptime (ms ++ String "/" (ds ++ String "/" (pad4 (year dt)))) "%m/%d/%Y" = Some dt.
Proof.
  destruct (datetime_bounds dt) as (Hy & Hm & Hd).
  unfold strptime.
  change (directives "%m/%d/%Y") with [DirM; Lit "/"; DirD; Lit "/"; DirY].
  cbn [match_format].
  rewrite (month_alternatives_writes (month dt) ms "/" _ _
             (year dt, month dt, day dt, EmptyString) Hm Hms (or_introl eq_refl)).
  - apply make_datetime_fields.
  - cbn [match_format]. rewrite Ascii.eqb_refl.
    cbn [match_format].
    apply (day_alternatives_writes (day dt) ds "/" _ _ _ Hd Hds (or_introl eq_refl)).
    cbn [match_format]. rewrite Ascii.eqb_refl.
    change (pad4 (year dt)) with (pad4 (year dt) ++ EmptyString)%string.
    rewrite four_digits_pad4 by lia. reflexivity.
Qed.

(** Day, month, year with hyphens. *)
Lemma strptime_day_month_year :
  strptime (ds ++ String "-" (ms ++ String "-" (pad4 (year dt)))) "%d-%m-%Y" = Some dt.
Proof.
  destruct (datetime_bounds dt) as (Hy & Hm & Hd).
  unfold strptime.
  change (directives "%d-%m-%Y") with [DirD; Lit "-"; DirM; Lit "-"; DirY].
  cbn [match_format].
  rewrite (day_alternatives_writes (day dt) ds "-" _ _
             (year dt, month dt, day dt, EmptyString) Hd Hds (or_intror eq_refl)).
  - apply make_datetime_fields.
  - cbn [match_format]. rewrite Ascii.eqb_refl.
    cbn [match_format].
    apply (month_alternatives_writes (month dt) ms "-" _ _ _ Hm Hms (or_intror eq_refl)).
    cbn [match_format]. rewrite Ascii.eqb_refl.
    change (pad4 (year dt)) with (pad4 (year dt) ++ EmptyString)%string.
    rewrite four_digits_pad4 by lia. reflexivity.
Qed.

(** Year, month, day with a separator. *)
Lemma strptime_year_month_day fmt sep :
  sep = "/"%char \/ sep = "-"%char ->
  directives fmt = [DirY; Lit sep; DirM; Lit sep; DirD] ->
  strptime (pad4 (year dt) ++ String sep (ms ++ String sep ds)) fmt = Some dt.
Proof.
  intros Hsep Hfmt.
  destruct (datetime_bounds dt) as (Hy & Hm & Hd).
  unfold strptime. rewrite Hfmt.
  rewrite match_format_DirY, four_digits_pad4 by lia.
  cbn [match_format]. rewrite Ascii.eqb_refl. cbn [match_format].
  rewrite (month_alternatives_writes (month dt) ms sep _ _
             (year dt, month dt, day dt, EmptyString) Hm Hms Hsep).
  - apply make_datetime_fields.
  - cbn [match_format]. rewrite Ascii.eqb_refl. cbn [match_format].
    now apply (day_alternatives_writes_end (day dt) ds _ _ Hd Hds).
Qed.

Lemma ends_clean_two_parts a sa b sb c :
  b <> EmptyString -> c <> EmptyString -> ends_clean c = true ->
  ends_clean (a ++ String sa (b ++ String sb c)) = true.
Proof.
  intros Hb Hc Hclean.
  rewrite ends_clean_app by discriminate.
  rewrite ends_clean_cons by (destruct b; [contradiction|discriminate]).
  rewrite ends_clean_app by discriminate.
  now rewrite ends_clean_cons.
Qed.

Lemma ends_clean_last_part a sa b sb c :
  c <> EmptyString -> ends_clean c = true ->
  ends_clean (a ++ String sa (b ++ String sb c)) = true.
Proof.
  intros Hc Hclean.
  rewrite ends_clean_app by discriminate.
  rewrite ends_clean_cons by (destruct b; discriminate).
  rewrite ends_clean_app by discriminate.
  now rewrite ends_clean_cons.
Qed.

Section with_float.
Context {float : Type}.

Lemma parse_date_month_day_year :
  parse_date (CStr (ms ++ String "/" (ds ++ String "/" (pad4 (year dt)))) : cell float)
  = Some (strftime dt).
Proof.
  unfold parse_date.
  rewrite (led_re_match_iso _ _ "/" _ month_bounds Hms eq_refl).
  rewrite strip_clean.
  - unfold formats. cbn [try_formats].
    assert (H1 : strptime (ms ++ String "/" (ds ++ String "/" (pad4 (year dt))))
                   "%Y-%m-%d" = None).
    { unfold strptime. change (directives "%Y-%m-%d")
        with [DirY; Lit "-"; DirM; Lit "-"; DirD].
      now rewrite match_format_DirY, (led_four_digits _ _ "/" _ month_bounds Hms eq_refl). }
    now rewrite H1, strptime_month_day_year.
  - exact (led_starts_clean _ _ "/" _ month_bounds Hms).
  - apply ends_clean_last_part; [discriminate|apply pad4_ends_clean, year_bounds].
Qed.

Lemma parse_date_day_month_year :
  parse_date (CStr (ds ++ String "-" (ms ++ String "-" (pad4 (year dt)))) : cell float)
  = Some (strftime dt).
Proof.
  destruct (written_first_digit _ _ month_bounds Hms) as (c & r & Ec & Hc).
  unfold parse_date.
  rewrite (led_re_match_iso _ _ "-" _ day_bounds Hds eq_refl).
  rewrite strip_clean.
  - unfold formats. cbn [try_formats].
    set (text := (ds ++ String "-" (ms ++ String "-" (pad4 (year dt))))%string).
    assert (H1 : strptime text "%Y-%m-%d" = None).
    { unfold strptime, text. change (directives "%Y-%m-%d")
        with [DirY; Lit "-"; DirM; Lit "-"; DirD].
      now rewrite match_format_DirY, (led_four_digits _ _ "-" _ day_bounds Hds eq_refl). }
    assert (H4 : strptime text "%Y/%m/%d" = None).
    { unfold strptime, text. change (directives "%Y/%m/%d")
        with [DirY; Lit "/"; DirM; Lit "/"; DirD].
      now rewrite match_format_DirY, (led_four_digits _ _ "-" _ day_bounds Hds eq_refl). }
    assert (H2 : strptime text "%m/%d/%Y" = None).
    { unfold strptime, text. change (directives "%m/%d/%Y")
        with [DirM; Lit "/"; DirD; Lit "/"; DirY].
      rewrite (led_wrong_separator _ _ "-" _ day_bounds Hds eq_refl DirM "/" _ c
                 (r ++ String "-" (pad4 (year dt)))%string);
        [reflexivity|now left|now rewrite Ec|exact Hc|now split]. }
    assert (H3 : strptime text "%d/%m/%Y" = None).
    { unfold strptime, text. change (directives "%d/%m/%Y")
        with [DirD; Lit "/"; DirM; Lit "/"; DirY].
      rewrite (led_wrong_separator _ _ "-" _ day_bounds Hds eq_refl DirD "/" _ c
                 (r ++ String "-" (pad4 (year dt)))%string);
        [reflexivity|now right|now rewrite Ec|exact Hc|now split]. }
    rewrite H1, H2, H3, H4. unfold text. now rewrite strptime_day_month_year.
  - exact (led_starts_clean _ _ "-" _ day_bounds Hds).
  - apply ends_clean_last_part; [discriminate|apply pad4_ends_clean, year_bounds].
Qed.

Lemma year_led_strip sep :
  strip (pad4 (year dt) ++ String sep (ms ++ String sep ds))
  = (pad4 (year dt) ++ String sep (ms ++ String sep ds))%string.
Proof.
  destruct (pad4_digits (year dt) year_bounds) as (Y1 & _).
  apply strip_clean.
  - cbn. now rewrite is_space_digit.
  - apply ends_clean_last_part;
      [exact (writes_nonempty _ _ Hds)|exact (writes_ends_clean _ _ day_bounds Hds)].
Qed.

Lemma parse_date_year_month_day_slash :
  parse_date (CStr (pad4 (year dt) ++ String "/" (ms ++ String "/" ds)) : cell float)
  = Some (strftime dt).
Proof.
  destruct (pad4_digits (year dt) year_bounds) as (Y1 & Y2 & Y3 & Y4 & _).
  unfold parse_date. rewrite year_led_strip.
  set (text := (pad4 (year dt) ++ String "/" (ms ++ String "/" ds))%string).
  assert (Hre : re_match_iso text = false) by now apply re_match_iso_fifth.
  rewrite Hre. unfold formats. cbn [try_formats].
  assert (H1 : strptime text "%Y-%m-%d" = None).
  { eapply strptime_year_then_separator; [reflexivity|exact year_bounds|reflexivity]. }
  assert (H2 : strptime text "%m/%d/%Y" = None).
  { eapply (strptime_wrong_separator "%m/%d/%Y" DirM "/");
      [reflexivity|now left| |]; now apply eqb_slash_digit. }
  assert (H3 : strptime text "%d/%m/%Y" = None).
  { eapply (strptime_wrong_separator "%d/%m/%Y" DirD "/");
      [reflexivity|now right| |]; now apply eqb_slash_digit. }
  rewrite H1, H2, H3. unfold text.
  now rewrite (strptime_year_month_day "%Y/%m/%d" "/" (or_introl eq_refl) eq_refl).
Qed.

Lemma parse_date_year_month_day_hyphen :
  (ms = pad2 (month dt) /\ ds = pad2 (day dt)
   /\ parse_date (CStr (pad4 (year dt) ++ String "-" (ms ++ String "-" ds)) : cell float)
      = Some (pad4 (year dt) ++ String "-" (ms ++ String "-" ds))%string)
  \/ (((month dt < 10 /\ ms = String (digit (month dt)) EmptyString)
       \/ (day dt < 10 /\ ds = String (digit (day dt)) EmptyString))
      /\ parse_date (CStr (pad4 (year dt) ++ String "-" (ms ++ String "-" ds)) : cell float)
         = Some (strftime dt)).
Proof.
  assert (Hparsed : re_match_iso (pad4 (year dt) ++ String "-" (ms ++ String "-" ds)) = false ->
            parse_date (CStr (pad4 (year dt) ++ String "-" (ms ++ String "-" ds))
                        : cell float)
            = Some (strftime dt)).
  { intros Hre. unfold parse_date. rewrite year_led_strip, Hre.
    unfold formats. cbn [try_formats].
    now rewrite (strptime_year_month_day "%Y-%m-%d" "-" (or_intror eq_refl) eq_refl). }
  destruct Hms as [Em | [Hlm Em]].
  - destruct Hds as [Ed | [Hld Ed]].
    + left. split; [exact Em|]. split; [exact Ed|].
      unfold parse_date. rewrite Em, Ed.
      change (pad4 (year dt) ++ String "-" (pad2 (month dt) ++ String "-" (pad2 (day dt))))%string
        with (isoformat dt).
      now rewrite (iso_shape_re_match _ (iso_shape_isoformat dt)).
    + right. split; [right; now split|]. apply Hparsed. rewrite Em, Ed. reflexivity.
  - right. split; [left; now split|]. apply Hparsed. rewrite Em.
    exact (re_match_iso_seventh _ _ _ _ _ _ "-" _ eq_refl).
Qed.

End with_float.
End with_date.

(** X24.  [parse_date] pads the month and the day: a calendar day written
    year first with hyphens or slashes, month first with slashes, or day
    first with hyphens, the year on four digits, the month and the day with
    or without a leading zero, is read as that day and returned as
    [strftime] gives it, the month and the day on two digits: from the year
    1000 on, its zero-padded YYYY-MM-DD text.  The text that is already
    YYYY-MM-DD is returned as it is. *)
Theorem parse_date_pads {float : Type} (dt : datetime) (ms ds : string) :
  writes (month dt) ms -> writes (day dt) ds ->
  ((ms = pad2 (month dt) /\ ds = pad2 (day dt)
    /\ parse_date (CStr (pad4 (year dt) ++ "-" ++ ms ++ "-" ++ ds) : cell float)
       = Some (pad4 (year dt) ++ "-" ++ ms ++ "-" ++ ds)%string)
   \/ (((month dt < 10 /\ ms = String (digit (month dt)) EmptyString)
        \/ (day dt < 10 /\ ds = String (digit (day dt)) EmptyString))
       /\ parse_date (CStr (pad4 (year dt) ++ "-" ++ ms ++ "-" ++ ds) : cell float)
          = Some (strftime dt)))
  /\ parse_date (CStr (pad4 (year dt) ++ "/" ++ ms ++ "/" ++ ds) : cell float)
     = Some (strftime dt)
  /\ parse_date (CStr (ms ++ "/" ++ ds ++ "/" ++ pad4 (year dt)) : cell float)
     = Some (strftime dt)
  /\ parse_date (CStr (ds ++ "-" ++ ms ++ "-" ++ pad4 (year dt)) : cell float)
     = Some (strftime dt)
  /\ (1000 <= year dt ->
      strftime dt = (pad4 (year dt) ++ "-" ++ pad2 (month dt) ++ "-" ++ pad2 (day dt))%string).
Proof.
  intros Hms Hds. split; [|split; [|split; [|split]]].
  - exact (parse_date_year_month_day_hyphen dt ms ds Hms Hds).
  - exact (parse_date_year_month_day_slash dt ms ds Hms Hds).
  - exact (parse_date_month_day_year dt ms ds Hms Hds).
  - exact (parse_date_day_month_year dt ms ds Hms Hds).
  - apply strftime_isoformat.
Qed.

Lemma parse_date_pads_witness :
  parse_date (CStr "2023-1-5" : cell decimal_float.decimal) = Some "2023-01-05"
  /\ parse_date (CStr "2023/1/5" : cell decimal_float.decimal) = Some "2023-01-05"
  /\ parse_date (CStr "1/5/2023" : cell decimal_float.decimal) = Some "2023-01-05"
  /\ parse_date (CStr "5-1-2023" : cell decimal_float.decimal) = Some "2023-01-05".
Proof.
  destruct (parse_date_pads (float := decimal_float.decimal) january_fifth "1" "5")
    as (E1 & E2 & E3 & E4 & _);
    [right; split; [cbn; lia|reflexivity]..|].
  split; [|split; [exact E2|split; [exact E3|exact E4]]].
  destruct E1 as [(Em & _)|(_ & E1)]; [discriminate Em|exact E1].
Defined.

End padding_properties.

(* ------------------------------------------------------------------ *)
(** ** The order of the records of a job *)

Module order_properties.
Import pystr pyexcept pandas date_utils models categorizer transformer merger orchestrator.
Import calendar keyed merge_notions orchestrator_notions accounting_notions row_notions.
Import order_notions.
Import calendar_facts keyed_facts sorting_facts merger_facts orchestrator_facts examples.
Import orchestrator_properties merge_strategies row_properties orchestrator_accounting.

Section with_transaction.
Context {T : Type} `{Transaction T}.

Lemma on_date_insert_by date (x : T) l :
  on_date date (insert_by get_transaction_date x l)
  = on_date date (x :: l).
Proof.
  unfold on_date. induction l as [|y l IH]; [reflexivity|].
  cbn [insert_by].
  destruct (String.leb (get_transaction_date x) (get_transaction_date y)) eqn:Hle;
    [reflexivity|].
  cbn [filter] in *. rewrite IH.
  destruct (String.eqb_spec (get_transaction_date x) date) as [Ex|_]; [|reflexivity].
  destruct (String.eqb_spec (get_transaction_date y) date) as [Ey|_]; [|reflexivity].
  rewrite Ex, Ey, string_leb_refl in Hle. discriminate.
Qed.

(** The sort keeps the records of one date in their order. *)
Lemma on_date_sort_by date (l : list T) :
  on_date date (sort_by get_transaction_date l) = on_date date l.
Proof.
  induction l as [|x l IH]; [reflexivity|].
  change (sort_by get_transaction_date (x :: l))
    with (insert_by get_transaction_date x (sort_by get_transaction_date l)).
  rewrite on_date_insert_by. unfold on_date in *. cbn [filter]. now rewrite IH.
Qed.

Lemma canonical_sort_by (l : list T) :
  canonical_dates l -> canonical_dates (sort_by get_transaction_date l).
Proof.
  intros Hl. unfold canonical_dates.
  refine (Permutation_Forall _ Hl).
  symmetry. apply sort_by_perm.
Qed.

Lemma insert_by_zmerge_one (x : T) l :
  canonical_dates (x :: l) ->
  insert_by get_transaction_date x l = zmerge dkey [x] l.
Proof.
  intros Hc. rewrite <- (zmerge_nil_l dkey l) at 1.
  apply insert_by_zmerge; [|now apply Forall_inv_tail in Hc|constructor].
  constructor; [now apply Forall_inv in Hc|constructor].
Qed.

(** Sorting a concatenation is merging the sorted parts. *)
Lemma sort_by_app_zmerge (l1 l2 : list T) :
  canonical_dates l1 -> canonical_dates l2 ->
  sort_by get_transaction_date (l1 ++ l2)
  = zmerge dkey (sort_by get_transaction_date l1) (sort_by get_transaction_date l2).
Proof.
  intros H1 H2. induction l1 as [|x l1 IH].
  - exact (eq_sym (zmerge_nil_l dkey (sort_by get_transaction_date l2))).
  - pose proof (Forall_inv H1) as Hx. pose proof (Forall_inv_tail H1) as Hl1.
    change (sort_by get_transaction_date ((x :: l1) ++ l2))
      with (insert_by get_transaction_date x (sort_by get_transaction_date (l1 ++ l2))).
    change (sort_by get_transaction_date (x :: l1))
      with (insert_by get_transaction_date x (sort_by get_transaction_date l1)).
    rewrite (IH Hl1).
    rewrite !insert_by_zmerge_one.
    + now rewrite zmerge_assoc.
    + constructor; [exact Hx|now apply canonical_sort_by].
    + constructor; [exact Hx|].
      apply canonical_zmerge; now apply canonical_sort_by.
Qed.

Lemma fold_merge_sort_by (bs : list (list T)) (l : list T) :
  canonical_dates l -> Forall canonical_dates bs -> Forall sorted_by_text bs ->
  fold_left merge_transactions bs (sort_by get_transaction_date l)
  = sort_by get_transaction_date (l ++ List.concat bs).
Proof.
  revert l. induction bs as [|b bs IH]; intros l Hl Hc Hs.
  - cbn. now rewrite app_nil_r.
  - pose proof (Forall_inv Hc) as Hb. pose proof (Forall_inv Hs) as Sb.
    cbn [fold_left List.concat].
    rewrite merge_transactions_zmerge; [|now apply canonical_sort_by|exact Hb].
    rewrite <- (sort_by_of_sorted get_transaction_date b Sb) at 1.
    rewrite <- sort_by_app_zmerge by assumption.
    rewrite IH.
    + now rewrite app_assoc.
    + apply Forall_app. now split.
    + now apply Forall_inv_tail in Hc.
    + now apply Forall_inv_tail in Hs.
Qed.

End with_transaction.

Section with_loader.
Context {float : Type} `{PyFloat float}.
Variable load_file : string -> string -> DataFrame float + string.

(** X25.  The sort of the lists of a file keeps the order of the rows among
    the records of one date: for every date, the records of that date in a
    list of the file are those the rows give, in row order. *)
Theorem process_rows_keeps_row_order filename (df : DataFrame float) errors date col :
  find_transaction_type_column df = Return col ->
  let rows := iterrows df in
  exists st,
    process_rows filename df errors = Return st
    /\ on_date date (file_purchases st)
       = on_date date (picks (fun item => purchase_of_row df col (snd item)) rows)
    /\ on_date date (file_sales st)
       = on_date date (picks (fun item => sale_of_row df col (snd item)) rows)
    /\ on_date date (file_dividends st)
       = on_date date (picks (fun item => dividend_of_row df col (snd item)) rows)
    /\ on_date date (file_taxes st)
       = on_date date (picks (fun item => tax_of_row df col (snd item)) rows)
    /\ on_date date (file_transfers st)
       = on_date date (picks (fun item => transfer_of_row df col (snd item)) rows).
Proof.
  intros Ec. cbv zeta. unfold process_rows. rewrite Ec. cbn [bind].
  eexists. split; [reflexivity|].
  destruct (process_rows_of_parts filename df col errors) as (-> & -> & -> & -> & ->).
  split; [|split; [|split; [|split]]].
  - apply (@on_date_sort_by (Purchase float) Purchase_transaction).
  - apply (@on_date_sort_by (Sale float) Sale_transaction).
  - apply (@on_date_sort_by (Dividend float) Dividend_transaction).
  - apply (@on_date_sort_by (Tax float) Tax_transaction).
  - apply (@on_date_sort_by (Transfer float) Transfer_transaction).
Qed.

Lemma stable_sort_of_kind {T : Type} `{Transaction T} (kind : string)
    (part : file_state float -> list T) directory files sts :
  (forall st t, In t (part st) -> In (kind, get_transaction_date t) (stamps st)) ->
  (forall f st, file_contribution load_file directory f = Return st ->
                sorted_by_text (part st)) ->
  contributions load_file directory files = Return sts ->
  (forall f, In f files -> canonical_file load_file directory f) ->
  fold_left merge_transactions (map part sts) []
  = sort_by get_transaction_date (List.concat (map part sts)).
Proof.
  intros Hstamp Hsorted Es Hcan.
  assert (Hcf : forall st, In st sts -> canonical_dates (part st) /\ sorted_by_text (part st)).
  { intros st Hst.
    destruct (proj2 (contributions_in load_file directory files sts Es) st Hst)
      as (f & Hf & Ef).
    split; [|exact (Hsorted f st Ef)].
    exact (canonical_part load_file kind part directory f st Hstamp Ef (Hcan f Hf)). }
  apply (fold_merge_sort_by _ []).
  - constructor.
  - apply Forall_map, Forall_forall. intros st Hst. now apply Hcf.
  - apply Forall_map, Forall_forall. intros st Hst. now apply Hcf.
Qed.

(** X26.  When every record of every file of a job has the zero-padded
    text of a calendar day for its date, each sequence of the result is the
    stable sort by date of the records the files contribute, taken in the
    order of the files: records of one date come in file order, and within
    a file in the order of its list. *)
Theorem parse_job_stable_sort (directory job : string) (files : list string)
    (r : ParsedJobResult float) :
  (forall f, In f files -> canonical_file load_file directory f) ->
  parse_job load_file (new_parser job) directory files = Return r ->
  exists sts,
    contributions load_file directory files = Return sts
    /\ purchases r = sort_by purchase_date (List.concat (map (@file_purchases float) sts))
    /\ sales r = sort_by sale_date (List.concat (map (@file_sales float) sts))
    /\ dividends r = sort_by dividend_date (List.concat (map (@file_dividends float) sts))
    /\ taxes r = sort_by tax_date (List.concat (map (@file_taxes float) sts))
    /\ transfers r = sort_by transfer_date (List.concat (map (@file_transfers float) sts)).
Proof.
  intros Hcan Er.
  apply parse_job_result in Er as (sts & Es & _ & E1 & E2 & E3 & E4 & E5 & _).
  exists sts. split; [exact Es|].
  rewrite E1, E2, E3, E4, E5.
  cbn [new_parser self_purchases self_sales self_dividends self_taxes self_transfers].
  pose proof (fun f st E => contribution_sorted load_file directory f st E) as Hs.
  split; [|split; [|split; [|split]]].
  - apply (@stable_sort_of_kind (Purchase float) Purchase_transaction "purchase"
             (@file_purchases float) directory files sts stamps_in_purchases);
      [intros f st E; apply (Hs f st E)|exact Es|exact Hcan].
  - apply (@stable_sort_of_kind (Sale float) Sale_transaction "sale"
             (@file_sales float) directory files sts stamps_in_sales);
      [intros f st E; apply (Hs f st E)|exact Es|exact Hcan].
  - apply (@stable_sort_of_kind (Dividend float) Dividend_transaction "dividend"
             (@file_dividends float) directory files sts stamps_in_dividends);
      [intros f st E; apply (Hs f st E)|exact Es|exact Hcan].
  - apply (@stable_sort_of_kind (Tax float) Tax_transaction "tax"
             (@file_taxes float) directory files sts stamps_in_taxes);
      [intros f st E; apply (Hs f st E)|exact Es|exact Hcan].
  - apply (@stable_sort_of_kind (Transfer float) Transfer_transaction "transfer"
             (@file_transfers float) directory files sts stamps_in_transfers);
      [intros f st E; apply (Hs f st E)|exact Es|exact Hcan].
Qed.

End with_loader.

#[local] Existing Instance decimal_float.decimal_PyFloat.

Lemma process_rows_keeps_row_order_witness :
  exists st,
    process_rows "both.csv"
      (table [values_of "2023-01-15" "Buy" "MSFT"; values_of "2023-01-15" "Buy" "AAPL"]) []
    = Return st
    /\ map purchase_company_symbol (on_date "2023-01-15" (file_purchases st))
       = ["MSFT"; "AAPL"].
Proof.
  destruct (process_rows_keeps_row_order "both.csv"
              (table [values_of "2023-01-15" "Buy" "MSFT";
                      values_of "2023-01-15" "Buy" "AAPL"]) [] "2023-01-15"
              (Some "Transaction Type") eq_refl)
    as (st & Est & Ep & _).
  exists st. split; [exact Est|]. rewrite Ep. vm_compute; reflexivity.
Defined.

Lemma parse_job_stable_sort_witness :
  exists r,
    parse_job load_file (new_parser "job") "/uploads" ["later.csv"; "msft.csv"; "aapl.csv"]
    = Return r
    /\ map purchase_company_symbol (purchases r) = ["MSFT"; "AAPL"; "GOOG"].
Proof.
  destruct (parse_job load_file (new_parser "job") "/uploads"
              ["later.csv"; "msft.csv"; "aapl.csv"]) as [r|e] eqn:Er;
    [|vm_compute in Er; discriminate].
  destruct (parse_job_stable_sort load_file "/uploads" "job"
              ["later.csv"; "msft.csv"; "aapl.csv"] r) as (sts & Es & E & _).
  - intros f [<-|[<-|[<-|[]]]]; apply Forall_forall; intros stamp Hin;
      vm_compute in Hin; destruct Hin as [<-|[]]; vm_compute; reflexivity.
  - exact Er.
  - exists r. split; [reflexivity|]. rewrite E.
    vm_compute in Es. injection Es as <-. vm_compute. reflexivity.
Defined.

End order_properties.
